(** * The API client of the frontend (lib/api.ts): transport, endpoint
    operations and response normalisation

    A shallow embedding of [fetchWithTimeout], of the four operations of
    [apiClient] and of [mapApiResponseToFrontend]; of the validators
    [validateFile] and [validateUniversityName], of [formatUniversityName],
    of [checkBackendHealth] and [testBackendConnection]; and of the two
    handlers of the pages that call the client, [uploadAndAnalyzeFile]
    and [handleSubmit].  Payloads are the values
    [JSON.parse] produces, read with the rules of the language (truthiness,
    [||], property lookup through the prototype chain, ToString); the
    asynchronous code is a state-and-exception monad over a [World] that
    holds the network, the timers, [Math.random] and the clock.

    A string is a sequence of code units below 256.  A number is a
    double, as the rational it is or as an infinity: arithmetic rounds to
    the nearest double and ToString prints the fewest digits that
    identify it.  [NaN] is in no payload ([JSON.parse] yields none) and
    the two zeros are one: the client applies to a number of a payload
    only [||], [&&], [typeof], ToString and [+ 1], which do not tell
    them apart. *)

From Stdlib Require Import ZArith List String Ascii Bool Lia QArith Qround Qpower Qabs Lqa.
From Stdlib Require Import DecimalString.
From Stdlib Require DecimalZ DecimalPos.
Import ListNotations.

Set Warnings "-register-all".

Close Scope Q_scope.
Local Open Scope string_scope.
Local Open Scope Z_scope.

(** ** Strings *)

Module Str.

(** The decimal text of an integer, all of its digits: what a template
    literal prints for an array index, a length or an HTTP status. *)
Definition of_Z (n : Z) : string := NilZero.string_of_int (Z.to_int n).

Definition of_nat (n : nat) : string := of_Z (Z.of_nat n).

Fixpoint starts_with (prefix s : string) : bool :=
  match prefix, s with
  | EmptyString, _ => true
  | String a p, String b t => Ascii.eqb a b && starts_with p t
  | String _ _, EmptyString => false
  end.

(** [s.includes(needle)] *)
Fixpoint includes (needle s : string) : bool :=
  starts_with needle s ||
  match s with
  | EmptyString => false
  | String _ t => includes needle t
  end.

(** White space and line terminators among the code units below 256:
    TAB, LF, VT, FF, CR, SPACE and NBSP. *)
Definition is_space (c : ascii) : bool :=
  let n := nat_of_ascii c in
  (Nat.leb 9 n && Nat.leb n 13) || Nat.eqb n 32 || Nat.eqb n 160.

Fixpoint trim_start (s : string) : string :=
  match s with
  | EmptyString => EmptyString
  | String c t => if is_space c then trim_start t else s
  end.

Fixpoint trim_end (s : string) : string :=
  match s with
  | EmptyString => EmptyString
  | String c t =>
      match trim_end t with
      | EmptyString => if is_space c then EmptyString else String c EmptyString
      | t' => String c t'
      end
  end.

(** [s.trim()] *)
Definition trim (s : string) : string := trim_end (trim_start s).

Definition is_empty (s : string) : bool :=
  match s with EmptyString => true | _ => false end.

(** [s.length], counted with the integers of the language *)
Definition len (s : string) : Z := Z.of_nat (String.length s).

Fixpoint join (sep : string) (parts : list string) : string :=
  match parts with
  | [] => ""
  | [p] => p
  | p :: rest => p ++ sep ++ join sep rest
  end.

End Str.

(** ** Doubles

    A finite number of the language is a rational [m * 2^e] with 53 bits
    in [m]; the functions below take and return such rationals. *)

Module Double.

(** [floor (log2 x)], for [0 < x] *)
Definition binade (x : Q) : Z :=
  let e := Z.log2 (Qnum x) - Z.log2 (Zpos (Qden x)) in
  if Qle_bool (2 ^ e) x then e else e - 1.

(** The integer nearest to [x], the even one of two. *)
Definition nearest (x : Q) : Z :=
  let below := Qfloor x in
  match (x - inject_Z below ?= 1 # 2)%Q with
  | Lt => below
  | Gt => below + 1
  | Eq => if Z.even below then below else below + 1
  end.

(** The weight of the last of the 53 bits of the doubles around [x]; the
    exponent of a double is no less than -1022. *)
Definition ulp (x : Q) : Q := (2 ^ (Z.max (binade (Qabs x)) (-1022) - 52))%Q.

(** The double nearest to [x]. *)
Definition round (x : Q) : Q :=
  if Qeq_bool x 0 then 0%Q
  else Qred (inject_Z (nearest (x / ulp x)) * ulp x).

(** [floor (log10 x)], for a double [0 < x]: [log10 2] is 0.30103 to
    five places, which puts the estimate within one of it, and the two
    comparisons choose. *)
Definition decade (x : Q) : Z :=
  let d := binade x * 30103 / 100000 in
  if Qle_bool (10 ^ (d + 1)) x then d + 1
  else if Qle_bool (10 ^ d) x then d
  else d - 1.

(** The [k]-digit decimal [s * 10^(n - k)] next to [x] that reads back
    as [x], the nearer one if both neighbours do. *)
Definition digits_at (x : Q) (n k : Z) : option Z :=
  let scale := (10 ^ (n - k))%Q in
  let below := Qfloor (x / scale) in
  let reads s := Qeq_bool (round (inject_Z s * scale)) x in
  match reads below, reads (below + 1) with
  | true, true => Some (nearest (x / scale))
  | true, false => Some below
  | false, true => Some (below + 1)
  | false, false => None
  end.

(** The fewest digits that identify [x], from [k] digits on; 17 digits
    identify every double, so that the search ends before its fuel. *)
Fixpoint shortest (fuel : nat) (x : Q) (n k : Z) : Z * Z :=
  match fuel with
  | O => (Qfloor (x / 10 ^ (n - k)), k)
  | S fuel' =>
      match digits_at x n k with
      | Some s => (s, k)
      | None => shortest fuel' x n (k + 1)
      end
  end.

Fixpoint zeros (n : nat) : string :=
  match n with O => "" | S n' => String "0" (zeros n') end.

(** Number::toString of a positive double: the digits [s] (there are
    [k]) and the decimal exponent [n], with [s * 10^(n - k)] the value. *)
Definition layout (s k n : Z) : string :=
  let digits := Str.of_Z s in
  if (k <=? n) && (n <=? 21) then digits ++ zeros (Z.to_nat (n - k))
  else if (0 <? n) && (n <=? 21) then
    substring 0 (Z.to_nat n) digits ++ "."
    ++ substring (Z.to_nat n) (Z.to_nat (k - n)) digits
  else if (-6 <? n) && (n <=? 0) then "0." ++ zeros (Z.to_nat (- n)) ++ digits
  else
    let exponent := (if n - 1 <? 0 then "-" else "+") ++ Str.of_Z (Z.abs (n - 1)) in
    if k =? 1 then digits ++ "e" ++ exponent
    else substring 0 1 digits ++ "." ++ substring 1 (Z.to_nat (k - 1)) digits
         ++ "e" ++ exponent.

Definition positive_to_string (x : Q) : string :=
  let n := decade x + 1 in
  let (s, k) := shortest 17 x n 1 in
  if s =? 10 ^ k then layout 1 1 (n + 1) else layout s k n.

(** Number::toString, radix 10 *)
Definition to_string (x : Q) : string :=
  let d := round x in
  match (d ?= 0)%Q with
  | Eq => "0"
  | Lt => "-" ++ positive_to_string (Qabs d)
  | Gt => positive_to_string d
  end.

(** [a + b], [a * b] and [a / b]; no sum, product or quotient the client
    forms is beyond the largest double. *)
Definition add (a b : Q) : Q := round (a + b).
Definition mul (a b : Q) : Q := round (a * b).
Definition div (a b : Q) : Q := round (a / b).

(** The sum of two whole numbers: a whole number again. *)
Definition add_Z (a b : Z) : Z := Qfloor (add (inject_Z a) (inject_Z b)).

(** [x] has no fractional part. *)
Definition whole (x : Q) : bool := Qeq_bool (inject_Z (Qfloor x)) x.

End Double.

(** ** Values

    What [JSON.parse] yields, plus [undefined] (an absent property) and
    the built-in objects a lookup can reach through [Object.prototype]
    ([JBuiltin name] is the member [name] of [Object.prototype]: a
    function, or for [__proto__] the prototype itself).  A number is
    [JNum n] when it is the whole number [n], [JFrac q] when it is the
    double [q] with a fractional part, and [JInfinity], which
    [JSON.parse] makes of a literal beyond the doubles such as [1e999]. *)

Inductive JsValue : Type :=
| JUndefined
| JNull
| JBool (b : bool)
| JNum (n : Z)
| JFrac (q : Q)
| JInfinity (negative : bool)
| JStr (s : string)
| JArr (items : list JsValue)
| JObj (fields : list (string * JsValue))
| JBuiltin (name : string).

(** ToBoolean: [undefined], [null], [false], [0] and [""] are falsy. *)
Definition truthy (v : JsValue) : bool :=
  match v with
  | JUndefined | JNull => false
  | JBool b => b
  | JNum n => negb (n =? 0)
  | JFrac q => negb (Qeq_bool q 0)
  | JStr s => negb (Str.is_empty s)
  | JInfinity _ | JArr _ | JObj _ | JBuiltin _ => true
  end.

(** [a || b] *)
Definition js_or (a b : JsValue) : JsValue := if truthy a then a else b.

Definition nullish (v : JsValue) : bool :=
  match v with JUndefined | JNull => true | _ => false end.

(** [Array.isArray(v)] *)
Definition isArray (v : JsValue) : bool :=
  match v with JArr _ => true | _ => false end.

(** [typeof v === "number"] *)
Definition is_number (v : JsValue) : bool :=
  match v with JNum _ | JFrac _ | JInfinity _ => true | _ => false end.

(** [typeof v === "object"]: objects, arrays and [null]; of the built-ins
    only [Object.prototype] itself, the others are functions. *)
Definition typeof_object (v : JsValue) : bool :=
  match v with
  | JNull | JArr _ | JObj _ => true
  | JBuiltin name => String.eqb name "__proto__"
  | _ => false
  end.

(** ToString, as a template literal, [+] on a string, the constructor of
    [Error] and a computed property key apply it.  [None] is the
    [TypeError] of ToPrimitive: a parsed object that has a member
    [toString] of its own (never callable) cannot be converted; every
    other object prints through [Object.prototype.toString], an array
    through [join].  (No payload holds a built-in; the text printed for
    one only tells it apart.) *)
Fixpoint to_string (v : JsValue) : option string :=
  match v with
  | JUndefined => Some "undefined"
  | JNull => Some "null"
  | JBool true => Some "true"
  | JBool false => Some "false"
  | JNum n => Some (Double.to_string (inject_Z n))
  | JFrac q => Some (Double.to_string q)
  | JInfinity negative => Some (if negative then "-Infinity" else "Infinity")
  | JStr s => Some s
  | JArr items =>
      option_map (Str.join ",")
        ((fix each (l : list JsValue) : option (list string) :=
            match l with
            | [] => Some []
            | x :: rest =>
                match (match x with
                       | JUndefined | JNull => Some ""
                       | _ => to_string x
                       end), each rest with
                | Some s, Some ss => Some (s :: ss)
                | _, _ => None
                end
            end) items)
  | JObj fields =>
      if existsb (fun kv => String.eqb (fst kv) "toString") fields then None
      else Some "[object Object]"
  | JBuiltin name =>
      Some (if String.eqb name "__proto__" then "[object Object]"
            else "function " ++ name ++ "() { [native code] }")
  end.

(** The number [x] as a value. *)
Definition number (x : Q) : JsValue :=
  if Double.whole x then JNum (Qfloor x) else JFrac (Qred x).

(** The members every object inherits from [Object.prototype]. *)
Definition object_prototype_members : list string :=
  [ "constructor"; "hasOwnProperty"; "isPrototypeOf"; "propertyIsEnumerable";
    "toLocaleString"; "toString"; "valueOf"; "__proto__";
    "__defineGetter__"; "__defineSetter__"; "__lookupGetter__";
    "__lookupSetter__" ].

Definition inherited (key : string) : bool :=
  existsb (String.eqb key) object_prototype_members.

Fixpoint own (key : string) (fields : list (string * JsValue)) : option JsValue :=
  match fields with
  | [] => None
  | (k, v) :: rest => if String.eqb key k then Some v else own key rest
  end.

(** [v[key]] for a [v] that is neither [null] nor [undefined]: an own
    property first, then the prototype chain.  Of the prototypes only
    [Object.prototype] is modelled; no property name the client reads from
    a payload is a member of another one. *)
Definition lookup (v : JsValue) (key : string) : JsValue :=
  match v with
  | JObj fields =>
      match own key fields with
      | Some x => x
      | None => if inherited key then JBuiltin key else JUndefined
      end
  | _ => if inherited key then JBuiltin key else JUndefined
  end.

(** ** Failures *)

Inductive ErrorClass : Type :=
| PlainError | TypeError | SyntaxError | RangeError | DOMException.

(** A thrown value: an [ApiError] (message, status, optional raw
    response), another [Error] with its class, [name] and [message], or
    a value that is no [Error] at all. *)
Inductive JsError : Type :=
| ApiError (message : string) (status : Z) (response : JsValue)
| NativeError (class : ErrorClass) (name message : string)
| ThrownValue (v : JsValue).

(** [error instanceof ApiError] *)
Definition instanceof_ApiError (e : JsError) : bool :=
  match e with ApiError _ _ _ => true | _ => false end.

(** [error instanceof Error] *)
Definition instanceof_Error (e : JsError) : bool :=
  match e with ThrownValue _ => false | _ => true end.

Definition instanceof_class (c : ErrorClass) (e : JsError) : bool :=
  match e, c with
  | NativeError TypeError _ _, TypeError => true
  | NativeError SyntaxError _ _, SyntaxError => true
  | NativeError RangeError _ _, RangeError => true
  | NativeError DOMException _ _, DOMException => true
  | _, _ => false
  end.

Definition error_name (e : JsError) : string :=
  match e with
  | ApiError _ _ _ => "ApiError"
  | NativeError _ name _ => name
  | ThrownValue _ => ""
  end.

Definition error_message (e : JsError) : string :=
  match e with
  | ApiError m _ _ => m
  | NativeError _ _ m => m
  | ThrownValue _ => ""
  end.

(** [error instanceof Error ? error.message : fallback] *)
Definition message_or (fallback : string) (e : JsError) : string :=
  if instanceof_Error e then error_message e else fallback.

(** The status an [ApiError] carries; other failures carry none. *)
Definition status_of (e : JsError) : option Z :=
  match e with ApiError _ s _ => Some s | _ => None end.

Inductive Completion (A : Type) : Type :=
| Normal (a : A)
| Abrupt (e : JsError).
Arguments Normal {A} a.
Arguments Abrupt {A} e.

(** ** The world of an asynchronous call

    [fetch] is answered by the network: the [k]-th request issued gets
    [network k request], a response or a rejection (a [TypeError] when
    there is no connection, the [DOMException] named AbortError when the
    timer of [fetchWithTimeout] aborted the request).  The world records
    the requests issued and the delays waited, and supplies
    [Math.random], the clock and the configured base URL. *)

Record Request : Type := {
  url : string;
  method : string;
  headers : list (string * string);
  body : option JsValue   (* the value given to JSON.stringify, if any *)
}.

(** A response: its status, a whole number of three digits, and what
    [response.json()] settles to. *)
Record Response : Type := {
  status : Z;
  json : Completion JsValue
}.

(** [response.ok]: the status is in 200..299. *)
Definition ok (r : Response) : bool :=
  (200 <=? status r) && (status r <=? 299).

Record World : Type := {
  network : nat -> Request -> Completion Response;
  sent : list Request;                (* requests issued, oldest first *)
  slept : list Z;                     (* delays waited, in ms, oldest first *)
  entropy : nat -> Q;                 (* the successive values of Math.random() *)
  drawn : nat;                        (* how many were consumed *)
  clock : string;                     (* new Date().toISOString() *)
  NEXT_PUBLIC_API_URL : option string; (* process.env.NEXT_PUBLIC_API_URL *)
  argument_limit : N                  (* arguments the engine accepts in a call *)
}.

(** [Math.random()] returns a double in [0, 1). *)
Definition fair (w : World) : Prop :=
  forall k, (0 <= entropy w k)%Q /\ (entropy w k < 1)%Q /\
            (Double.round (entropy w k) == entropy w k)%Q.

Definition Js (A : Type) : Type := World -> Completion A * World.

Definition ret {A} (a : A) : Js A := fun w => (Normal a, w).

Definition throw {A} (e : JsError) : Js A := fun w => (Abrupt e, w).

Definition bind {A B} (m : Js A) (k : A -> Js B) : Js B :=
  fun w =>
    match m w with
    | (Normal a, w') => k a w'
    | (Abrupt e, w') => (Abrupt e, w')
    end.

(** [try { m } catch (error) { handler }] *)
Definition try_catch {A} (m : Js A) (handler : JsError -> Js A) : Js A :=
  fun w =>
    match m w with
    | (Normal a, w') => (Normal a, w')
    | (Abrupt e, w') => handler e w'
    end.

(** Lift a settled promise or a throwing expression. *)
Definition settle {A} (c : Completion A) : Js A := fun w => (c, w).

Declare Scope js_scope.
Delimit Scope js_scope with js.
Notation "x <- m ;; k" := (bind m (fun x => k))
  (at level 61, m at next level, right associativity) : js_scope.
Notation "m ;;; k" := (bind m (fun _ => k))
  (at level 61, right associativity) : js_scope.
Local Open Scope js_scope.

(** [fetch(url, options)] *)
Definition fetch (request : Request) : Js Response :=
  fun w =>
    (network w (List.length (sent w)) request,
     {| network := network w; sent := sent w ++ [request]; slept := slept w;
        entropy := entropy w; drawn := drawn w; clock := clock w;
        NEXT_PUBLIC_API_URL := NEXT_PUBLIC_API_URL w;
        argument_limit := argument_limit w |}).

(** [await new Promise((resolve) => setTimeout(resolve, ms))] *)
Definition sleep (ms : Z) : Js unit :=
  fun w =>
    (Normal tt,
     {| network := network w; sent := sent w; slept := slept w ++ [ms];
        entropy := entropy w; drawn := drawn w; clock := clock w;
        NEXT_PUBLIC_API_URL := NEXT_PUBLIC_API_URL w;
        argument_limit := argument_limit w |}).

(** [Math.floor(Math.random() * span) + base]: the product is rounded
    to a double before [Math.floor] sees it. *)
Definition random_int (span base : Z) : Js Z :=
  fun w =>
    (Normal (Double.add_Z
               (Qfloor (Double.mul (entropy w (drawn w)) (inject_Z span))) base),
     {| network := network w; sent := sent w; slept := slept w;
        entropy := entropy w; drawn := S (drawn w); clock := clock w;
        NEXT_PUBLIC_API_URL := NEXT_PUBLIC_API_URL w;
        argument_limit := argument_limit w |}).

(** [new Date().toISOString()] *)
Definition now : Js string := fun w => (Normal (clock w), w).

(** [v.key], a [TypeError] when [v] is [null] or [undefined] *)
Definition get (v : JsValue) (key : string) : Js JsValue :=
  match v with
  | JUndefined =>
      throw (NativeError TypeError "TypeError"
               ("Cannot read properties of undefined (reading '" ++ key ++ "')"))
  | JNull =>
      throw (NativeError TypeError "TypeError"
               ("Cannot read properties of null (reading '" ++ key ++ "')"))
  | _ => ret (lookup v key)
  end.

(** ToString where it can throw. *)
Definition ToString (v : JsValue) : Js string :=
  match to_string v with
  | Some s => ret s
  | None =>
      throw (NativeError TypeError "TypeError"
               "Cannot convert object to primitive value")
  end.

(** [(chunk || 0) + 1]: the left operand is a truthy value or [0]; [+] is
    the sum of doubles on a number and on [true], and concatenates after
    ToString on a string, an array or an object. *)
Definition plus_one_or_zero (chunk : JsValue) : Js JsValue :=
  match js_or chunk (JNum 0) with
  | JNum n => ret (JNum (Double.add_Z n 1))
  | JFrac q => ret (number (Double.add q 1))
  | JInfinity negative => ret (JInfinity negative)
  | JBool _ => ret (JNum 2)
  | other => s <- ToString other ;; ret (JStr (s ++ "1"))
  end.

(** ** Constants *)

Definition base_url (w : World) : string :=
  match NEXT_PUBLIC_API_URL w with
  | Some u => if Str.is_empty u then "https://asv-8ghi.onrender.com" else u
  | None => "https://asv-8ghi.onrender.com"
  end.

(** [process.env.NEXT_PUBLIC_API_URL || "https://asv-8ghi.onrender.com"] *)
Definition API_BASE_URL : Js string := fun w => (Normal (base_url w), w).

Definition FETCH_TIMEOUT : Z := 30000.
Definition UNIVERSITY_TIMEOUT : Z := 100000.
Definition MAX_RETRIES : Z := 2.

(** ** Transport *)

(** The two parameters of [fetchWithTimeout] typed [number] are finite
    doubles, whole or not; a whole number is read as one. *)
Coercion inject_Z : Z >-> Q.

(** What the last attempt's failure is rethrown as; [timeout / 1000] is
    a quotient of doubles, printed as the template literal prints it. *)
Definition exhausted (timeout : Q) (error : JsError) : JsError :=
  if instanceof_Error error && String.eqb (error_name error) "AbortError" then
    ApiError ("Request timeout after " ++ Double.to_string (Double.div timeout 1000)
              ++ " seconds")
      408 JUndefined
  else error.

(** The loop of [fetchWithTimeout] from [attempt] on; [fuel] is the number
    of iterations [attempt <= retries] still allows.  [attempt === retries]
    compares the counter, a whole number, with a [retries] that need not
    be one.  The abort timer is the network's business: a request that
    outlives [timeout] is rejected with the AbortError. *)
Fixpoint attempts (fuel : nat) (request : Request) (timeout retries : Q) (attempt : Z)
  : Js Response :=
  match fuel with
  | O => throw (NativeError PlainError "Error" "Maximum retries exceeded")
  | S fuel' =>
      try_catch (fetch request)
        (fun error =>
           if Qeq_bool (inject_Z attempt) retries then throw (exhausted timeout error)
           else
             sleep (2 ^ attempt * 1000) ;;;
             attempts fuel' request timeout retries (attempt + 1))
  end.

(** [attempt] runs through 0, 1, ... while [attempt <= retries]: that is
    [floor retries + 1] iterations, none when [retries] is negative. *)
Definition fetchWithTimeout (request : Request) (timeout retries : Q) : Js Response :=
  attempts (Z.to_nat (Qfloor retries + 1)) request timeout retries 0.

(** ** Endpoint client *)

Definition GET (u : string) : Request :=
  {| url := u; method := "GET"; headers := []; body := None |}.

Definition POST (u : string) (value : JsValue) : Request :=
  {| url := u; method := "POST";
     headers := [("Content-Type", "application/json"); ("Accept", "application/json")];
     body := Some value |}.

(** The catch clause of [getHealth] and [getStatus]. *)
Definition or_cannot (what : string) (error : JsError) : Js JsValue :=
  if instanceof_ApiError error then throw error
  else throw (ApiError what 0 JUndefined).

Definition getHealth : Js JsValue :=
  try_catch
    (base <- API_BASE_URL ;;
     response <- fetchWithTimeout (GET (base ++ "/")) 5000 1 ;;
     if negb (ok response) then
       throw (ApiError "Failed to connect to API" (status response) JUndefined)
     else settle (json response))
    (or_cannot "Cannot connect to backend server").

Definition getStatus : Js JsValue :=
  try_catch
    (base <- API_BASE_URL ;;
     response <- fetchWithTimeout (GET (base ++ "/status")) 5000 1 ;;
     if negb (ok response) then
       throw (ApiError "Failed to get server status" (status response) JUndefined)
     else settle (json response))
    (or_cannot "Cannot get server status").

(** A [File]: name, size, MIME type and what [arrayBuffer()] settles to. *)
Record File : Type := {
  name : string;
  size : Z;
  type : string;
  arrayBuffer : Completion (list Byte.byte)
}.

Module Base64.

Definition alphabet : string :=
  "ABCDEFGHIJKLMNOPQRSTUVWXYZabcdefghijklmnopqrstuvwxyz0123456789+/".

Definition digit (n : N) : string :=
  match String.get (N.to_nat n) alphabet with
  | Some c => String c ""
  | None => "="
  end.

(** [btoa] of the string whose code units are [bytes] *)
Fixpoint btoa (bytes : list Byte.byte) : string :=
  match bytes with
  | [] => ""
  | [a] =>
      let x := Byte.to_N a in
      digit (x / 4) ++ digit (x mod 4 * 16) ++ "=="
  | [a; b] =>
      let x := Byte.to_N a in
      let y := Byte.to_N b in
      digit (x / 4) ++ digit (x mod 4 * 16 + y / 16) ++ digit (y mod 16 * 4) ++ "="
  | a :: b :: c :: rest =>
      let x := Byte.to_N a in
      let y := Byte.to_N b in
      let z := Byte.to_N c in
      digit (x / 4) ++ digit (x mod 4 * 16 + y / 16)
        ++ digit (y mod 16 * 4 + z / 64) ++ digit (z mod 64) ++ btoa rest
  end%N.

End Base64.

(** [btoa(String.fromCharCode(...new Uint8Array(fileBuffer)))]: the
    spread passes one argument per byte, and the engine refuses a call
    with more arguments than it can hold. *)
Definition encode (fileBuffer : list Byte.byte) : Js string :=
  fun w =>
    if N.ltb (argument_limit w) (N.of_nat (List.length fileBuffer)) then
      (Abrupt (NativeError RangeError "RangeError" "Maximum call stack size exceeded"), w)
    else (Normal (Base64.btoa fileBuffer), w).

(** [a || b || fallback] as the message of an [ApiError] *)
Definition first_message (a b : JsValue) (fallback : string) : Js string :=
  ToString (js_or a (js_or b (JStr fallback))).

(** The catch clause of [analyzeDocument]. *)
Definition analysis_failure (error : JsError) : Js JsValue :=
  if instanceof_ApiError error then throw error
  else if instanceof_Error error && Str.includes "timeout" (error_message error) then
    throw (ApiError "Analysis timeout - please try with a smaller document" 408 JUndefined)
  else
    throw (ApiError ("Analysis failed: " ++ message_or "Unknown error" error)
             500 JUndefined).

(** The request of a document analysis. *)
Definition analyze_request (base : string) (file : File) (base64Content : string) : Request :=
  let fileType := if String.eqb (type file) "application/pdf" then "pdf" else "txt" in
  POST (base ++ "/analyze")
    (JObj [("filename", JStr (name file)); ("content", JStr base64Content);
           ("file_type", JStr fileType)]).

Definition analyzeDocument (file : File) : Js JsValue :=
  try_catch
    (fileBuffer <- settle (arrayBuffer file) ;;
     base64Content <- encode fileBuffer ;;
     base <- API_BASE_URL ;;
     response <- fetchWithTimeout (analyze_request base file base64Content)
                   FETCH_TIMEOUT MAX_RETRIES ;;
     if negb (ok response) then
       errorData <- try_catch (settle (json response)) (fun _ => ret (JObj [])) ;;
       detail <- get errorData "detail" ;;
       message <- first_message detail (lookup errorData "error")
                    ("Analysis failed with status " ++ Str.of_Z (status response)) ;;
       throw (ApiError message (status response) errorData)
     else
       responseData <- settle (json response) ;;
       summary <- get responseData "summary" ;;
       if negb (truthy summary) || negb (truthy (lookup responseData "claims")) then
         throw (ApiError "Invalid response structure from backend" 500 JUndefined)
       else ret responseData)
    analysis_failure.

Record ReviewSummary : Type := {
  total_negative_reviews : JsValue;
  total_positive_reviews : JsValue;
  average_rating : JsValue;
  common_complaints : JsValue;
  common_praises : JsValue
}.

Module UniversityReviewsResponse.
Record t : Type := {
  university_name : JsValue;
  nirf_ranking : JsValue;
  negative_reviews : JsValue;
  positive_reviews : JsValue;
  review_summary : ReviewSummary;
  sources : JsValue;
  analysis_timestamp : JsValue;
  search_status : JsValue;
  error : JsValue;
  message : JsValue;
  suggestions : JsValue;
  api_version : JsValue;
  search_method : JsValue;
  processing_time : JsValue;
  debug_info : JsValue
}.
End UniversityReviewsResponse.

(** [Array.isArray(v) ? v : []] *)
Definition array_or_empty (v : JsValue) : JsValue :=
  if isArray v then v else JArr [].

(** [v?.key] *)
Definition optional (v : JsValue) (key : string) : JsValue :=
  if nullish v then JUndefined else lookup v key.

(** The object literal [normalizedResponse]; [responseData] is neither
    [null] nor [undefined] where it is built. *)
Definition normalizedResponse (responseData : JsValue) (universityName timestamp : string)
  : UniversityReviewsResponse.t :=
  let summary := lookup responseData "review_summary" in
  {| UniversityReviewsResponse.university_name :=
       js_or (lookup responseData "university_name") (JStr universityName);
     UniversityReviewsResponse.nirf_ranking :=
       js_or (lookup responseData "nirf_ranking") JNull;
     UniversityReviewsResponse.negative_reviews :=
       array_or_empty (lookup responseData "negative_reviews");
     UniversityReviewsResponse.positive_reviews :=
       array_or_empty (lookup responseData "positive_reviews");
     UniversityReviewsResponse.review_summary :=
       {| total_negative_reviews := js_or (optional summary "total_negative_reviews") (JNum 0);
          total_positive_reviews := js_or (optional summary "total_positive_reviews") (JNum 0);
          average_rating := js_or (optional summary "average_rating") (JNum 0);
          common_complaints := js_or (optional summary "common_complaints") (JArr []);
          common_praises := js_or (optional summary "common_praises") (JArr []) |};
     UniversityReviewsResponse.sources := array_or_empty (lookup responseData "sources");
     UniversityReviewsResponse.analysis_timestamp :=
       js_or (lookup responseData "analysis_timestamp") (JStr timestamp);
     UniversityReviewsResponse.search_status :=
       js_or (lookup responseData "search_status") (JStr "success");
     UniversityReviewsResponse.error := lookup responseData "error";
     UniversityReviewsResponse.message := lookup responseData "message";
     UniversityReviewsResponse.suggestions := lookup responseData "suggestions";
     UniversityReviewsResponse.api_version := lookup responseData "api_version";
     UniversityReviewsResponse.search_method := lookup responseData "search_method";
     UniversityReviewsResponse.processing_time := lookup responseData "processing_time";
     UniversityReviewsResponse.debug_info := lookup responseData "debug_info" |}.

(** The request of a university search. *)
Definition search_request (base universityName : string) : Request :=
  POST (base ++ "/api/university-reviews")
    (JObj [("university_name", JStr (Str.trim universityName));
           ("include_debug", JBool false)]).

(** The catch clause of [searchUniversityReviews]. *)
Definition search_failure (error : JsError) : Js UniversityReviewsResponse.t :=
  if instanceof_ApiError error then throw error
  else if instanceof_Error error && Str.includes "timeout" (error_message error) then
    throw (ApiError "University search timeout - please try again" 408 JUndefined)
  else if instanceof_class TypeError error && Str.includes "fetch" (error_message error) then
    throw (ApiError
             "Unable to connect to the server. Please check your internet connection."
             0 JUndefined)
  else if instanceof_class SyntaxError error then
    throw (ApiError "Invalid response format from server" 500 JUndefined)
  else
    throw (ApiError ("Unexpected error: " ++ message_or "Unknown error" error)
             500 JUndefined).

Definition searchUniversityReviews (universityName : string)
  : Js UniversityReviewsResponse.t :=
  if Str.is_empty (Str.trim universityName) then
    throw (ApiError "University name is required" 400 JUndefined)
  else if Str.len universityName <? 3 then
    throw (ApiError "University name must be at least 3 characters long" 400 JUndefined)
  else
    try_catch
      (base <- API_BASE_URL ;;
       response <- fetchWithTimeout (search_request base universityName)
                     UNIVERSITY_TIMEOUT MAX_RETRIES ;;
       responseData <- settle (json response) ;;
       search_status <- get responseData "search_status" ;;
       if negb (ok response) && negb (truthy search_status) then
         message <- first_message (lookup responseData "detail") (lookup responseData "error")
                      ("Request failed with status " ++ Str.of_Z (status response)) ;;
         throw (ApiError message (status response) responseData)
       else
         timestamp <- now ;;
         ret (normalizedResponse responseData universityName timestamp))
      search_failure.

(** ** Response normaliser *)

Module Evidence.
Record t : Type := {
  id : string;
  text : JsValue;
  source : JsValue;
  url : JsValue;
  relevanceScore : JsValue
}.
End Evidence.

Module Claim.
Record t : Type := {
  id : string;
  text : JsValue;
  category : JsValue;
  consistency : JsValue;
  trustScore : JsValue;
  explanation : JsValue;
  evidence : list Evidence.t;
  pageNumber : JsValue;
  reviewStatus : option string;
  reviewNotes : option string;
  reviewReason : option string
}.
End Claim.

Record AnalysisSummary : Type := {
  totalClaims : JsValue;
  processingTime : JsValue;
  documentName : JsValue;
  timestamp : JsValue;
  analysisMode : JsValue
}.

Record AnalysisResult : Type := {
  summary : AnalysisSummary;
  claims : list Claim.t
}.

Definition consistencyMap : JsValue :=
  JObj [("Confirmed", JStr "Supported");
        ("Supported", JStr "Supported");
        ("Contradicted", JStr "Contradicted");
        ("Unverifiable", JStr "Unverifiable");
        ("Unsupported", JStr "Unsupported")].

(** The object literal [trustScoreMap]: its five values are drawn each
    time it is built. *)
Definition trustScoreMap : Js JsValue :=
  confirmed <- random_int 16 80 ;;
  supported <- random_int 16 75 ;;
  contradicted <- random_int 21 10 ;;
  unverifiable <- random_int 21 40 ;;
  unsupported <- random_int 21 25 ;;
  ret (JObj [("Confirmed", JNum confirmed);
             ("Supported", JNum supported);
             ("Contradicted", JNum contradicted);
             ("Unverifiable", JNum unverifiable);
             ("Unsupported", JNum unsupported)]).

(** [map[key] || fallback] with a computed key *)
Definition at_key (map key fallback : JsValue) : Js JsValue :=
  k <- ToString key ;;
  ret (js_or (lookup map k) fallback).

(** The [forEach] over [web_evidence.slice(0, 3)], from [webIndex] on. *)
Fixpoint web_evidence (index webIndex : nat) (items : list JsValue)
  : Js (list Evidence.t) :=
  match items with
  | [] => ret []
  | webEv :: rest =>
      snippet <- get webEv "snippet" ;;
      let pushed :=
        {| Evidence.id := "evidence-" ++ Str.of_nat index ++ "-web-" ++ Str.of_nat webIndex;
           Evidence.text := snippet;
           Evidence.source := lookup webEv "title";
           Evidence.url := js_or (lookup webEv "url") (JStr "#");
           Evidence.relevanceScore := js_or (lookup webEv "relevance_score") (JNum 75) |} in
      more <- web_evidence index (S webIndex) rest ;;
      ret (pushed :: more)
  end.

(** The callback of [apiResponse.claims.map]. *)
Definition map_claim (apiClaim : JsValue) (index : nat) : Js Claim.t :=
  score <- get apiClaim "trustScore" ;;
  trustScore <-
    (if truthy score && is_number score then ret score
     else
       table <- trustScoreMap ;;
       at_key table (lookup apiClaim "verdict") (JNum 50)) ;;
  metadata <- get apiClaim "metadata" ;;
  source <- get metadata "source" ;;
  let first :=
    {| Evidence.id := "evidence-" ++ Str.of_nat index ++ "-1";
       Evidence.text := lookup apiClaim "evidence_summary";
       Evidence.source := source;
       Evidence.url := JStr "#";
       Evidence.relevanceScore := JNum 85 |} in
  web <-
    match lookup apiClaim "web_evidence" with
    | JArr items => web_evidence index 0 (firstn 3 items)
    | _ => ret []
    end ;;
  consistency <- at_key consistencyMap (lookup apiClaim "verdict") (JStr "Unverifiable") ;;
  pageNumber <- plus_one_or_zero (lookup metadata "source_chunk_id") ;;
  ret {| Claim.id := "claim-" ++ Str.of_nat index;
         Claim.text := lookup apiClaim "claim_text";
         Claim.category := lookup apiClaim "category";
         Claim.consistency := consistency;
         Claim.trustScore := trustScore;
         Claim.explanation := lookup apiClaim "verdict_reasoning";
         Claim.evidence := first :: web;
         Claim.pageNumber := pageNumber;
         Claim.reviewStatus := Some "pending";
         Claim.reviewNotes := None;
         Claim.reviewReason := None |}.

(** [claims.map(callback)], from [index] on. *)
Fixpoint map_claims (index : nat) (apiClaims : list JsValue) : Js (list Claim.t) :=
  match apiClaims with
  | [] => ret []
  | apiClaim :: rest =>
      claim <- map_claim apiClaim index ;;
      others <- map_claims (S index) rest ;;
      ret (claim :: others)
  end.

Definition invalid (reason : string) : JsError :=
  NativeError PlainError "Error" ("Invalid API response: " ++ reason).

Definition mapApiResponseToFrontend (apiResponse : JsValue) : Js AnalysisResult :=
  if negb (truthy apiResponse) || negb (typeof_object apiResponse) then
    throw (invalid "Response is not an object")
  else if negb (truthy (lookup apiResponse "summary")) then
    throw (invalid "Missing summary field")
  else
    match lookup apiResponse "claims" with
    | JArr apiClaims =>
        claims <- map_claims 0 apiClaims ;;
        let summary := lookup apiResponse "summary" in
        ret {| summary :=
                 {| totalClaims := lookup summary "total_claims";
                    processingTime := lookup summary "processing_time_seconds";
                    documentName := lookup summary "document_name";
                    timestamp := lookup summary "timestamp";
                    analysisMode := lookup summary "analysis_mode" |};
               claims := claims |}
    | _ => throw (invalid "Missing or invalid claims array")
    end.

(** ** Validation and formatting *)

(** [c.toLowerCase()] on a code unit below 256: the letters A-Z and the
    capital letters of Latin-1 (192-222 but for the multiplication sign)
    move up by 32. *)
Definition lower (c : ascii) : ascii :=
  let n := nat_of_ascii c in
  if (Nat.leb 65 n && Nat.leb n 90) ||
     (Nat.leb 192 n && Nat.leb n 222 && negb (Nat.eqb n 215))
  then ascii_of_nat (n + 32) else c.

(** [s.toLowerCase()] *)
Fixpoint toLowerCase (s : string) : string :=
  match s with
  | EmptyString => EmptyString
  | String c t => String (lower c) (toLowerCase t)
  end.

(** [s.endsWith(suffix)] *)
Fixpoint endsWith (s suffix : string) : bool :=
  String.eqb s suffix ||
  match s with
  | EmptyString => false
  | String _ t => endsWith t suffix
  end.

Definition allowedTypes : list string := ["application/pdf"; "text/plain"].
Definition allowedExtensions : list string := [".pdf"; ".txt"].

(** [null] is [None]. *)
Definition validateFile (file : File) : option string :=
  let hasValidType := existsb (String.eqb (type file)) allowedTypes in
  let hasValidExtension :=
    existsb (fun ext => endsWith (toLowerCase (name file)) ext) allowedExtensions in
  if negb hasValidType && negb hasValidExtension then
    Some "Invalid file type. Please upload PDF or TXT files only."
  else if 100 * 1024 * 1024 <? size file then
    Some "File size too large. Please upload files smaller than 100MB."
  else if size file =? 0 then
    Some "File is empty. Please upload a file with content."
  else None.

Definition is_letter (c : ascii) : bool :=
  let n := nat_of_ascii c in
  (Nat.leb 65 n && Nat.leb n 90) || (Nat.leb 97 n && Nat.leb n 122).

Definition is_digit (c : ascii) : bool :=
  let n := nat_of_ascii c in Nat.leb 48 n && Nat.leb n 57.

(** The class of [validateUniversityName]: letters, digits, white space
    and the marks - . , & ( ) ' and the double quote (code 34). *)
Definition name_character (c : ascii) : bool :=
  is_letter c || is_digit c || Str.is_space c ||
  existsb (Nat.eqb (nat_of_ascii c)) [45; 46; 44; 38; 40; 41; 39; 34]%nat.

Fixpoint every (p : ascii -> bool) (s : string) : bool :=
  match s with
  | EmptyString => true
  | String c t => p c && every p t
  end.

(** [/^[...]+$/.test(s)]: one character of the class or more, and nothing
    else. *)
Definition name_pattern (s : string) : bool :=
  negb (Str.is_empty s) && every name_character s.

(** The argument is a value: the function tests [typeof name]. *)
Definition validateUniversityName (name : JsValue) : option string :=
  match name with
  | JStr s =>
      if Str.is_empty s then Some "University name is required"
      else
        let trimmed := Str.trim s in
        if Str.len trimmed <? 3 then
          Some "University name must be at least 3 characters long"
        else if 200 <? Str.len trimmed then Some "University name is too long"
        else if negb (name_pattern trimmed) then
          Some "University name contains invalid characters"
        else None
  | _ => Some "University name is required"
  end.

(** [\w] *)
Definition is_word (c : ascii) : bool :=
  is_letter c || is_digit c || Nat.eqb (nat_of_ascii c) 95.

(** [l.toUpperCase()] on a word character: a-z move down by 32. *)
Definition upper (c : ascii) : ascii :=
  let n := nat_of_ascii c in
  if Nat.leb 97 n && Nat.leb n 122 then ascii_of_nat (n - 32) else c.

(** [s.replace(/\s+/g, " ")]: [in_run] tells that the character before
    was white space, already replaced. *)
Fixpoint collapse (in_run : bool) (s : string) : string :=
  match s with
  | EmptyString => EmptyString
  | String c t =>
      if Str.is_space c then
        if in_run then collapse true t else String " " (collapse true t)
      else String c (collapse false t)
  end.

(** [s.replace(/\b\w/g, (l) => l.toUpperCase())]: [after_word] tells that
    the character before was a word character, so that there is no word
    boundary here. *)
Fixpoint capitalise (after_word : bool) (s : string) : string :=
  match s with
  | EmptyString => EmptyString
  | String c t =>
      if is_word c then
        String (if after_word then c else upper c) (capitalise true t)
      else String c (capitalise false t)
  end.

Definition formatUniversityName (name : string) : string :=
  capitalise false (collapse false (Str.trim name)).

(** ** Health check (lib/health-check.ts) and connection test (lib/api.ts) *)

Module HealthStatus.
Record t : Type := {
  isHealthy : bool;
  message : string;
  version : JsValue;
  error : option string
}.
End HealthStatus.

Definition checkBackendHealth : Js HealthStatus.t :=
  try_catch
    (healthResponse <- getHealth ;;
     statusResponse <- getStatus ;;
     statusMessage <- get statusResponse "message" ;;
     text <- ToString statusMessage ;;
     version <- get healthResponse "version" ;;
     ret {| HealthStatus.isHealthy := true;
            HealthStatus.message := "Backend is healthy - " ++ text;
            HealthStatus.version := version;
            HealthStatus.error := None |})
    (fun error =>
       if instanceof_ApiError error then
         ret {| HealthStatus.isHealthy := false;
                HealthStatus.message := "Backend error: " ++ error_message error;
                HealthStatus.version := JUndefined;
                HealthStatus.error := Some (error_message error) |}
       else
         ret {| HealthStatus.isHealthy := false;
                HealthStatus.message := "Cannot connect to backend server";
                HealthStatus.version := JUndefined;
                HealthStatus.error := Some (message_or "Unknown error" error) |}).

Module ConnectionTest.
Record t : Type := {
  health : bool;
  status : bool;
  message : string;
  details : list (string * JsValue)   (* the members set, in the order set *)
}.
End ConnectionTest.

(** One of the two inner [try] statements of [testBackendConnection]: the
    flag it sets and the member of [details] it adds. *)
Definition tested (operation : Js JsValue) (key fallback : string)
  : Js (bool * list (string * JsValue)) :=
  try_catch
    (value <- operation ;; ret (true, [(key, value)]))
    (fun error => ret (false, [(key ++ "Error", JStr (message_or fallback error))])).

(** The outer [catch] adds [testError] to the result as it stands when
    the failure is caught; nothing in its [try] block throws outside the
    inner statements, so that this is the initial result. *)
Definition testBackendConnection : Js ConnectionTest.t :=
  try_catch
    (health <- tested getHealth "health" "Unknown health error" ;;
     status <- tested getStatus "status" "Unknown status error" ;;
     ret {| ConnectionTest.health := fst health;
            ConnectionTest.status := fst status;
            ConnectionTest.message :=
              if fst health && fst status then "Backend connection successful"
              else if fst health then "Partial connection - health OK, status failed"
              else if fst status then "Partial connection - status OK, health failed"
              else "Complete connection failure";
            ConnectionTest.details := (snd health ++ snd status)%list |})
    (fun error =>
       ret {| ConnectionTest.health := false;
              ConnectionTest.status := false;
              ConnectionTest.message := "Connection test failed";
              ConnectionTest.details :=
                [("testError", JStr (message_or "Unknown test error" error))] |}).

(** ** The upload page (app/upload/page.tsx) *)

Module UploadedFile.
Record t : Type := {
  id : string;
  file : File;
  status : string;
  progress : Z;
  error : option string;
  analysisResult : option AnalysisResult
}.
End UploadedFile.

(** The state [uploadAndAnalyzeFile] works on: the list [uploadedFiles]
    of the page, the item [analysisResult] of [localStorage] (the value
    given to [JSON.stringify]), and what [localStorage.setItem] throws
    for a value it has no room for. *)
Module UploadPage.
Record t : Type := {
  uploadedFiles : list UploadedFile.t;
  stored : option AnalysisResult;
  refused : AnalysisResult -> option JsError
}.
End UploadPage.

(** [setUploadedFiles((prev) => prev.map((f) => f.id === fileId ? change(f) : f))] *)
Definition setUploadedFiles (fileId : string) (change : UploadedFile.t -> UploadedFile.t)
    (page : UploadPage.t) : UploadPage.t :=
  {| UploadPage.uploadedFiles :=
       map (fun f => if String.eqb (UploadedFile.id f) fileId then change f else f)
         (UploadPage.uploadedFiles page);
     UploadPage.stored := UploadPage.stored page;
     UploadPage.refused := UploadPage.refused page |}.

(** [localStorage.setItem('analysisResult', JSON.stringify(value))] *)
Definition setItem (value : AnalysisResult) (page : UploadPage.t)
  : option JsError * UploadPage.t :=
  match UploadPage.refused page value with
  | Some e => (Some e, page)
  | None =>
      (None,
       {| UploadPage.uploadedFiles := UploadPage.uploadedFiles page;
          UploadPage.stored := Some value;
          UploadPage.refused := UploadPage.refused page |})
  end.

(** [{ ...f, progress: p }] *)
Definition with_progress (p : Z) (f : UploadedFile.t) : UploadedFile.t :=
  {| UploadedFile.id := UploadedFile.id f; UploadedFile.file := UploadedFile.file f;
     UploadedFile.status := UploadedFile.status f; UploadedFile.progress := p;
     UploadedFile.error := UploadedFile.error f;
     UploadedFile.analysisResult := UploadedFile.analysisResult f |}.

(** [{ ...f, status: "success", progress: 100, analysisResult }] *)
Definition succeeded (result : AnalysisResult) (f : UploadedFile.t) : UploadedFile.t :=
  {| UploadedFile.id := UploadedFile.id f; UploadedFile.file := UploadedFile.file f;
     UploadedFile.status := "success"; UploadedFile.progress := 100;
     UploadedFile.error := UploadedFile.error f;
     UploadedFile.analysisResult := Some result |}.

(** [{ ...f, status: "error", progress: 0, error: errorMessage }] *)
Definition failed (errorMessage : string) (f : UploadedFile.t) : UploadedFile.t :=
  {| UploadedFile.id := UploadedFile.id f; UploadedFile.file := UploadedFile.file f;
     UploadedFile.status := "error"; UploadedFile.progress := 0;
     UploadedFile.error := Some errorMessage;
     UploadedFile.analysisResult := UploadedFile.analysisResult f |}.

(** The message the [catch] clause of [uploadAndAnalyzeFile] shows. *)
Definition errorMessage (error : JsError) : string :=
  match error with
  | ApiError message status _ =>
      if status =? 400 then "Invalid file type. Please upload PDF or TXT files only."
      else if status =? 500 then "Server error during processing. Please try again later."
      else message
  | _ =>
      if instanceof_Error error then "Error: " ++ error_message error
      else "Upload failed. Please try again."
  end.

(** The [catch] clause of [uploadAndAnalyzeFile]. *)
Definition upload_failure (fileId : string) (error : JsError) (page : UploadPage.t)
  : UploadPage.t :=
  setUploadedFiles fileId (failed (errorMessage error)) page.

(** [meanwhile] is what the other handlers of the page do to its state
    while the analysis is awaited (such as [handleFiles], which appends
    the new entries after it has started their uploads). *)
Definition uploadAndAnalyzeFile (fileId : string) (file : File)
    (meanwhile : UploadPage.t -> UploadPage.t)
  : UploadPage.t -> World -> UploadPage.t * World :=
  fun page w =>
    let page := setUploadedFiles fileId (with_progress 10) page in
    match analyzeDocument file w with
    | (Abrupt error, w) => (upload_failure fileId error (meanwhile page), w)
    | (Normal apiResponse, w) =>
        let page := setUploadedFiles fileId (with_progress 80) (meanwhile page) in
        match mapApiResponseToFrontend apiResponse w with
        | (Abrupt error, w) => (upload_failure fileId error page, w)
        | (Normal analysisResult, w) =>
            match setItem analysisResult page with
            | (Some error, page) => (upload_failure fileId error page, w)
            | (None, page) =>
                (setUploadedFiles fileId (succeeded analysisResult) page, w)
            end
        end
    end.

(** ** The university page *)

Module SearchPage.
Record t : Type := {
  universityName : string;
  results : option UniversityReviewsResponse.t;
  isLoading : bool;
  error : option string
}.
End SearchPage.

Definition setResults (value : option UniversityReviewsResponse.t) (page : SearchPage.t)
  : SearchPage.t :=
  {| SearchPage.universityName := SearchPage.universityName page;
     SearchPage.results := value;
     SearchPage.isLoading := SearchPage.isLoading page;
     SearchPage.error := SearchPage.error page |}.

Definition setIsLoading (value : bool) (page : SearchPage.t) : SearchPage.t :=
  {| SearchPage.universityName := SearchPage.universityName page;
     SearchPage.results := SearchPage.results page;
     SearchPage.isLoading := value;
     SearchPage.error := SearchPage.error page |}.

Definition setError (value : option string) (page : SearchPage.t) : SearchPage.t :=
  {| SearchPage.universityName := SearchPage.universityName page;
     SearchPage.results := SearchPage.results page;
     SearchPage.isLoading := SearchPage.isLoading page;
     SearchPage.error := value |}.

(** [meanwhile] is what the other handlers of the page do to its state
    while the search is awaited. *)
Definition handleSubmit (meanwhile : SearchPage.t -> SearchPage.t)
  : SearchPage.t -> World -> SearchPage.t * World :=
  fun page w =>
    if Str.is_empty (Str.trim (SearchPage.universityName page)) then
      (setError (Some "Please enter a university name") page, w)
    else
      let universityName := SearchPage.universityName page in
      let page := setResults None (setError None (setIsLoading true page)) in
      match searchUniversityReviews (Str.trim universityName) w with
      | (Normal response, w) =>
          (setIsLoading false (setResults (Some response) (meanwhile page)), w)
      | (Abrupt err, w) =>
          (setIsLoading false
             (setError (Some (message_or "Failed to search university reviews" err))
                (meanwhile page)),
           w)
      end.

(** * The vocabulary of the properties *)

(** ** Worlds, files and payloads to run the client on *)

(** A network without connection. *)
Definition offline : nat -> Request -> Completion Response :=
  fun _ _ => Abrupt (NativeError TypeError "TypeError" "Failed to fetch").


(** A network on which every request is aborted by the timer. *)
Definition stalled : nat -> Request -> Completion Response :=
  fun _ _ => Abrupt (NativeError DOMException "AbortError" "The user aborted a request.").

(** A backend that answers every request with [status] and the parsed
    body [payload]. *)
Definition answering (status : Z) (payload : JsValue) : nat -> Request -> Completion Response :=
  fun _ _ => Normal {| status := status; json := Normal payload |}.

(** A backend whose first [failures] requests find no connection. *)
Definition flaky (failures : nat) (status : Z) (payload : JsValue)
  : nat -> Request -> Completion Response :=
  fun k request =>
    if Nat.ltb k failures then offline k request else answering status payload k request.


(** A fresh world on a network and a random source. *)
Definition world_of (net : nat -> Request -> Completion Response) (random : nat -> Q) : World :=
  {| network := net; sent := []; slept := []; entropy := random; drawn := 0;
     clock := "2025-01-01T00:00:00.000Z"; NEXT_PUBLIC_API_URL := None;
     argument_limit := 65535 |}.

(** The random source that always yields one half. *)
Definition half : nat -> Q := fun _ => (1 # 2)%Q.

(** A two-byte text file. *)
Definition note : File :=
  {| name := "note.txt"; size := 2; type := "text/plain";
     arrayBuffer := Normal [Byte.x68; Byte.x69] |}.

(** The scenario of the specification: 404 with a body that says
    [no_data_found]. *)
Definition no_data_found : JsValue :=
  JObj [("search_status", JStr "no_data_found"); ("university_name", JStr "X")].

(** The payload of the end-to-end scenario: one supported claim. *)
Definition one_claim : JsValue :=
  JObj [("summary",
         JObj [("total_claims", JNum 1); ("processing_time_seconds", JNum 2);
               ("document_name", JStr "report.txt");
               ("timestamp", JStr "2025-01-01T00:00:00Z")]);
        ("claims",
         JArr [JObj [("claim_text", JStr "X"); ("category", JStr "Financial");
                     ("verdict", JStr "Supported"); ("evidence_summary", JStr "E");
                     ("verdict_reasoning", JStr "R"); ("source_context", JStr "S");
                     ("metadata",
                      JObj [("source", JStr "doc"); ("source_chunk_id", JNum 0)])]])].

(** A claim with four web-evidence records, the second without a score,
    the third with score 0. *)
Definition four_sources : JsValue :=
  JObj [("summary", JObj [("total_claims", JNum 1)]);
        ("claims",
         JArr [JObj [("claim_text", JStr "X"); ("verdict", JStr "Confirmed");
                     ("trustScore", JNum 91); ("evidence_summary", JStr "E");
                     ("web_evidence",
                      JArr [JObj [("title", JStr "a"); ("relevance_score", JNum 60)];
                            JObj [("title", JStr "b")];
                            JObj [("title", JStr "c"); ("relevance_score", JNum 0)];
                            JObj [("title", JStr "d"); ("relevance_score", JNum 99)]]);
                     ("metadata", JObj [("source", JStr "doc")])]])].

(** The body of a search response with one negative review, a summary
    whose praises are a text and whose rating has a fraction, and a
    source list that is no sequence. *)
Definition partial_reviews : JsValue :=
  JObj [("negative_reviews", JArr [JObj [("review_text", JStr "slow")]]);
        ("sources", JStr "reddit");
        ("review_summary",
         JObj [("total_negative_reviews", JNum 1); ("average_rating", JFrac (7 # 2));
               ("common_praises", JStr "many")])].

(** A payload with one claim: its verdict and, if any, its trust score. *)
Definition claim_with (verdict : JsValue) (score : option JsValue) : JsValue :=
  JObj [("summary", JObj [("total_claims", JNum 1)]);
        ("claims",
         JArr [JObj ([("claim_text", JStr "X"); ("verdict", verdict);
                      ("evidence_summary", JStr "E");
                      ("metadata", JObj [("source", JStr "doc")])]
                     ++ match score with
                        | Some s => [("trustScore", s)]
                        | None => []
                        end)])].

(** ** Worlds compared *)

(** Two worlds with the same platform: network, randomness, clock and
    configuration; only the logs may differ. *)
Definition same_platform (w w' : World) : Prop :=
  network w' = network w /\ entropy w' = entropy w /\ drawn w' = drawn w /\
  clock w' = clock w /\ NEXT_PUBLIC_API_URL w' = NEXT_PUBLIC_API_URL w /\
  argument_limit w' = argument_limit w.

(** The worlds of the normaliser differ in the number of draws only. *)
Definition draws_only (w w' : World) : Prop :=
  network w' = network w /\ sent w' = sent w /\ slept w' = slept w /\
  entropy w' = entropy w /\ clock w' = clock w /\
  NEXT_PUBLIC_API_URL w' = NEXT_PUBLIC_API_URL w /\
  argument_limit w' = argument_limit w /\ (drawn w <= drawn w')%nat.

(** A computation that leaves the world as it is. *)
Definition stateless {A} (m : Js A) : Prop := forall w, snd (m w) = w.

(** ** Transport *)

(** The delay before the [k]-th retry, [k] counted from 1, in ms:
    [2^(k-1)] seconds. *)
Definition backoff (k : nat) : Z := 2 ^ (Z.of_nat k - 1) * 1000.

(** Every attempt of the transport was rejected, the last one with
    [last]. *)
Definition unanswered (w : World) (request : Request) (retries : nat) (last : JsError)
  : Prop :=
  (forall j, (j < retries)%nat ->
     exists e, network w (List.length (sent w) + j)%nat request = Abrupt e) /\
  network w (List.length (sent w) + retries)%nat request = Abrupt last.

(** The rejection of an aborted request. *)
Definition aborted (e : JsError) : bool :=
  instanceof_Error e && String.eqb (error_name e) "AbortError".


(** ** Endpoint operations *)

(** The name passes the two checks of [searchUniversityReviews]. *)
Definition acceptable (universityName : string) : bool :=
  negb (Str.is_empty (Str.trim universityName)) && negb (Str.len universityName <? 3).

(** The file was read and encoded: [bytes] is its content. *)
Definition encoded (file : File) (w : World) (bytes : list Byte.byte) : Prop :=
  arrayBuffer file = Normal bytes /\
  N.ltb (argument_limit w) (N.of_nat (List.length bytes)) = false.

(** The requests of [getHealth] and [getStatus]. *)
Definition health_request (w : World) : Request := GET (base_url w ++ "/").
Definition status_request (w : World) : Request := GET (base_url w ++ "/status").

(** The common shape of [getHealth] and [getStatus]. *)
Definition probe (path refused cannot : string) : Js JsValue :=
  try_catch
    (base <- API_BASE_URL ;;
     response <- fetchWithTimeout (GET (base ++ path)) 5000 1 ;;
     if negb (ok response) then throw (ApiError refused (status response) JUndefined)
     else settle (json response))
    (or_cannot cannot).

(** A value ToString converts. *)
Definition convertible (v : JsValue) : bool :=
  match to_string v with Some _ => true | None => false end.


(** A computation that throws an [ApiError] and leaves the world as it
    is. *)
Definition raises_ApiError {A} (m : Js A) : Prop :=
  forall w, exists message status response,
    m w = (Abrupt (ApiError message status response), w).

(** An operation that fails with nothing but [ApiError]. *)
Definition only_ApiError {A} (operation : Js A) : Prop :=
  forall w e w', operation w = (Abrupt e, w') -> instanceof_ApiError e = true.

(** The status of the [ApiError] a run ended with, if it ended so. *)
Definition failure_status {A} (run : Completion A * World) : option Z :=
  match fst run with
  | Abrupt e => status_of e
  | Normal _ => None
  end.

(** ** The normalised university response *)

(** [result] is [raw || fallback]: the fallback when [raw] is absent or
    otherwise falsy, [raw] itself when it is truthy. *)
Definition defaults_to (fallback raw result : JsValue) : Prop :=
  (raw = JUndefined -> result = fallback) /\
  (truthy raw = false -> result = fallback) /\
  (truthy raw = true -> result = raw).

(** [result] is [raw] if that is a sequence, and the empty sequence
    otherwise; a sequence in either case. *)
Definition sequence_or_empty (raw result : JsValue) : Prop :=
  (isArray raw = true -> result = raw) /\
  (isArray raw = false -> result = JArr []) /\
  isArray result = true.

(** ** The normalised claims *)

(** The sequence [web_evidence] of a raw claim, empty when it is not one. *)
Definition web_items (apiClaim : JsValue) : list JsValue :=
  match lookup apiClaim "web_evidence" with JArr items => items | _ => [] end.

(** The first evidence entry of a claim. *)
Definition from_summary (apiClaim : JsValue) (e : Evidence.t) : Prop :=
  Evidence.text e = lookup apiClaim "evidence_summary" /\
  Evidence.source e = lookup (lookup apiClaim "metadata") "source" /\
  Evidence.url e = JStr "#" /\
  Evidence.relevanceScore e = JNum 85.

(** An evidence entry built from the web-evidence record [webEv]. *)
Definition built_from (webEv : JsValue) (e : Evidence.t) : Prop :=
  Evidence.text e = lookup webEv "snippet" /\
  Evidence.source e = lookup webEv "title" /\
  Evidence.url e = js_or (lookup webEv "url") (JStr "#") /\
  defaults_to (JNum 75) (lookup webEv "relevance_score") (Evidence.relevanceScore e).

(** A raw claim the callback can read without a [TypeError]: it is
    neither [null] nor [undefined], nor is its [metadata], nor any of the
    first three entries of its [web_evidence]; its verdict and its chunk
    index can be converted to a string (every string, number and boolean
    can). *)
Definition readable_claim (apiClaim : JsValue) : bool :=
  negb (nullish apiClaim) &&
  negb (nullish (lookup apiClaim "metadata")) &&
  convertible (lookup apiClaim "verdict") &&
  convertible (lookup (lookup apiClaim "metadata") "source_chunk_id") &&
  forallb (fun webEv => negb (nullish webEv)) (firstn 3 (web_items apiClaim)).

(** The inclusive range of the score synthesised for a verdict. *)
Definition score_range (verdict : string) : option (Z * Z) :=
  if String.eqb verdict "Confirmed" then Some (80, 95)
  else if String.eqb verdict "Supported" then Some (75, 90)
  else if String.eqb verdict "Contradicted" then Some (10, 30)
  else if String.eqb verdict "Unverifiable" then Some (40, 60)
  else if String.eqb verdict "Unsupported" then Some (25, 45)
  else None.

(** One of the four values of [Claim.consistency]. *)
Definition is_consistency (v : JsValue) : Prop :=
  v = JStr "Supported" \/ v = JStr "Contradicted" \/
  v = JStr "Unverifiable" \/ v = JStr "Unsupported".

(** The consistency values of the claims a run of the normaliser
    produced. *)
Definition consistencies (run : Completion AnalysisResult * World) : list JsValue :=
  match fst run with
  | Normal result => map Claim.consistency (claims result)
  | Abrupt _ => []
  end.

(** Their trust scores. *)
Definition trustScores (run : Completion AnalysisResult * World) : list JsValue :=
  match fst run with
  | Normal result => map Claim.trustScore (claims result)
  | Abrupt _ => []
  end.

(** ** Texts *)

(** A tidy text has no white space at either end and no white space but
    single spaces; [after_space] tells that the character before was a
    space (or that there is none before). *)
Fixpoint tidy_from (after_space : bool) (s : string) : bool :=
  match s with
  | EmptyString => negb after_space
  | String c t =>
      if Str.is_space c then negb after_space && Ascii.eqb c " " && tidy_from true t
      else tidy_from false t
  end.

Definition tidy (s : string) : bool := Str.is_empty s || tidy_from true s.

(** The first character of a text, if it has one, is no white space. *)
Definition clean_start (s : string) : bool :=
  match s with
  | EmptyString => true
  | String c _ => negb (Str.is_space c)
  end.

(** ** Runs *)

(** The run ended with a value. *)
Definition returned {A} (run : Completion A * World) : bool :=
  match fst run with Normal _ => true | Abrupt _ => false end.

(** ** The normaliser and the random source *)

(** The callback keeps the trust score of the raw claim: a number other
    than 0. *)
Definition keeps_score (apiClaim : JsValue) : bool :=
  truthy (lookup apiClaim "trustScore") && is_number (lookup apiClaim "trustScore").

(** The callback of [apiResponse.claims.map] from [metadata] on, the
    trust score being computed. *)
Definition after_score (apiClaim : JsValue) (index : nat) (trustScore : JsValue)
  : Js Claim.t :=
  metadata <- get apiClaim "metadata" ;;
  source <- get metadata "source" ;;
  let first :=
    {| Evidence.id := "evidence-" ++ Str.of_nat index ++ "-1";
       Evidence.text := lookup apiClaim "evidence_summary";
       Evidence.source := source;
       Evidence.url := JStr "#";
       Evidence.relevanceScore := JNum 85 |} in
  web <-
    match lookup apiClaim "web_evidence" with
    | JArr items => web_evidence index 0 (firstn 3 items)
    | _ => ret []
    end ;;
  consistency <- at_key consistencyMap (lookup apiClaim "verdict") (JStr "Unverifiable") ;;
  pageNumber <- plus_one_or_zero (lookup metadata "source_chunk_id") ;;
  ret {| Claim.id := "claim-" ++ Str.of_nat index;
         Claim.text := lookup apiClaim "claim_text";
         Claim.category := lookup apiClaim "category";
         Claim.consistency := consistency;
         Claim.trustScore := trustScore;
         Claim.explanation := lookup apiClaim "verdict_reasoning";
         Claim.evidence := first :: web;
         Claim.pageNumber := pageNumber;
         Claim.reviewStatus := Some "pending";
         Claim.reviewNotes := None;
         Claim.reviewReason := None |}.

(** A claim with its trust score left out. *)
Definition without_score (claim : Claim.t) : Claim.t :=
  {| Claim.id := Claim.id claim;
     Claim.text := Claim.text claim;
     Claim.category := Claim.category claim;
     Claim.consistency := Claim.consistency claim;
     Claim.trustScore := JUndefined;
     Claim.explanation := Claim.explanation claim;
     Claim.evidence := Claim.evidence claim;
     Claim.pageNumber := Claim.pageNumber claim;
     Claim.reviewStatus := Claim.reviewStatus claim;
     Claim.reviewNotes := Claim.reviewNotes claim;
     Claim.reviewReason := Claim.reviewReason claim |}.

(** Two outcomes that differ in nothing but trust scores: the same
    failure, or results [alike]. *)
Definition agree {A} (alike : A -> A -> Prop) (a b : Completion A) : Prop :=
  match a, b with
  | Normal x, Normal y => alike x y
  | Abrupt e1, Abrupt e2 => e1 = e2
  | _, _ => False
  end.

(** A computation whose outcome is the same in every world, and which
    leaves the world as it is. *)
Definition constant {A} (m : Js A) : Prop :=
  exists c, forall w, m w = (c, w).

(** Claims alike but for their trust scores. *)
Definition alike (a b : Claim.t) : Prop := without_score a = without_score b.

(** Results alike but for the trust scores of their claims. *)
Definition alike_results (a b : AnalysisResult) : Prop :=
  summary a = summary b /\ Forall2 alike (claims a) (claims b).

(** The raw claims whose trust score the callback draws. *)
Definition scored_at_random (apiClaims : list JsValue) : list JsValue :=
  filter (fun apiClaim => negb (keeps_score apiClaim)) apiClaims.

(** The outcome of the callback, from that of its two parts: the trust
    score, and the claim built around it. *)
Definition completed (score : Completion JsValue) (build : Completion (JsValue -> Claim.t))
  : Completion Claim.t :=
  match score, build with
  | Normal trustScore, Normal claim => Normal (claim trustScore)
  | Abrupt e, _ => Abrupt e
  | Normal _, Abrupt e => Abrupt e
  end.

(** The ids of the evidence of a sequence of claims, claim after claim. *)
Definition evidence_ids (claims : list Claim.t) : list string :=
  flat_map (fun claim => map Evidence.id (Claim.evidence claim)) claims.

(** The id of the evidence entry of claim [index] built from its
    web-evidence record [webIndex]. *)
Definition web_id (index webIndex : nat) : string :=
  "evidence-" ++ Str.of_nat index ++ "-web-" ++ Str.of_nat webIndex.

(** ** The pages *)

(** The page once the item [analysisResult] is stored. *)
Definition storing (result : AnalysisResult) (page : UploadPage.t) : UploadPage.t :=
  {| UploadPage.uploadedFiles := UploadPage.uploadedFiles page;
     UploadPage.stored := Some result;
     UploadPage.refused := UploadPage.refused page |}.

(** How the upload of an entry ended: analysed, or failed with a message
    shown. *)
Definition settled (before after : UploadedFile.t) : Prop :=
  (UploadedFile.status after = "success" /\ UploadedFile.progress after = 100 /\
   UploadedFile.error after = UploadedFile.error before /\
   UploadedFile.analysisResult after <> None) \/
  (UploadedFile.status after = "error" /\ UploadedFile.progress after = 0 /\
   UploadedFile.error after <> None /\
   UploadedFile.analysisResult after = UploadedFile.analysisResult before).

(** The upload page before any file is added: an empty list, an empty
    storage with room for everything. *)
Definition empty_page : UploadPage.t :=
  {| UploadPage.uploadedFiles := []; UploadPage.stored := None;
     UploadPage.refused := fun _ => None |}.

(** What [handleFiles] does to the page after it has started the upload
    of one valid file: it appends the entry. *)
Definition adding (fileId : string) (file : File) (page : UploadPage.t) : UploadPage.t :=
  {| UploadPage.uploadedFiles :=
       UploadPage.uploadedFiles page ++
       [{| UploadedFile.id := fileId; UploadedFile.file := file;
           UploadedFile.status := "uploading"; UploadedFile.progress := 0;
           UploadedFile.error := None; UploadedFile.analysisResult := None |}];
     UploadPage.stored := UploadPage.stored page;
     UploadPage.refused := UploadPage.refused page |}.

(** An evidence id that names the claim [index]. *)
Definition of_claim (index : nat) (id : string) : Prop :=
  exists rest, id = "evidence-" ++ Str.of_nat index ++ String "-" rest.

(** A text whose word characters at the start of a word are no small
    letters. *)
Fixpoint capitalised_from (after_word : bool) (s : string) : bool :=
  match s with
  | EmptyString => true
  | String c t =>
      if is_word c then
        (after_word || Ascii.eqb (upper c) c) && capitalised_from true t
      else capitalised_from false t
  end.

(** A file with the name of a PDF and no MIME type. *)
Definition scan : File :=
  {| name := "Scan.PDF"; size := 3; type := "";
     arrayBuffer := Normal [Byte.x25; Byte.x50; Byte.x44] |}.

(** A backend that answers every request with 200 and a greeting. *)
Definition greeting : JsValue := JObj [("message", JStr "ok"); ("version", JStr "1.0")].

(** * Properties *)

(** ** Doubles *)

Lemma pow2_pos e : (0 < 2 ^ e)%Q.
Proof. apply Qpower_0_lt. reflexivity. Qed.

Lemma two_power_Z n : 0 <= n -> (2 ^ n == inject_Z (2 ^ n))%Q.
Proof. intros Hn. now rewrite (Zpower_Qpower 2 n Hn). Qed.

Lemma two_power_succ e : (2 ^ (e + 1) == 2 * 2 ^ e)%Q.
Proof.
  rewrite Qpower_plus by discriminate. rewrite Qpower_1_r. ring.
Qed.

Lemma two_power_le a b : a <= b -> (2 ^ a <= 2 ^ b)%Q.
Proof. intros H. apply Qpower_le_compat_l; [exact H | discriminate]. Qed.

Lemma two_power_lt a b : a < b -> (2 ^ a < 2 ^ b)%Q.
Proof. intros H. apply Qpower_lt_compat_l; [exact H | reflexivity]. Qed.

Lemma two_power_lt_inv a b : (2 ^ a < 2 ^ b)%Q -> a < b.
Proof. intros H. apply (Qpower_lt_compat_l_inv 2); [exact H | reflexivity]. Qed.

Lemma div_lt (a b c d : Q) :
  (0 < b)%Q -> (0 < d)%Q -> (a * d < c * b)%Q -> (a / b < c / d)%Q.
Proof.
  intros Hb Hd H. apply Qlt_shift_div_r; [exact Hb|].
  setoid_replace (c / d * b)%Q with (c * b / d)%Q by (field; lra).
  apply Qlt_shift_div_l; [exact Hd | exact H].
Qed.

Lemma div_le (a b c d : Q) :
  (0 < b)%Q -> (0 < d)%Q -> (a * d <= c * b)%Q -> (a / b <= c / d)%Q.
Proof.
  intros Hb Hd H. apply Qle_shift_div_r; [exact Hb|].
  setoid_replace (c / d * b)%Q with (c * b / d)%Q by (field; lra).
  apply Qle_shift_div_l; [exact Hd | exact H].
Qed.

(** [binade x] is the exponent of the power of two at or below [x]. *)
Lemma binade_spec x :
  (0 < x)%Q -> (2 ^ Double.binade x <= x)%Q /\ (x < 2 ^ (Double.binade x + 1))%Q.
Proof.
  destruct x as [p q]. intros Hx.
  assert (Hp : 0 < p) by (unfold Qlt in Hx; cbn in Hx; lia).
  unfold Double.binade. cbn [Qnum Qden].
  pose proof (Z.log2_spec p Hp) as [Hp1 Hp2].
  pose proof (Z.log2_spec (Z.pos q) (Pos2Z.is_pos q)) as [Hq1 Hq2].
  pose proof (Z.log2_nonneg p) as Ha. pose proof (Z.log2_nonneg (Z.pos q)) as Hb.
  set (a := Z.log2 p) in *. set (b := Z.log2 (Z.pos q)) in *.
  assert (Hx' : (p # q == inject_Z p / inject_Z (Z.pos q))%Q) by apply Qmake_Qdiv.
  assert (Hqpos : (0 < inject_Z (Z.pos q))%Q) by reflexivity.
  assert (Hppos : (0 < inject_Z p)%Q)
    by (change 0%Q with (inject_Z 0); now rewrite <- Zlt_Qlt).
  assert (Hpa : (2 ^ a <= inject_Z p)%Q)
    by (rewrite two_power_Z by lia; now rewrite <- Zle_Qle).
  assert (Hpa1 : (inject_Z p < 2 * 2 ^ a)%Q).
  { rewrite <- two_power_succ, two_power_Z by lia. rewrite <- Zlt_Qlt.
    replace (a + 1) with (Z.succ a) by lia. exact Hp2. }
  assert (Hqb : (2 ^ b <= inject_Z (Z.pos q))%Q)
    by (rewrite two_power_Z by lia; now rewrite <- Zle_Qle).
  assert (Hqb1 : (inject_Z (Z.pos q) < 2 * 2 ^ b)%Q).
  { rewrite <- two_power_succ, two_power_Z by lia. rewrite <- Zlt_Qlt.
    replace (b + 1) with (Z.succ b) by lia. exact Hq2. }
  pose proof (pow2_pos a) as Hapos. pose proof (pow2_pos b) as Hbpos.
  assert (E0 : (2 ^ (a - b) == 2 ^ a / 2 ^ b)%Q) by (apply Qpower_minus; discriminate).
  assert (E1 : (2 ^ (a - b + 1) == 2 * 2 ^ a / 2 ^ b)%Q).
  { rewrite two_power_succ, E0. field. lra. }
  assert (E2 : (2 ^ (a - b - 1) == 2 ^ a / (2 * 2 ^ b))%Q).
  { replace (a - b - 1) with (a - (b + 1)) by lia.
    rewrite Qpower_minus by discriminate. now rewrite two_power_succ. }
  generalize dependent (2 ^ a)%Q. generalize dependent (2 ^ b)%Q.
  intros B HB1 HB2 HBpos A HA1 HA2 HApos E0 E1 E2.
  destruct (Qle_bool (2 ^ (a - b)) (p # q)) eqn:Htest.
  - apply Qle_bool_iff in Htest. split; [exact Htest|].
    rewrite E1, Hx'. apply div_lt; [exact Hqpos | exact HBpos | nra].
  - assert (Hlt : (p # q < 2 ^ (a - b))%Q).
    { apply Qnot_le_lt. intros H. apply Qle_bool_iff in H. congruence. }
    replace (a - b - 1 + 1) with (a - b) by lia. split; [|exact Hlt].
    rewrite E2, Hx'. apply div_le; [lra | exact Hqpos | nra].
Qed.

Lemma binade_unique x e :
  (2 ^ e <= x)%Q -> (x < 2 ^ (e + 1))%Q -> Double.binade x = e.
Proof.
  intros Hlo Hhi.
  assert (Hx : (0 < x)%Q) by (pose proof (pow2_pos e); lra).
  destruct (binade_spec x Hx) as [Blo Bhi].
  assert (H1 : Double.binade x < e + 1).
  { apply two_power_lt_inv. lra. }
  assert (H2 : e < Double.binade x + 1).
  { apply two_power_lt_inv. lra. }
  lia.
Qed.

(** [nearest x] is within a half of [x]. *)
Lemma nearest_spec x :
  (x - (1 # 2) <= inject_Z (Double.nearest x))%Q /\
  (inject_Z (Double.nearest x) <= x + (1 # 2))%Q.
Proof.
  unfold Double.nearest.
  pose proof (Qfloor_le x) as Hlo. pose proof (Qlt_floor x) as Hhi.
  rewrite inject_Z_plus in Hhi. change (inject_Z 1) with 1%Q in Hhi.
  destruct (Qcompare_spec (x - inject_Z (Qfloor x)) (1 # 2)) as [H|H|H].
  - destruct (Z.even (Qfloor x)); [|rewrite inject_Z_plus; change (inject_Z 1) with 1%Q]; lra.
  - lra.
  - rewrite inject_Z_plus. change (inject_Z 1) with 1%Q. lra.
Qed.

Lemma nearest_integer n : Double.nearest (inject_Z n) = n.
Proof.
  unfold Double.nearest. rewrite Qfloor_Z.
  destruct (Qcompare_spec (inject_Z n - inject_Z n) (1 # 2)) as [H|H|H]; [lra|reflexivity|lra].
Qed.

Lemma nearest_eq x n : (x == inject_Z n)%Q -> Double.nearest x = n.
Proof.
  intros H. pose proof (nearest_spec x) as [Hlo Hhi].
  generalize dependent (Double.nearest x). intros m Hlo Hhi.
  assert (H1 : (inject_Z (n - 1) < inject_Z m)%Q).
  { replace (n - 1) with (n + -1) by lia.
    rewrite inject_Z_plus. change (inject_Z (-1)) with (-1)%Q. lra. }
  assert (H2 : (inject_Z m < inject_Z (n + 1))%Q).
  { rewrite inject_Z_plus. change (inject_Z 1) with 1%Q. lra. }
  rewrite <- Zlt_Qlt in H1, H2. lia.
Qed.

Lemma nearest_nonneg x : (0 <= x)%Q -> 0 <= Double.nearest x.
Proof.
  intros Hx. pose proof (nearest_spec x) as [Hlo _].
  assert (H : (inject_Z (-1) < inject_Z (Double.nearest x))%Q).
  { change (inject_Z (-1)) with (-1)%Q. lra. }
  rewrite <- Zlt_Qlt in H. lia.
Qed.

(** An integer at or below [nearest x] is at most a half above [x]. *)
Lemma nearest_at_least x n :
  n <= Double.nearest x -> (inject_Z n - (1 # 2) <= x)%Q.
Proof.
  intros H. pose proof (nearest_spec x) as [_ Hhi].
  rewrite Zle_Qle in H. lra.
Qed.

Lemma ulp_pos x : (0 < Double.ulp x)%Q.
Proof. apply pow2_pos. Qed.

Lemma Qabs_positive x : (0 < x)%Q -> Qabs x = x.
Proof.
  destruct x as [p q]. unfold Qlt. cbn. intros H. f_equal. lia.
Qed.

Lemma round_zero x : (x == 0)%Q -> Double.round x = 0%Q.
Proof.
  intros H. unfold Double.round.
  destruct (Qeq_bool x 0) eqn:E; [reflexivity|].
  apply Qeq_bool_neq in E. contradiction.
Qed.

Lemma round_value x :
  ~ (x == 0)%Q ->
  (Double.round x == inject_Z (Double.nearest (x / Double.ulp x)) * Double.ulp x)%Q.
Proof.
  intros H. unfold Double.round.
  destruct (Qeq_bool x 0) eqn:E; [apply Qeq_bool_iff in E; contradiction|].
  apply Qred_correct.
Qed.

Lemma round_nonneg x : (0 <= x)%Q -> (0 <= Double.round x)%Q.
Proof.
  intros Hx. destruct (Qeq_dec x 0) as [H0|H0].
  - rewrite (round_zero x H0). lra.
  - rewrite (round_value x H0). pose proof (ulp_pos x) as Hu.
    apply Qmult_le_0_compat; [|lra].
    change 0%Q with (inject_Z 0). rewrite <- Zle_Qle. apply nearest_nonneg.
    apply Qle_shift_div_l; [exact Hu | lra].
Qed.

(** A multiple of the last bit is a double. *)
Lemma round_multiple x n :
  (x == inject_Z n * Double.ulp x)%Q -> (Double.round x == x)%Q.
Proof.
  intros H. destruct (Qeq_dec x 0) as [H0|H0].
  - rewrite (round_zero x H0). now symmetry.
  - rewrite (round_value x H0). pose proof (ulp_pos x) as Hu.
    rewrite (nearest_eq _ n); [now symmetry|].
    apply Qdiv_mult_l' || (rewrite H at 1; field; lra).
Qed.

(** The integers up to [2^53] are doubles. *)
Lemma round_integer n :
  Z.abs n <= 2 ^ 53 -> (Double.round (inject_Z n) == inject_Z n)%Q.
Proof.
  intros Hn. destruct (Z.eq_dec n 0) as [->|Hnz]; [reflexivity|].
  assert (Habs : (0 < Qabs (inject_Z n))%Q).
  { unfold Qlt, Qabs, inject_Z. cbn. lia. }
  destruct (binade_spec _ Habs) as [Hlo Hhi].
  set (e := Double.binade (Qabs (inject_Z n))) in *.
  change (Qabs (inject_Z n)) with (inject_Z (Z.abs n)) in Hlo, Hhi.
  assert (He0 : 0 <= e).
  { assert (H : 0 < e + 1); [|lia]. apply two_power_lt_inv.
    apply Qle_lt_trans with (inject_Z (Z.abs n)); [|exact Hhi].
    change (2 ^ 0)%Q with (inject_Z 1). rewrite <- Zle_Qle. lia. }
  assert (He53 : e <= 53).
  { assert (H : e < 54); [|lia]. apply two_power_lt_inv.
    apply Qle_lt_trans with (inject_Z (Z.abs n)); [exact Hlo|].
    rewrite (two_power_Z 54) by lia. rewrite <- Zlt_Qlt. lia. }
  assert (Hulp : Double.ulp (inject_Z n) = (2 ^ (e - 52))%Q).
  { unfold Double.ulp. fold e. f_equal. lia. }
  destruct (Z.eq_dec e 53) as [E53|E53].
  - assert (Hval : Z.abs n = 2 ^ 53).
    { rewrite E53, (two_power_Z 53) in Hlo by lia. rewrite <- Zle_Qle in Hlo. lia. }
    apply (round_multiple _ (n / 2)). rewrite Hulp, E53.
    change (2 ^ (53 - 52))%Q with 2%Q. change 2%Q with (inject_Z 2).
    rewrite <- inject_Z_mult. apply inject_Z_injective.
    destruct (Z.abs_spec n) as [[_ E]|[_ E]]; rewrite E in Hval.
    + rewrite Hval. reflexivity.
    + replace n with (- 2 ^ 53) by lia. reflexivity.
  - apply (round_multiple _ (n * 2 ^ (52 - e))). rewrite Hulp.
    rewrite inject_Z_mult, <- (two_power_Z (52 - e)) by lia.
    rewrite <- Qmult_assoc, <- Qpower_plus by discriminate.
    replace (52 - e + (e - 52)) with 0 by lia. change (2 ^ 0)%Q with 1%Q. ring.
Qed.

(** The largest double below 1 is [1 - 2^-53]. *)
Lemma double_below_one r :
  (0 <= r)%Q -> (r < 1)%Q -> (Double.round r == r)%Q -> (r <= 1 - 2 ^ (-53))%Q.
Proof.
  intros H0 H1 Hd. destruct (Qeq_dec r 0) as [Hz|Hz].
  - rewrite Hz. easy.
  - assert (Hpos : (0 < r)%Q) by (destruct (Qlt_le_dec 0 r) as [|H]; [easy|]; lra).
    destruct (binade_spec r Hpos) as [Hlo Hhi].
    assert (He : Double.binade r < 0).
    { apply two_power_lt_inv. change (2 ^ 0)%Q with 1%Q. lra. }
    destruct (Z.eq_dec (Double.binade r) (-1)) as [E|E].
    + rewrite (round_value r Hz) in Hd.
      assert (Hulp : Double.ulp r = (2 ^ (-53))%Q).
      { unfold Double.ulp. rewrite (Qabs_positive r Hpos), E. reflexivity. }
      rewrite Hulp in Hd.
      generalize dependent (Double.nearest (r / 2 ^ (-53))). intros m Hd.
      assert (Hm : m < 2 ^ 53).
      { rewrite Zlt_Qlt. rewrite <- Hd in H1.
        change (2 ^ (-53))%Q with (1 # 9007199254740992)%Q in H1.
        change (inject_Z (2 ^ 53)) with 9007199254740992%Q. lra. }
      assert (Hm' : (inject_Z m <= inject_Z (2 ^ 53 - 1))%Q) by (rewrite <- Zle_Qle; lia).
      rewrite <- Hd. change (2 ^ (-53))%Q with (1 # 9007199254740992)%Q.
      change (inject_Z (2 ^ 53 - 1)) with 9007199254740991%Q in Hm'. lra.
    + assert (Hle : (2 ^ (Double.binade r + 1) <= 2 ^ (-1))%Q) by (apply two_power_le; lia).
      change (2 ^ (-1))%Q with (1 # 2)%Q in Hle.
      change (2 ^ (-53))%Q with (1 # 9007199254740992)%Q. lra.
Qed.

(** The product of a double below 1 and a whole number rounds to a
    double below that number. *)
Lemma round_product_below r s :
  (0 <= r)%Q -> (r <= 1 - 2 ^ (-53))%Q -> 0 < s <= 2 ^ 53 ->
  (Double.round (r * inject_Z s) < inject_Z s)%Q.
Proof.
  intros H0 H1 Hs.
  assert (Hs0 : (0 < inject_Z s)%Q)
    by (change 0%Q with (inject_Z 0); rewrite <- Zlt_Qlt; lia).
  assert (Hs1 : (1 <= inject_Z s)%Q)
    by (change 1%Q with (inject_Z 1); rewrite <- Zle_Qle; lia).
  assert (Hs53 : (inject_Z s <= 2 ^ 53)%Q)
    by (rewrite (two_power_Z 53) by lia; rewrite <- Zle_Qle; lia).
  change (2 ^ (-53))%Q with (1 # 9007199254740992)%Q in H1.
  set (x := (r * inject_Z s)%Q).
  assert (Hx0 : (0 <= x)%Q) by (unfold x; nra).
  assert (Hx1 : (x <= inject_Z s - inject_Z s * (1 # 9007199254740992))%Q) by (unfold x; nra).
  destruct (Qeq_dec x 0) as [Hz|Hz]; [rewrite (round_zero x Hz); exact Hs0|].
  assert (Hpos : (0 < x)%Q) by (destruct (Qlt_le_dec 0 x) as [|H]; [easy|]; lra).
  destruct (Qlt_le_dec (Double.round x) (inject_Z s)) as [Hlt|Hge]; [exact Hlt|exfalso].
  rewrite (round_value x Hz) in Hge.
  destruct (binade_spec x Hpos) as [Hlo Hhi].
  assert (He : Double.binade x < 53).
  { apply two_power_lt_inv. lra. }
  unfold Double.ulp in Hge. rewrite (Qabs_positive x Hpos) in Hge.
  set (e := Double.binade x) in *.
  set (u := Z.max e (-1022) - 52) in *.
  assert (Hu : u <= 0) by lia.
  pose proof (pow2_pos u) as Hupos.
  (* s is a multiple of the last bit *)
  assert (Hmult : (inject_Z s == inject_Z (s * 2 ^ (- u)) * 2 ^ u)%Q).
  { rewrite inject_Z_mult, <- (two_power_Z (- u)) by lia.
    rewrite <- Qmult_assoc, <- Qpower_plus by discriminate.
    replace (- u + u) with 0 by lia. change (2 ^ 0)%Q with 1%Q. ring. }
  assert (Hm : s * 2 ^ (- u) <= Double.nearest (x / 2 ^ u)).
  { rewrite Zle_Qle. rewrite Hmult in Hge at 1.
    apply Qmult_le_r in Hge; [exact Hge | exact Hupos]. }
  apply nearest_at_least in Hm.
  assert (Hx2 : (inject_Z s - (1 # 2) * 2 ^ u <= x)%Q).
  { apply (Qmult_le_r _ _ (2 ^ u)) in Hm; [|exact Hupos].
    setoid_replace (x / 2 ^ u * 2 ^ u)%Q with x in Hm by (field; lra).
    setoid_replace ((inject_Z (s * 2 ^ (- u)) - (1 # 2)) * 2 ^ u)%Q
      with (inject_Z (s * 2 ^ (- u)) * 2 ^ u - (1 # 2) * 2 ^ u)%Q in Hm by ring.
    rewrite <- Hmult in Hm. exact Hm. }
  (* hence s * 2^-53 <= 2^(u-1) *)
  assert (Hgap : (inject_Z s * (1 # 9007199254740992) <= (1 # 2) * 2 ^ u)%Q) by lra.
  destruct (Z.max_spec e (-1022)) as [[Hcmp Hmax]|[Hcmp Hmax]].
  - (* subnormal: the last bit is far below any whole number *)
    assert (Eu : u = -1074) by lia.
    assert (Hsmall : (2 ^ u <= 2 ^ (-53))%Q) by (apply two_power_le; lia).
    change (2 ^ (-53))%Q with (1 # 9007199254740992)%Q in Hsmall. lra.
  - assert (Eu : u = e - 52) by lia.
    assert (Epow : (2 ^ e == 2 ^ u * 2 ^ 52)%Q).
    { rewrite <- Qpower_plus by discriminate. now replace (u + 52) with e by lia. }
    change (2 ^ 52)%Q with 4503599627370496%Q in Epow. lra.
Qed.

Lemma nearest_between x low high :
  (inject_Z low <= x)%Q -> (x <= inject_Z high)%Q ->
  low <= Double.nearest x <= high.
Proof.
  intros Hlow Hhigh. pose proof (nearest_spec x) as [Nlo Nhi].
  assert (H1 : (inject_Z (low + -1) < inject_Z (Double.nearest x))%Q).
  { rewrite inject_Z_plus. change (inject_Z (-1)) with (-1)%Q. lra. }
  assert (H2 : (inject_Z (Double.nearest x) < inject_Z (high + 1))%Q).
  { rewrite inject_Z_plus. change (inject_Z 1) with 1%Q. lra. }
  rewrite <- Zlt_Qlt in H1, H2. lia.
Qed.

Lemma Qabs_nonzero x : ~ (x == 0)%Q -> (0 < Qabs x)%Q.
Proof.
  intros H. destruct (Qlt_le_dec 0 x) as [Hx|Hx].
  - rewrite Qabs_pos; lra.
  - rewrite Qabs_neg by exact Hx.
    destruct (Qlt_le_dec x 0) as [Hneg|Hge]; [lra|].
    exfalso. apply H. lra.
Qed.

(** What [round] returns: a multiple [m * 2^u] of the last bit, with at
    most 53 bits in [m] and all of them used unless [u] is the least
    exponent. *)
Lemma round_shape x :
  exists m u,
    (Double.round x == inject_Z m * 2 ^ u)%Q /\ Z.abs m <= 2 ^ 53 /\ -1074 <= u /\
    (u = -1074 \/ 2 ^ 52 <= Z.abs m).
Proof.
  destruct (Qeq_dec x 0) as [Hz|Hz].
  { exists 0, (-1074). rewrite (round_zero x Hz). split; [reflexivity|]. cbn. lia. }
  pose proof (Qabs_nonzero x Hz) as Hpos.
  destruct (binade_spec _ Hpos) as [Hlo Hhi].
  exists (Double.nearest (x / Double.ulp x)), (Z.max (Double.binade (Qabs x)) (-1022) - 52).
  split; [now rewrite (round_value x Hz)|].
  unfold Double.ulp.
  set (e := Double.binade (Qabs x)) in *. set (u := Z.max e (-1022) - 52).
  pose proof (pow2_pos u) as Hu.
  assert (Ehi : (2 ^ (e + 1) <= 2 ^ 53 * 2 ^ u)%Q).
  { rewrite <- Qpower_plus by discriminate. apply two_power_le. lia. }
  assert (Elo : -1022 <= e -> (2 ^ 52 * 2 ^ u == 2 ^ e)%Q).
  { intros He. rewrite <- Qpower_plus by discriminate. now replace (52 + u) with e by lia. }
  change (2 ^ 53)%Q with (inject_Z (2 ^ 53)) in Ehi.
  change (2 ^ 52)%Q with (inject_Z (2 ^ 52)) in Elo.
  assert (Hdiv : (x / 2 ^ u * 2 ^ u == x)%Q) by (field; lra).
  set (z := (x / 2 ^ u)%Q) in *.
  destruct (Qlt_le_dec 0 x) as [Hx|Hx].
  - rewrite (Qabs_pos x) in Hlo, Hhi by lra.
    assert (Hz1 : (z <= inject_Z (2 ^ 53))%Q) by nra.
    assert (Hz0 : (inject_Z 0 <= z)%Q) by (change (inject_Z 0) with 0%Q; nra).
    pose proof (nearest_between z 0 (2 ^ 53) Hz0 Hz1) as Hm.
    split; [lia|]. split; [lia|].
    destruct (Z_le_gt_dec (-1022) e) as [Hn|Hs]; [right | left; lia].
    specialize (Elo Hn).
    assert (Hz2 : (inject_Z (2 ^ 52) <= z)%Q) by nra.
    pose proof (nearest_between z (2 ^ 52) (2 ^ 53) Hz2 Hz1). lia.
  - rewrite (Qabs_neg x) in Hlo, Hhi by exact Hx.
    assert (Hz1 : (inject_Z (- 2 ^ 53) <= z)%Q).
    { rewrite inject_Z_opp. nra. }
    assert (Hz0 : (z <= inject_Z 0)%Q) by (change (inject_Z 0) with 0%Q; nra).
    pose proof (nearest_between z (- 2 ^ 53) 0 Hz1 Hz0) as Hm.
    split; [lia|]. split; [lia|].
    destruct (Z_le_gt_dec (-1022) e) as [Hn|Hs]; [right | left; lia].
    specialize (Elo Hn).
    assert (Hz2 : (z <= inject_Z (- 2 ^ 52))%Q).
    { rewrite inject_Z_opp. nra. }
    pose proof (nearest_between z (- 2 ^ 53) (- 2 ^ 52) Hz1 Hz2). lia.
Qed.

(** Such a multiple is a double: [round] leaves it as it is. *)
Lemma round_fixes y m u :
  (y == inject_Z m * 2 ^ u)%Q -> Z.abs m <= 2 ^ 53 -> -1074 <= u ->
  u = -1074 \/ 2 ^ 52 <= Z.abs m ->
  (Double.round y == y)%Q.
Proof.
  intros Hy Hm Hu Hfull.
  destruct (Z.eq_dec m 0) as [->|Hm0].
  { assert (H0 : (y == 0)%Q) by (rewrite Hy; ring). rewrite (round_zero y H0). now symmetry. }
  pose proof (pow2_pos u) as Hupos.
  assert (Habs : (Qabs y == inject_Z (Z.abs m) * 2 ^ u)%Q).
  { rewrite Hy, Qabs_Qmult. rewrite (Qabs_pos (2 ^ u)) by lra. reflexivity. }
  assert (Hm1 : (1 <= inject_Z (Z.abs m))%Q)
    by (change 1%Q with (inject_Z 1); rewrite <- Zle_Qle; lia).
  assert (Hm53 : (inject_Z (Z.abs m) <= 9007199254740992)%Q)
    by (change 9007199254740992%Q with (inject_Z (2 ^ 53)); now rewrite <- Zle_Qle).
  destruct (Z.eq_dec (Z.abs m) (2 ^ 53)) as [Hfull53|Hnot53].
  - (* the power of two above the binade *)
    assert (Hb : Double.binade (Qabs y) = u + 53).
    { apply binade_unique; rewrite Habs, Hfull53.
      - rewrite Qpower_plus by discriminate.
        change (2 ^ 53)%Q with (inject_Z (2 ^ 53)). rewrite Qmult_comm. apply Qle_refl.
      - replace (u + 53 + 1) with (u + 54) by lia. rewrite Qpower_plus by discriminate.
        change (2 ^ 54)%Q with 18014398509481984%Q.
        change (inject_Z (2 ^ 53)) with 9007199254740992%Q. nra. }
    apply (round_multiple y (m / 2)). unfold Double.ulp. rewrite Hb.
    replace (Z.max (u + 53) (-1022) - 52) with (u + 1) by lia.
    rewrite Hy, two_power_succ.
    assert (E : m = 2 * (m / 2)).
    { destruct (Z.abs_spec m) as [[_ E]|[_ E]]; rewrite E in Hfull53.
      - now rewrite Hfull53.
      - replace m with (- 2 ^ 53) by lia. reflexivity. }
    rewrite E at 1. rewrite inject_Z_mult. change (inject_Z 2) with 2%Q. ring.
  - assert (Hlt : (inject_Z (Z.abs m) < 9007199254740992)%Q).
    { change 9007199254740992%Q with (inject_Z (2 ^ 53)). rewrite <- Zlt_Qlt. lia. }
    assert (Hulp : Double.ulp y = (2 ^ u)%Q).
    { unfold Double.ulp. f_equal.
      destruct (Z_le_gt_dec (2 ^ 52) (Z.abs m)) as [Hnormal|Hsub].
      - assert (Hb : Double.binade (Qabs y) = u + 52).
        { assert (Hm52 : (4503599627370496 <= inject_Z (Z.abs m))%Q)
            by (change 4503599627370496%Q with (inject_Z (2 ^ 52)); now rewrite <- Zle_Qle).
          apply binade_unique; rewrite Habs.
          - rewrite Qpower_plus by discriminate.
            change (2 ^ 52)%Q with 4503599627370496%Q. nra.
          - replace (u + 52 + 1) with (u + 53) by lia. rewrite Qpower_plus by discriminate.
            change (2 ^ 53)%Q with 9007199254740992%Q. nra. }
        rewrite Hb. lia.
      - assert (Eu : u = -1074) by lia.
        assert (Hpos : (0 < Qabs y)%Q) by (rewrite Habs; nra).
        destruct (binade_spec _ Hpos) as [Blo _].
        assert (Hb : Double.binade (Qabs y) < -1022).
        { apply two_power_lt_inv. apply Qle_lt_trans with (Qabs y); [exact Blo|].
          rewrite Habs.
          assert (Hm52 : (inject_Z (Z.abs m) < 4503599627370496)%Q).
          { change 4503599627370496%Q with (inject_Z (2 ^ 52)). rewrite <- Zlt_Qlt. lia. }
          replace (-1022) with (52 + u) by lia. rewrite Qpower_plus by discriminate.
          change (2 ^ 52)%Q with 4503599627370496%Q. nra. }
        lia. }
    apply (round_multiple y m). now rewrite Hulp.
Qed.

(** [round] returns a double: rounding again changes nothing. *)
Lemma round_idempotent x : (Double.round (Double.round x) == Double.round x)%Q.
Proof.
  destruct (round_shape x) as (m & u & Hy & Hm & Hu & Hfull).
  now apply (round_fixes _ m u).
Qed.

Lemma Qeq_bool_whole a b : Qeq_bool (inject_Z a) (inject_Z b) = (a =? b).
Proof.
  destruct (a =? b) eqn:E.
  - apply Z.eqb_eq in E. subst. apply Qeq_bool_refl.
  - apply Z.eqb_neq in E. destruct (Qeq_bool (inject_Z a) (inject_Z b)) eqn:Q; [|reflexivity].
    apply Qeq_bool_eq in Q. rewrite inject_Z_injective in Q. contradiction.
Qed.

Lemma add_Z_exact a b : Z.abs (a + b) <= 2 ^ 53 -> Double.add_Z a b = a + b.
Proof.
  intros H. unfold Double.add_Z, Double.add. rewrite <- inject_Z_plus.
  rewrite (round_integer _ H). apply Qfloor_Z.
Qed.

(** [Math.floor(r * span)] for a double [r] in [0, 1) and a whole
    [span]. *)
Lemma floor_product_range r span :
  (0 <= r)%Q -> (r < 1)%Q -> (Double.round r == r)%Q -> 0 < span <= 2 ^ 53 ->
  0 <= Qfloor (Double.mul r (inject_Z span)) < span.
Proof.
  intros H0 H1 Hd Hspan. unfold Double.mul.
  assert (Hs0 : (0 <= inject_Z span)%Q)
    by (change 0%Q with (inject_Z 0); rewrite <- Zle_Qle; lia).
  assert (Hlo : (0 <= Double.round (r * inject_Z span))%Q)
    by (apply round_nonneg; nra).
  assert (Hhi : (Double.round (r * inject_Z span) < inject_Z span)%Q)
    by (apply round_product_below; [exact H0 | now apply double_below_one | exact Hspan]).
  split.
  - change 0 with (Qfloor (inject_Z 0)). apply Qfloor_resp_le. exact Hlo.
  - pose proof (Qfloor_le (Double.round (r * inject_Z span))) as Hf.
    rewrite Zlt_Qlt. lra.
Qed.

(** ** The model on examples *)

Example of_Z_404 : Str.of_Z 404 = "404".
Proof. reflexivity. Qed.

Example of_Z_neg : Str.of_Z (-7) = "-7".
Proof. reflexivity. Qed.

Example trim_mit : Str.trim "  MIT " = "MIT".
Proof. reflexivity. Qed.

Example includes_timeout : Str.includes "timeout" "Request timeout after 30 seconds" = true.
Proof. reflexivity. Qed.

Example btoa_Man : Base64.btoa [Byte.x4d; Byte.x61; Byte.x6e] = "TWFu".
Proof. reflexivity. Qed.

Example btoa_Ma : Base64.btoa [Byte.x4d; Byte.x61] = "TWE=".
Proof. reflexivity. Qed.

Example btoa_M : Base64.btoa [Byte.x4d] = "TQ==".
Proof. reflexivity. Qed.

(** ToString of numbers: the fewest digits that identify the double,
    followed by zeros up to 21 digits, in exponent form from [10^21] on
    and below [10^-6]. *)
Example to_string_numbers :
  map to_string
    [JNum 0; JNum 404; JNum (-7); JNum (2 ^ 53); JNum (2 ^ 64); JNum (10 ^ 21);
     JNum (- 10 ^ 21); JNum (2 ^ 70); JFrac (3 # 2); JFrac (-175 # 2);
     JFrac (3602879701896397 # 36028797018963968);
     JFrac (6004799503160661 # 18014398509481984); JFrac (1 # 2 ^ 20);
     JInfinity false; JInfinity true]
  = map Some
      [ "0"; "404"; "-7"; "9007199254740992"; "18446744073709552000"; "1e+21";
        "-1e+21"; "1.1805916207174113e+21"; "1.5"; "-87.5"; "0.1";
        "0.3333333333333333"; "9.5367431640625e-7"; "Infinity"; "-Infinity" ].
Proof. vm_compute. reflexivity. Qed.

(** The nearest double, ties to the even one; [2^53 + 1] is no double. *)
Example round_to_double :
  map Double.round [9007199254740993; 9007199254740995; 1 # 3; 1 # 10; 0; -5 # 2]%Q
  = [9007199254740992; 9007199254740996;
     6004799503160661 # 18014398509481984;
     3602879701896397 # 36028797018963968; 0; -5 # 2]%Q.
Proof. vm_compute. reflexivity. Qed.

(** ** The monad *)

Lemma same_platform_refl w : same_platform w w.
Proof. repeat split. Qed.

Lemma same_platform_trans w1 w2 w3 :
  same_platform w1 w2 -> same_platform w2 w3 -> same_platform w1 w3.
Proof.
  unfold same_platform. intros (a & b & c & d & e & f) (a' & b' & c' & d' & e' & f').
  repeat split; congruence.
Qed.

Lemma base_url_same w w' : same_platform w w' -> base_url w' = base_url w.
Proof. intros (_ & _ & _ & _ & H & _). unfold base_url. now rewrite H. Qed.

(** ** Transport *)

(** How a run of the loop from [attempt] on ends: after [tries] requests,
    all but the last rejected, with a delay of [2^attempt], [2^(attempt+1)],
    ... seconds after each rejected one. *)
Lemma attempts_run :
  forall fuel request timeout retries attempt w,
    Z.of_nat fuel = retries - attempt + 1 -> (0 < fuel)%nat -> 0 <= attempt ->
    exists tries,
      (1 <= tries <= fuel)%nat /\
      same_platform w (snd (attempts fuel request timeout retries attempt w)) /\
      sent (snd (attempts fuel request timeout retries attempt w))
        = (sent w ++ repeat request tries)%list /\
      slept (snd (attempts fuel request timeout retries attempt w))
        = (slept w ++ map (fun j => 2 ^ (attempt + Z.of_nat j) * 1000)
                        (seq 0 (tries - 1)))%list /\
      (forall j, (j < tries - 1)%nat ->
         exists e, network w (List.length (sent w) + j)%nat request = Abrupt e) /\
      match network w (List.length (sent w) + (tries - 1))%nat request with
      | Normal response =>
          fst (attempts fuel request timeout retries attempt w) = Normal response
      | Abrupt e =>
          tries = fuel /\
          fst (attempts fuel request timeout retries attempt w)
            = Abrupt (exhausted timeout e)
      end.
Proof.
  induction fuel as [|fuel IH]; intros request timeout retries attempt w Hfuel Hpos Hatt.
  - lia.
  - pose (w1 := {| network := network w; sent := (sent w ++ [request])%list;
                   slept := slept w;
                   entropy := entropy w; drawn := drawn w; clock := clock w;
                   NEXT_PUBLIC_API_URL := NEXT_PUBLIC_API_URL w;
                   argument_limit := argument_limit w |}).
    destruct (network w (List.length (sent w)) request) as [response|e] eqn:Hnet.
    + assert (Hrun : attempts (S fuel) request timeout retries attempt w
                     = (Normal response, w1)).
      { cbn [attempts]. unfold try_catch, fetch. now rewrite Hnet. }
      rewrite Hrun. exists 1%nat. cbn [fst snd sent slept w1 Nat.sub seq map repeat].
      rewrite Nat.add_0_r, Hnet, app_nil_r.
      split; [lia|]. split; [repeat split|]. split; [reflexivity|].
      split; [reflexivity|]. split; [intros j Hj; lia | reflexivity].
    + destruct (attempt =? retries) eqn:Hlast.
      * assert (Hrun : attempts (S fuel) request timeout retries attempt w
                       = (Abrupt (exhausted timeout e), w1)).
        { cbn [attempts]. unfold try_catch, fetch. now rewrite Hnet, Qeq_bool_whole, Hlast. }
        apply Z.eqb_eq in Hlast. rewrite Hrun. exists 1%nat.
        cbn [fst snd sent slept w1 Nat.sub seq map repeat].
        rewrite Nat.add_0_r, Hnet, app_nil_r.
        split; [lia|]. split; [repeat split|]. split; [reflexivity|].
        split; [reflexivity|]. split; [intros j Hj; lia |].
        split; [lia | reflexivity].
      * pose (w2 := {| network := network w; sent := (sent w ++ [request])%list;
                       slept := (slept w ++ [2 ^ attempt * 1000])%list;
                       entropy := entropy w; drawn := drawn w; clock := clock w;
                       NEXT_PUBLIC_API_URL := NEXT_PUBLIC_API_URL w;
                       argument_limit := argument_limit w |}).
        assert (Hrun : attempts (S fuel) request timeout retries attempt w
                       = attempts fuel request timeout retries (attempt + 1) w2).
        { cbn [attempts]. unfold try_catch, fetch. now rewrite Hnet, Qeq_bool_whole, Hlast. }
        apply Z.eqb_neq in Hlast. rewrite Hrun.
        destruct (IH request timeout retries (attempt + 1) w2) as
          (tries & Htries & Hsame & Hsent & Hslept & Hrej & Hend); try lia.
        exists (S tries).
        split; [lia|]. split.
        { eapply same_platform_trans; [|exact Hsame]. repeat split. }
        split.
        { rewrite Hsent. cbn [sent w2 repeat]. now rewrite <- app_assoc. }
        split.
        { rewrite Hslept. cbn [slept w2]. rewrite <- app_assoc. f_equal.
          replace (S tries - 1)%nat with (S (tries - 1)) by lia.
          cbn [seq map app]. rewrite Z.add_0_r. f_equal.
          rewrite <- seq_shift, map_map. apply map_ext. intros j.
          do 2 f_equal. lia. }
        split.
        { intros [|j] Hj.
          - exists e. now rewrite Nat.add_0_r.
          - destruct (Hrej j) as (e' & He'); [lia|]. exists e'.
            cbn [network sent w2] in He'. rewrite length_app in He'.
            cbn [List.length] in He'.
            rewrite <- He'. f_equal. lia. }
        cbn [network sent w2] in Hend. rewrite length_app in Hend.
        cbn [List.length] in Hend.
        replace (List.length (sent w) + (S tries - 1))%nat
          with (List.length (sent w) + 1 + (tries - 1))%nat by lia.
        destruct (network w (List.length (sent w) + 1 + (tries - 1))%nat request).
        -- exact Hend.
        -- destruct Hend as [-> Hend]. split; [reflexivity | exact Hend].
Qed.

Lemma backoff_schedule attempt_count :
  map (fun j => 2 ^ (0 + Z.of_nat j) * 1000) (seq 0 attempt_count)
  = map backoff (seq 1 attempt_count).
Proof.
  rewrite <- seq_shift, map_map. apply map_ext. intros j.
  unfold backoff. do 2 f_equal. lia.
Qed.

(** The run of [fetchWithTimeout] with [retries = n]. *)
Lemma fetchWithTimeout_run :
  forall request timeout (n : nat) w,
    exists tries,
      (1 <= tries <= n + 1)%nat /\
      same_platform w (snd (fetchWithTimeout request timeout (Z.of_nat n) w)) /\
      sent (snd (fetchWithTimeout request timeout (Z.of_nat n) w))
        = (sent w ++ repeat request tries)%list /\
      slept (snd (fetchWithTimeout request timeout (Z.of_nat n) w))
        = (slept w ++ map backoff (seq 1 (tries - 1)))%list /\
      (forall j, (j < tries - 1)%nat ->
         exists e, network w (List.length (sent w) + j)%nat request = Abrupt e) /\
      match network w (List.length (sent w) + (tries - 1))%nat request with
      | Normal response =>
          fst (fetchWithTimeout request timeout (Z.of_nat n) w) = Normal response
      | Abrupt e =>
          tries = (n + 1)%nat /\
          fst (fetchWithTimeout request timeout (Z.of_nat n) w)
            = Abrupt (exhausted timeout e)
      end.
Proof.
  intros request timeout n w. unfold fetchWithTimeout. rewrite Qfloor_Z.
  replace (Z.to_nat (Z.of_nat n + 1)) with (n + 1)%nat by lia.
  destruct (attempts_run (n + 1) request timeout (Z.of_nat n) 0 w)
    as (tries & Htries & Hsame & Hsent & Hslept & Hrej & Hend); try lia.
  exists tries. rewrite backoff_schedule in Hslept. auto 10.
Qed.

(** C6 (amended): called with [retries = n], [fetchWithTimeout] issues at
    least one and at most [n + 1] requests; every rejected attempt but
    the [(n+1)]-th is followed, whatever was thrown, by a delay and a new
    attempt; the delay after the [k]-th rejected attempt ([k] from 1),
    that is before attempt [k + 1], lasts [2^(k-1)] seconds; the first
    response ends the call.  With two retries and a server that fails
    twice and then answers, the call returns the answer after exactly two
    delays, of 1 and 2 seconds. *)
Theorem fetchWithTimeout_retry_schedule :
  forall (request : Request) (timeout : Z) (w : World),
    (forall n : nat,
       exists tries : nat,
         (1 <= tries <= n + 1)%nat /\
         sent (snd (fetchWithTimeout request timeout (Z.of_nat n) w))
           = (sent w ++ repeat request tries)%list /\
         slept (snd (fetchWithTimeout request timeout (Z.of_nat n) w))
           = (slept w ++ map backoff (seq 1 (tries - 1)))%list /\
         (forall j, (j < tries - 1)%nat ->
            exists e, network w (List.length (sent w) + j)%nat request = Abrupt e) /\
         match network w (List.length (sent w) + (tries - 1))%nat request with
         | Normal response =>
             fst (fetchWithTimeout request timeout (Z.of_nat n) w) = Normal response
         | Abrupt e =>
             tries = (n + 1)%nat /\
             fst (fetchWithTimeout request timeout (Z.of_nat n) w)
               = Abrupt (exhausted timeout e)
         end) /\
    (forall k : nat, backoff (S k) = 2 ^ Z.of_nat k * 1000) /\
    (forall e1 e2 response,
       network w (List.length (sent w)) request = Abrupt e1 ->
       network w (List.length (sent w) + 1)%nat request = Abrupt e2 ->
       network w (List.length (sent w) + 2)%nat request = Normal response ->
       fst (fetchWithTimeout request timeout MAX_RETRIES w) = Normal response /\
       sent (snd (fetchWithTimeout request timeout MAX_RETRIES w))
         = (sent w ++ [request; request; request])%list /\
       slept (snd (fetchWithTimeout request timeout MAX_RETRIES w))
         = (slept w ++ [1000; 2000])%list).
Proof.
  intros request timeout w. split; [|split].
  - intros n.
    destruct (fetchWithTimeout_run request timeout n w)
      as (tries & Htries & _ & Hsent & Hslept & Hrej & Hend).
    exists tries. auto 10.
  - intros k. unfold backoff. do 2 f_equal. lia.
  - intros e1 e2 response H0 H1 H2.
    destruct (fetchWithTimeout_run request timeout 2 w)
      as (tries & Htries & _ & Hsent & Hslept & Hrej & Hend).
    change (Z.of_nat 2) with MAX_RETRIES in *.
    assert (Hcases : tries = 1%nat \/ tries = 2%nat \/ tries = 3%nat) by lia.
    destruct Hcases as [-> | [-> | ->]]; cbn [Nat.sub] in Hend.
    + rewrite Nat.add_0_r, H0 in Hend. destruct Hend as [Hbad _]. discriminate.
    + rewrite H1 in Hend. destruct Hend as [Hbad _]. discriminate.
    + rewrite H2 in Hend. rewrite Hend, Hsent, Hslept. auto.
Qed.

(** The scenario on a backend without connection twice. *)
Lemma fetchWithTimeout_retry_schedule_witness :
  fst (fetchWithTimeout (GET "https://asv-8ghi.onrender.com/") 5000 MAX_RETRIES
         (world_of (flaky 2 200 (JObj [])) half))
  = Normal {| status := 200; json := Normal (JObj []) |} /\
  sent (snd (fetchWithTimeout (GET "https://asv-8ghi.onrender.com/") 5000 MAX_RETRIES
               (world_of (flaky 2 200 (JObj [])) half)))
  = repeat (GET "https://asv-8ghi.onrender.com/") 3 /\
  slept (snd (fetchWithTimeout (GET "https://asv-8ghi.onrender.com/") 5000 MAX_RETRIES
                (world_of (flaky 2 200 (JObj [])) half)))
  = [1000; 2000].
Proof.
  exact (proj2 (proj2 (fetchWithTimeout_retry_schedule
                         (GET "https://asv-8ghi.onrender.com/") 5000
                         (world_of (flaky 2 200 (JObj [])) half)))
           _ _ _ eq_refl eq_refl eq_refl).
Defined.

(** C6 as stated fails: counting the attempts from 1, the delay before
    attempt 2 is 1 second, not [2^(2-1)] seconds, and the one before
    attempt 3 is 2 seconds, not [2^(3-1)]; before attempt 1 there is no
    delay at all. *)
Lemma delay_before_second_attempt :
  slept (snd (fetchWithTimeout (GET "https://asv-8ghi.onrender.com/") 5000 MAX_RETRIES
                (world_of (flaky 2 200 (JObj [])) half)))
  = [1000; 2000] /\
  1000 <> 2 ^ (2 - 1) * 1000 /\
  2000 <> 2 ^ (3 - 1) * 1000.
Proof. repeat split; discriminate. Qed.

(** A backend without connection twice, then answering 200. *)
Example fetchWithTimeout_third_time_lucky :
  fetchWithTimeout (GET "https://asv-8ghi.onrender.com/") 5000 2
    (world_of (flaky 2 200 (JObj [("message", JStr "ok")])) (fun _ => 0%Q))
  = (Normal {| status := 200; json := Normal (JObj [("message", JStr "ok")]) |},
     {| network := flaky 2 200 (JObj [("message", JStr "ok")]);
        sent := repeat (GET "https://asv-8ghi.onrender.com/") 3;
        slept := [1000; 2000];
        entropy := fun _ => 0%Q; drawn := 0;
        clock := "2025-01-01T00:00:00.000Z"; NEXT_PUBLIC_API_URL := None;
        argument_limit := 65535 |}).
Proof. reflexivity. Qed.

(** A request that is aborted every time ends in the 408 failure, after
    [retries + 1] attempts. *)
Example fetchWithTimeout_stalled :
  let run := fetchWithTimeout (GET "https://asv-8ghi.onrender.com/") 5000 1
               (world_of stalled (fun _ => 0%Q)) in
  fst run = Abrupt (ApiError "Request timeout after 5 seconds" 408 JUndefined) /\
  List.length (sent (snd run)) = 2%nat /\ slept (snd run) = [1000].
Proof. repeat split. Qed.

(** ** Computations that leave the world alone *)

Lemma stateless_ret {A} (a : A) : stateless (ret a).
Proof. now intros w. Qed.

Lemma stateless_throw {A} (e : JsError) : stateless (@throw A e).
Proof. now intros w. Qed.

Lemma stateless_settle {A} (c : Completion A) : stateless (settle c).
Proof. now intros w. Qed.

Lemma stateless_now : stateless now.
Proof. now intros w. Qed.

Lemma stateless_API_BASE_URL : stateless API_BASE_URL.
Proof. now intros w. Qed.

Lemma stateless_get v key : stateless (get v key).
Proof. intros w. now destruct v. Qed.

Lemma stateless_ToString v : stateless (ToString v).
Proof. intros w. unfold ToString. now destruct (to_string v). Qed.

Lemma stateless_bind {A B} (m : Js A) (k : A -> Js B) :
  stateless m -> (forall a, stateless (k a)) -> stateless (bind m k).
Proof.
  intros Hm Hk w. unfold bind. specialize (Hm w).
  destruct (m w) as [[a|e] w']; cbn [snd] in *; subst; [apply Hk | reflexivity].
Qed.

Lemma stateless_try_catch {A} (m : Js A) (h : JsError -> Js A) :
  stateless m -> (forall e, stateless (h e)) -> stateless (try_catch m h).
Proof.
  intros Hm Hh w. unfold try_catch. specialize (Hm w).
  destruct (m w) as [[a|e] w']; cbn [snd] in *; subst; [reflexivity | apply Hh].
Qed.

Lemma stateless_first_message a b fallback : stateless (first_message a b fallback).
Proof. apply stateless_ToString. Qed.

Lemma stateless_or_cannot what e : stateless (or_cannot what e).
Proof. unfold or_cannot. destruct (instanceof_ApiError e); apply stateless_throw. Qed.

Lemma stateless_analysis_failure e : stateless (analysis_failure e).
Proof.
  unfold analysis_failure.
  repeat match goal with |- stateless (if ?c then _ else _) => destruct c end;
    apply stateless_throw.
Qed.

Lemma stateless_search_failure e : stateless (search_failure e).
Proof.
  unfold search_failure.
  repeat match goal with |- stateless (if ?c then _ else _) => destruct c end;
    apply stateless_throw.
Qed.

Create HintDb stateless.
#[export] Hint Resolve stateless_ret stateless_throw stateless_settle stateless_now
  stateless_API_BASE_URL stateless_get stateless_ToString stateless_first_message
  stateless_or_cannot stateless_analysis_failure stateless_search_failure
  : stateless.

(** Decide [stateless] for a straight-line computation: split binds and
    catch clauses, branch on the conditions. *)
Ltac stateless :=
  repeat first
    [ progress intros
    | apply stateless_bind
    | apply stateless_try_catch
    | solve [auto with stateless]
    | match goal with
      | |- stateless (if ?c then _ else _) => destruct c
      | |- stateless (match ?c with _ => _ end) => destruct c
      end ].

(** The world after a computation followed by stateless ones. *)
Lemma snd_bind_stateless {A B} (m : Js A) (k : A -> Js B) w :
  (forall a, stateless (k a)) -> snd (bind m k w) = snd (m w).
Proof.
  intros Hk. unfold bind. destruct (m w) as [[a|e] w']; [apply Hk | reflexivity].
Qed.

Lemma snd_try_catch_stateless {A} (m : Js A) (h : JsError -> Js A) w :
  (forall e, stateless (h e)) -> snd (try_catch m h w) = snd (m w).
Proof.
  intros Hh. unfold try_catch. destruct (m w) as [[a|e] w']; [reflexivity | apply Hh].
Qed.

(** ** University search: the pre-flight check and the request *)

(** The requests a search issues are those of the transport. *)
Lemma searchUniversityReviews_world universityName w :
  acceptable universityName = true ->
  snd (searchUniversityReviews universityName w)
  = snd (fetchWithTimeout (search_request (base_url w) universityName)
           UNIVERSITY_TIMEOUT MAX_RETRIES w).
Proof.
  unfold acceptable, searchUniversityReviews. intros Hok.
  apply andb_prop in Hok. destruct Hok as [Hne Hlen].
  apply negb_true_iff in Hne. apply negb_true_iff in Hlen. rewrite Hne, Hlen.
  rewrite snd_try_catch_stateless by stateless.
  change (bind API_BASE_URL ?k w) with (k (base_url w) w). cbv beta.
  apply snd_bind_stateless. stateless.
Qed.

(** C8: a name that is empty once trimmed, or shorter than 3 characters,
    fails with an [ApiError] of status 400 and the world is untouched (no
    request was issued); for any other name at least one request is
    issued, and every request issued is the POST whose body holds the
    trimmed name as [university_name] and [include_debug = false]. *)
Theorem searchUniversityReviews_preflight :
  forall (universityName : string) (w : World),
    (Str.trim universityName = "" \/ Str.len universityName < 3 ->
     exists message,
       searchUniversityReviews universityName w
       = (Abrupt (ApiError message 400 JUndefined), w)) /\
    (~ (Str.trim universityName = "" \/ Str.len universityName < 3) ->
     exists tries,
       (1 <= tries)%nat /\
       sent (snd (searchUniversityReviews universityName w))
       = (sent w ++ repeat (search_request (base_url w) universityName) tries)%list /\
       method (search_request (base_url w) universityName) = "POST" /\
       body (search_request (base_url w) universityName)
       = Some (JObj [("university_name", JStr (Str.trim universityName));
                     ("include_debug", JBool false)])).
Proof.
  intros universityName w. split.
  - intros Hbad. unfold searchUniversityReviews.
    destruct (Str.is_empty (Str.trim universityName)) eqn:Hempty.
    + eexists. reflexivity.
    + destruct (Str.len universityName <? 3) eqn:Hlen.
      * eexists. reflexivity.
      * exfalso. destruct Hbad as [Hbad | Hbad].
        -- rewrite Hbad in Hempty. discriminate.
        -- apply Z.ltb_ge in Hlen. lia.
  - intros Hgood.
    assert (Hok : acceptable universityName = true).
    { unfold acceptable. apply andb_true_intro. split; apply negb_true_iff.
      - destruct (Str.trim universityName) eqn:Htrim; [|reflexivity].
        exfalso. apply Hgood. now left.
      - apply Z.ltb_ge. lia. }
    rewrite (searchUniversityReviews_world _ _ Hok).
    destruct (fetchWithTimeout_run (search_request (base_url w) universityName)
                UNIVERSITY_TIMEOUT 2 w)
      as (tries & Htries & _ & Hsent & _).
    exists tries. split; [lia|]. split; [exact Hsent|]. split; reflexivity.
Qed.

(** A name of two characters. *)
Lemma searchUniversityReviews_preflight_witness :
  exists message,
    searchUniversityReviews "IT" (world_of offline half)
    = (Abrupt (ApiError message 400 JUndefined), world_of offline half).
Proof.
  exact (proj1 (searchUniversityReviews_preflight "IT" (world_of offline half))
           (or_intror eq_refl)).
Defined.

Example searchUniversityReviews_blank :
  searchUniversityReviews "    " (world_of offline (fun _ => 0%Q))
  = (Abrupt (ApiError "University name is required" 400 JUndefined),
     world_of offline (fun _ => 0%Q)).
Proof. reflexivity. Qed.

Example searchUniversityReviews_short :
  searchUniversityReviews "IT" (world_of offline (fun _ => 0%Q))
  = (Abrupt (ApiError "University name must be at least 3 characters long" 400 JUndefined),
     world_of offline (fun _ => 0%Q)).
Proof. reflexivity. Qed.

(** The length that is checked is the one of the name as typed, the name
    that is sent is the trimmed one. *)
Example searchUniversityReviews_padded :
  sent (snd (searchUniversityReviews " a "
               (world_of (answering 200 (JObj [])) (fun _ => 0%Q))))
  = [POST "https://asv-8ghi.onrender.com/api/university-reviews"
       (JObj [("university_name", JStr "a"); ("include_debug", JBool false)])].
Proof. reflexivity. Qed.

(** ** The catch clauses only throw [ApiError] *)

Lemma or_cannot_raises what e : raises_ApiError (or_cannot what e).
Proof. intros w. unfold or_cannot, throw. destruct e; cbn; repeat eexists. Qed.

Lemma analysis_failure_raises e : raises_ApiError (analysis_failure e).
Proof.
  intros w. unfold analysis_failure, throw.
  destruct e; cbn [instanceof_ApiError]; [repeat eexists | |];
    match goal with |- context [if ?c then _ else _] => destruct c end;
    repeat eexists.
Qed.

Lemma search_failure_raises e : raises_ApiError (search_failure e).
Proof.
  intros w. unfold search_failure, throw.
  destruct e; cbn [instanceof_ApiError]; [repeat eexists | |];
    repeat match goal with |- context [if ?c then _ else _] => destruct c end;
    repeat eexists.
Qed.

(** ** University search: the reply *)

(** A search whose transport returned [response]. *)
Lemma searchUniversityReviews_reply universityName w response w1 :
  acceptable universityName = true ->
  fetchWithTimeout (search_request (base_url w) universityName)
    UNIVERSITY_TIMEOUT MAX_RETRIES w = (Normal response, w1) ->
  searchUniversityReviews universityName w
  = match json response with
    | Abrupt e => search_failure e w1
    | Normal responseData =>
        match get responseData "search_status" w1 with
        | (Abrupt e, _) => search_failure e w1
        | (Normal search_status, _) =>
            if negb (ok response) && negb (truthy search_status) then
              match to_string (js_or (lookup responseData "detail")
                                 (js_or (lookup responseData "error")
                                    (JStr ("Request failed with status "
                                           ++ Str.of_Z (status response))))) with
              | Some message =>
                  (Abrupt (ApiError message (status response) responseData), w1)
              | None =>
                  search_failure
                    (NativeError TypeError "TypeError"
                       "Cannot convert object to primitive value") w1
              end
            else (Normal (normalizedResponse responseData universityName (clock w)), w1)
        end
    end.
Proof.
  intros Hok Hfetch.
  assert (Hclock : clock w1 = clock w).
  { pose proof (fetchWithTimeout_run (search_request (base_url w) universityName)
                  UNIVERSITY_TIMEOUT 2 w) as (tries & _ & Hsame & _).
    change (Z.of_nat 2) with MAX_RETRIES in Hsame. rewrite Hfetch in Hsame.
    apply Hsame. }
  unfold acceptable in Hok. apply andb_prop in Hok. destruct Hok as [Hne Hlen].
  apply negb_true_iff in Hne. apply negb_true_iff in Hlen.
  unfold searchUniversityReviews. rewrite Hne, Hlen.
  unfold try_catch at 1. unfold bind at 1. cbn [API_BASE_URL].
  unfold bind at 1. rewrite Hfetch.
  unfold bind at 1, settle at 1.
  destruct (json response) as [responseData|e]; [|reflexivity].
  unfold bind at 1.
  destruct responseData; cbn [get throw ret]; try reflexivity;
    (destruct (negb (ok response) && negb (truthy _));
     [ unfold bind, first_message, ToString;
       match goal with |- context [to_string ?v] => destruct (to_string v) end;
       reflexivity
     | unfold bind, now; cbn; now rewrite Hclock ]).
Qed.

(** C1 (amended): when the transport returns a non-2xx response whose
    body parses to [responseData], the search returns normally, with the
    [search_status] of the body, if that [search_status] is truthy; it
    raises an [ApiError] if [search_status] is absent or falsy ([null],
    [false], [0], the empty string), and also when the body is [null]. *)
Theorem searchUniversityReviews_soft_failure :
  forall (universityName : string) (w w1 : World) (response : Response)
         (responseData : JsValue),
    acceptable universityName = true ->
    fetchWithTimeout (search_request (base_url w) universityName)
      UNIVERSITY_TIMEOUT MAX_RETRIES w = (Normal response, w1) ->
    ok response = false ->
    json response = Normal responseData ->
    (truthy (optional responseData "search_status") = true ->
     searchUniversityReviews universityName w
     = (Normal (normalizedResponse responseData universityName (clock w)), w1) /\
     UniversityReviewsResponse.search_status
       (normalizedResponse responseData universityName (clock w))
     = lookup responseData "search_status") /\
    (truthy (optional responseData "search_status") = false ->
     exists message status raw,
       searchUniversityReviews universityName w
       = (Abrupt (ApiError message status raw), w1)).
Proof.
  intros universityName w w1 response responseData Hname Hfetch Hok Hjson.
  rewrite (searchUniversityReviews_reply _ _ _ _ Hname Hfetch), Hjson, Hok.
  cbn [negb andb]. split; intros Hstatus.
  - assert (Hnn : nullish responseData = false)
      by (destruct responseData; try reflexivity; discriminate).
    unfold optional in Hstatus. rewrite Hnn in Hstatus.
    split.
    + destruct responseData; try discriminate; cbn [get ret]; now rewrite Hstatus.
    + cbn [normalizedResponse UniversityReviewsResponse.search_status].
      unfold js_or. now rewrite Hstatus.
  - unfold optional in Hstatus.
    destruct responseData; cbn [nullish] in Hstatus; cbn [get ret throw];
      try apply search_failure_raises;
      (rewrite Hstatus; cbn [negb];
       match goal with |- context [to_string ?v] => destruct (to_string v) end;
       [ repeat eexists | apply search_failure_raises ]).
Qed.

Lemma searchUniversityReviews_soft_failure_witness :
  searchUniversityReviews "X University"
    (world_of (answering 404 no_data_found) (fun _ => 0%Q))
  = (Normal (normalizedResponse no_data_found "X University" "2025-01-01T00:00:00.000Z"),
     snd (fetch (search_request "https://asv-8ghi.onrender.com" "X University")
            (world_of (answering 404 no_data_found) (fun _ => 0%Q)))) /\
  UniversityReviewsResponse.search_status
    (normalizedResponse no_data_found "X University" "2025-01-01T00:00:00.000Z")
  = JStr "no_data_found".
Proof.
  exact (proj1 (searchUniversityReviews_soft_failure "X University"
                  (world_of (answering 404 no_data_found) (fun _ => 0%Q))
                  _ {| status := 404; json := Normal no_data_found |} no_data_found
                  eq_refl eq_refl eq_refl eq_refl) eq_refl).
Defined.

(** C1 as stated fails: a 404 whose body has a [search_status] field
    holding the empty string, or [null], is raised as an [ApiError]. *)
Lemma searchUniversityReviews_present_but_empty_status :
  own "search_status" [("search_status", JStr ""); ("university_name", JStr "X")]
  = Some (JStr "") /\
  fst (searchUniversityReviews "X University"
         (world_of (answering 404
                      (JObj [("search_status", JStr ""); ("university_name", JStr "X")]))
            (fun _ => 0%Q)))
  = Abrupt (ApiError "Request failed with status 404" 404
              (JObj [("search_status", JStr ""); ("university_name", JStr "X")])) /\
  own "search_status" [("search_status", JNull); ("university_name", JStr "X")]
  = Some JNull /\
  fst (searchUniversityReviews "X University"
         (world_of (answering 404
                      (JObj [("search_status", JNull); ("university_name", JStr "X")]))
            (fun _ => 0%Q)))
  = Abrupt (ApiError "Request failed with status 404" 404
              (JObj [("search_status", JNull); ("university_name", JStr "X")])).
Proof. repeat split. Qed.

Example searchUniversityReviews_null_status :
  fst (searchUniversityReviews "X University"
         (world_of (answering 404
                      (JObj [("search_status", JNull); ("detail", JStr "Not Found")]))
            (fun _ => 0%Q)))
  = Abrupt (ApiError "Not Found" 404
              (JObj [("search_status", JNull); ("detail", JStr "Not Found")])).
Proof. reflexivity. Qed.

(** ** University search: the normalised response *)

(** What a search that returns has received. *)
Lemma searchUniversityReviews_returns universityName w result w' :
  searchUniversityReviews universityName w = (Normal result, w') ->
  exists response responseData,
    acceptable universityName = true /\
    fetchWithTimeout (search_request (base_url w) universityName)
      UNIVERSITY_TIMEOUT MAX_RETRIES w = (Normal response, w') /\
    json response = Normal responseData /\
    nullish responseData = false /\
    (ok response = true \/ truthy (lookup responseData "search_status") = true) /\
    result = normalizedResponse responseData universityName (clock w).
Proof.
  intros Hrun.
  assert (Hname : acceptable universityName = true).
  { unfold acceptable. unfold searchUniversityReviews in Hrun.
    destruct (Str.is_empty (Str.trim universityName)); [discriminate|].
    destruct (Str.len universityName <? 3); [discriminate | reflexivity]. }
  destruct (fetchWithTimeout (search_request (base_url w) universityName)
              UNIVERSITY_TIMEOUT MAX_RETRIES w) as [[response|e] w1] eqn:Hfetch.
  - rewrite (searchUniversityReviews_reply _ _ _ _ Hname Hfetch) in Hrun.
    destruct (json response) as [responseData|e] eqn:Hjson.
    + assert (Hfail : forall e, search_failure e w1 <> (Normal result, w')).
      { intros e He. destruct (search_failure_raises e w1) as (m & s & r & Hr).
        rewrite Hr in He. discriminate. }
      destruct (nullish responseData) eqn:Hnull.
      * destruct responseData; try discriminate; cbn [get throw] in Hrun;
          now apply Hfail in Hrun.
      * assert (Hget : get responseData "search_status" w1
                       = (Normal (lookup responseData "search_status"), w1))
          by (destruct responseData; try discriminate; reflexivity).
        rewrite Hget in Hrun.
        destruct (ok response) eqn:Hok; cbn [negb andb] in Hrun.
        -- inversion Hrun; subst. exists response, responseData. auto 10.
        -- destruct (truthy (lookup responseData "search_status")) eqn:Hstatus;
             cbn [negb] in Hrun.
           ++ inversion Hrun; subst. exists response, responseData. auto 10.
           ++ exfalso. destruct (to_string _) in Hrun; [discriminate|].
              now apply Hfail in Hrun.
    + exfalso. destruct (search_failure_raises e w1) as (m & s & r & Hr).
      rewrite Hr in Hrun. discriminate.
  - exfalso. unfold acceptable in Hname. apply andb_prop in Hname.
    destruct Hname as [Hne Hlen].
    apply negb_true_iff in Hne. apply negb_true_iff in Hlen.
    unfold searchUniversityReviews in Hrun. rewrite Hne, Hlen in Hrun.
    unfold try_catch, bind in Hrun. cbn [API_BASE_URL] in Hrun.
    rewrite Hfetch in Hrun.
    destruct (search_failure_raises e w1) as (m & s & r & Hr).
    rewrite Hr in Hrun. discriminate.
Qed.

Lemma js_or_defaults fallback raw : defaults_to fallback raw (js_or raw fallback).
Proof.
  unfold defaults_to, js_or. repeat split.
  - now intros ->.
  - now intros ->.
  - now intros ->.
Qed.

Lemma array_or_empty_sequence raw : sequence_or_empty raw (array_or_empty raw).
Proof.
  unfold sequence_or_empty, array_or_empty. destruct raw; cbn; repeat split; congruence.
Qed.

(** C9 (amended): a search that returns has received a parsed body
    [responseData], and in its result [negative_reviews],
    [positive_reviews] and [sources] are always sequences, the empty one
    whenever the raw field is not a sequence; the counts and the rating
    of [review_summary] are 0 when the raw value is absent or falsy; its
    complaint and praise lists are the empty sequence when the raw value
    is absent or falsy, and the raw value itself, sequence or not, when
    it is truthy; [search_status] defaults to "success",
    [analysis_timestamp] to the current time, [university_name] to the
    name searched and [nirf_ranking] to [null]; [error], [message],
    [suggestions], [api_version], [search_method], [processing_time] and
    [debug_info] are the raw values, [undefined] when absent. *)
Theorem searchUniversityReviews_defaults :
  forall (universityName : string) (w w' : World) (result : UniversityReviewsResponse.t),
    searchUniversityReviews universityName w = (Normal result, w') ->
    exists response responseData,
      fetchWithTimeout (search_request (base_url w) universityName)
        UNIVERSITY_TIMEOUT MAX_RETRIES w = (Normal response, w') /\
      json response = Normal responseData /\
      let summary := lookup responseData "review_summary" in
      let normalized := UniversityReviewsResponse.review_summary result in
      sequence_or_empty (lookup responseData "negative_reviews")
        (UniversityReviewsResponse.negative_reviews result) /\
      sequence_or_empty (lookup responseData "positive_reviews")
        (UniversityReviewsResponse.positive_reviews result) /\
      sequence_or_empty (lookup responseData "sources")
        (UniversityReviewsResponse.sources result) /\
      defaults_to (JNum 0) (optional summary "total_negative_reviews")
        (total_negative_reviews normalized) /\
      defaults_to (JNum 0) (optional summary "total_positive_reviews")
        (total_positive_reviews normalized) /\
      defaults_to (JNum 0) (optional summary "average_rating")
        (average_rating normalized) /\
      defaults_to (JArr []) (optional summary "common_complaints")
        (common_complaints normalized) /\
      defaults_to (JArr []) (optional summary "common_praises")
        (common_praises normalized) /\
      defaults_to (JStr "success") (lookup responseData "search_status")
        (UniversityReviewsResponse.search_status result) /\
      defaults_to (JStr (clock w)) (lookup responseData "analysis_timestamp")
        (UniversityReviewsResponse.analysis_timestamp result) /\
      defaults_to (JStr universityName) (lookup responseData "university_name")
        (UniversityReviewsResponse.university_name result) /\
      defaults_to JNull (lookup responseData "nirf_ranking")
        (UniversityReviewsResponse.nirf_ranking result) /\
      UniversityReviewsResponse.error result = lookup responseData "error" /\
      UniversityReviewsResponse.message result = lookup responseData "message" /\
      UniversityReviewsResponse.suggestions result = lookup responseData "suggestions" /\
      UniversityReviewsResponse.api_version result = lookup responseData "api_version" /\
      UniversityReviewsResponse.search_method result
      = lookup responseData "search_method" /\
      UniversityReviewsResponse.processing_time result
      = lookup responseData "processing_time" /\
      UniversityReviewsResponse.debug_info result = lookup responseData "debug_info".
Proof.
  intros universityName w w' result Hrun.
  destruct (searchUniversityReviews_returns _ _ _ _ Hrun)
    as (response & responseData & _ & Hfetch & Hjson & _ & _ & ->).
  exists response, responseData. split; [exact Hfetch|]. split; [exact Hjson|].
  cbn [normalizedResponse UniversityReviewsResponse.negative_reviews
       UniversityReviewsResponse.positive_reviews UniversityReviewsResponse.sources
       UniversityReviewsResponse.review_summary UniversityReviewsResponse.search_status
       UniversityReviewsResponse.analysis_timestamp
       UniversityReviewsResponse.university_name UniversityReviewsResponse.nirf_ranking
       UniversityReviewsResponse.error UniversityReviewsResponse.message
       UniversityReviewsResponse.suggestions UniversityReviewsResponse.api_version
       UniversityReviewsResponse.search_method UniversityReviewsResponse.processing_time
       UniversityReviewsResponse.debug_info
       total_negative_reviews total_positive_reviews average_rating
       common_complaints common_praises].
  repeat match goal with |- _ /\ _ => split end;
    first [apply array_or_empty_sequence | apply js_or_defaults | reflexivity].
Qed.

(** A backend that answers 200 with reviews, a summary whose praises are
    a text, a source list that is no sequence, and nothing else. *)
Lemma searchUniversityReviews_defaults_witness :
  exists response responseData,
    fetchWithTimeout (search_request "https://asv-8ghi.onrender.com" "MIT")
      UNIVERSITY_TIMEOUT MAX_RETRIES (world_of (answering 200 partial_reviews) half)
    = (Normal response,
       snd (searchUniversityReviews "MIT" (world_of (answering 200 partial_reviews) half))) /\
    json response = Normal responseData /\
    sequence_or_empty (lookup responseData "negative_reviews")
      (JArr [JObj [("review_text", JStr "slow")]]) /\
    sequence_or_empty (lookup responseData "positive_reviews") (JArr []) /\
    sequence_or_empty (lookup responseData "sources") (JArr []) /\
    defaults_to (JNum 0) (optional (lookup responseData "review_summary") "total_negative_reviews")
      (JNum 1) /\
    defaults_to (JNum 0) (optional (lookup responseData "review_summary") "total_positive_reviews")
      (JNum 0) /\
    defaults_to (JNum 0) (optional (lookup responseData "review_summary") "average_rating")
      (JFrac (7 # 2)) /\
    defaults_to (JArr []) (optional (lookup responseData "review_summary") "common_complaints")
      (JArr []) /\
    defaults_to (JArr []) (optional (lookup responseData "review_summary") "common_praises")
      (JStr "many") /\
    defaults_to (JStr "success") (lookup responseData "search_status") (JStr "success") /\
    defaults_to (JStr "2025-01-01T00:00:00.000Z") (lookup responseData "analysis_timestamp")
      (JStr "2025-01-01T00:00:00.000Z") /\
    defaults_to (JStr "MIT") (lookup responseData "university_name") (JStr "MIT") /\
    defaults_to JNull (lookup responseData "nirf_ranking") JNull /\
    JUndefined = lookup responseData "error" /\
    JUndefined = lookup responseData "message" /\
    JUndefined = lookup responseData "suggestions" /\
    JUndefined = lookup responseData "api_version" /\
    JUndefined = lookup responseData "search_method" /\
    JUndefined = lookup responseData "processing_time" /\
    JUndefined = lookup responseData "debug_info".
Proof.
  exact (searchUniversityReviews_defaults "MIT"
           (world_of (answering 200 partial_reviews) half) _ _ eq_refl).
Defined.

(** C9 as stated fails: not every optional collection of the result is
    present.  On the body above, which the search accepts, [suggestions]
    and [debug_info] are [undefined] in the result, and the
    [common_praises] of the summary is the text of the body, no
    sequence; a consumer has to test them. *)
Lemma searchUniversityReviews_collections_not_all_present :
  match fst (searchUniversityReviews "MIT"
               (world_of (answering 200 partial_reviews) half)) with
  | Normal result =>
      UniversityReviewsResponse.suggestions result = JUndefined /\
      UniversityReviewsResponse.debug_info result = JUndefined /\
      common_praises (UniversityReviewsResponse.review_summary result) = JStr "many" /\
      isArray (common_praises (UniversityReviewsResponse.review_summary result)) = false
  | Abrupt _ => False
  end.
Proof. cbn. repeat split. Qed.

Example searchUniversityReviews_empty_body :
  fst (searchUniversityReviews "MIT" (world_of (answering 200 (JObj [])) (fun _ => 0%Q)))
  = Normal
      {| UniversityReviewsResponse.university_name := JStr "MIT";
         UniversityReviewsResponse.nirf_ranking := JNull;
         UniversityReviewsResponse.negative_reviews := JArr [];
         UniversityReviewsResponse.positive_reviews := JArr [];
         UniversityReviewsResponse.review_summary :=
           {| total_negative_reviews := JNum 0; total_positive_reviews := JNum 0;
              average_rating := JNum 0; common_complaints := JArr [];
              common_praises := JArr [] |};
         UniversityReviewsResponse.sources := JArr [];
         UniversityReviewsResponse.analysis_timestamp := JStr "2025-01-01T00:00:00.000Z";
         UniversityReviewsResponse.search_status := JStr "success";
         UniversityReviewsResponse.error := JUndefined;
         UniversityReviewsResponse.message := JUndefined;
         UniversityReviewsResponse.suggestions := JUndefined;
         UniversityReviewsResponse.api_version := JUndefined;
         UniversityReviewsResponse.search_method := JUndefined;
         UniversityReviewsResponse.processing_time := JUndefined;
         UniversityReviewsResponse.debug_info := JUndefined |}.
Proof. reflexivity. Qed.

(** ** Response normaliser *)

Lemma bind_returns {A B} (m : Js A) (k : A -> Js B) w b w' :
  bind m k w = (Normal b, w') ->
  exists a w1, m w = (Normal a, w1) /\ k a w1 = (Normal b, w').
Proof.
  unfold bind. destruct (m w) as [[a|e] w1]; [eauto | discriminate].
Qed.

Lemma bind_normal {A B} (m : Js A) (k : A -> Js B) w a w1 :
  m w = (Normal a, w1) -> bind m k w = k a w1.
Proof. unfold bind. now intros ->. Qed.

Lemma get_returns v key w x w' :
  get v key w = (Normal x, w') -> nullish v = false /\ x = lookup v key /\ w' = w.
Proof. destruct v; cbn; intros H; inversion H; auto. Qed.

Lemma get_defined v key w :
  nullish v = false -> get v key w = (Normal (lookup v key), w).
Proof. destruct v; intros H; try discriminate H; reflexivity. Qed.

Lemma web_evidence_returns index :
  forall items webIndex w es w',
    web_evidence index webIndex items w = (Normal es, w') ->
    w' = w /\ Forall2 built_from items es.
Proof.
  induction items as [|webEv rest IH]; intros webIndex w es w' Hrun.
  - cbn in Hrun. inversion Hrun. auto.
  - cbn [web_evidence] in Hrun.
    apply bind_returns in Hrun. destruct Hrun as (snippet & w1 & Hget & Hrun).
    apply get_returns in Hget. destruct Hget as (_ & -> & ->).
    apply bind_returns in Hrun. destruct Hrun as (more & w2 & Hrest & Hrun).
    apply IH in Hrest. destruct Hrest as [-> Hrest].
    inversion Hrun; subst. split; [reflexivity|].
    constructor; [|exact Hrest].
    repeat split; try reflexivity; apply js_or_defaults.
Qed.

Lemma web_evidence_defined index :
  forall items webIndex w,
    forallb (fun webEv => negb (nullish webEv)) items = true ->
    exists es, web_evidence index webIndex items w = (Normal es, w).
Proof.
  induction items as [|webEv rest IH]; intros webIndex w Hitems.
  - exists []. reflexivity.
  - cbn [forallb] in Hitems. apply andb_prop in Hitems. destruct Hitems as [Hev Hrest].
    apply negb_true_iff in Hev.
    destruct (IH (S webIndex) w Hrest) as (more & Hmore).
    eexists. cbn [web_evidence].
    rewrite (bind_normal _ _ _ _ _ (get_defined _ _ _ Hev)).
    rewrite (bind_normal _ _ _ _ _ Hmore). reflexivity.
Qed.

Lemma random_int_range span base w :
  fair w -> 0 < span -> Z.abs base + span <= 2 ^ 53 ->
  exists n w', random_int span base w = (Normal n, w') /\
               base <= n <= base + span - 1 /\ fair w' /\
               entropy w' = entropy w /\ drawn w' = S (drawn w).
Proof.
  intros Hfair Hspan Hsmall. unfold random_int. eexists. eexists. split; [reflexivity|].
  destruct (Hfair (drawn w)) as (Hlo & Hhi & Hdouble).
  split; [|repeat split; apply Hfair].
  pose proof (floor_product_range _ span Hlo Hhi Hdouble) as Hfloor.
  rewrite add_Z_exact; lia.
Qed.

Lemma at_key_returns map key fallback w x w' :
  at_key map key fallback w = (Normal x, w') ->
  w' = w /\ exists k, to_string key = Some k /\ x = js_or (lookup map k) fallback.
Proof.
  unfold at_key, bind, ToString. destruct (to_string key) as [k|]; cbn; intros H.
  - inversion H; subst. eauto.
  - discriminate.
Qed.

Lemma at_key_defined map key fallback w :
  convertible key = true ->
  exists x, at_key map key fallback w = (Normal x, w).
Proof.
  unfold convertible, at_key, bind, ToString.
  destruct (to_string key); [intros _; eexists; reflexivity | discriminate].
Qed.

Lemma plus_one_or_zero_returns chunk w x w' :
  plus_one_or_zero chunk w = (Normal x, w') -> w' = w.
Proof.
  unfold plus_one_or_zero, bind, ToString.
  destruct (js_or chunk (JNum 0)); cbn [ret];
    try (intros H; inversion H; reflexivity);
    match goal with |- context [to_string ?v] => destruct (to_string v) end;
    cbn; intros H; inversion H; reflexivity.
Qed.

Lemma plus_one_or_zero_defined chunk w :
  convertible chunk = true ->
  exists x, plus_one_or_zero chunk w = (Normal x, w).
Proof.
  unfold plus_one_or_zero, js_or, convertible, bind, ToString.
  destruct (truthy chunk); [|intros _; eexists; reflexivity].
  destruct chunk; try (intros _; eexists; reflexivity);
    match goal with |- context [to_string ?v] => destruct (to_string v) end;
    first [discriminate | intros _; eexists; reflexivity].
Qed.

Lemma draws_only_refl w : draws_only w w.
Proof. unfold draws_only. repeat split; auto. Qed.

Lemma draws_only_trans w1 w2 w3 :
  draws_only w1 w2 -> draws_only w2 w3 -> draws_only w1 w3.
Proof.
  unfold draws_only.
  intros (a & b & c & d & e & f & g & h) (a' & b' & c' & d' & e' & f' & g' & h').
  repeat split; try congruence. lia.
Qed.

Lemma trustScoreMap_draws w :
  draws_only w (snd (trustScoreMap w)) /\
  exists table, fst (trustScoreMap w) = Normal table.
Proof. split; [repeat split; cbn; lia | eexists; reflexivity]. Qed.

(** The table of synthesised scores: five numbers, each within the range
    documented for its verdict. *)
Lemma trustScoreMap_ranges w :
  fair w ->
  exists confirmed supported contradicted unverifiable unsupported,
    fst (trustScoreMap w)
    = Normal (JObj [("Confirmed", JNum confirmed); ("Supported", JNum supported);
                    ("Contradicted", JNum contradicted);
                    ("Unverifiable", JNum unverifiable);
                    ("Unsupported", JNum unsupported)]) /\
    80 <= confirmed <= 95 /\ 75 <= supported <= 90 /\ 10 <= contradicted <= 30 /\
    40 <= unverifiable <= 60 /\ 25 <= unsupported <= 45.
Proof.
  intros Hfair. unfold trustScoreMap.
  destruct (random_int_range 16 80 w Hfair) as (n1 & w1 & H1 & R1 & F1 & _); [lia..|].
  destruct (random_int_range 16 75 w1 F1) as (n2 & w2 & H2 & R2 & F2 & _); [lia..|].
  destruct (random_int_range 21 10 w2 F2) as (n3 & w3 & H3 & R3 & F3 & _); [lia..|].
  destruct (random_int_range 21 40 w3 F3) as (n4 & w4 & H4 & R4 & F4 & _); [lia..|].
  destruct (random_int_range 21 25 w4 F4) as (n5 & w5 & H5 & R5 & F5 & _); [lia..|].
  exists n1, n2, n3, n4, n5.
  rewrite (bind_normal _ _ _ _ _ H1), (bind_normal _ _ _ _ _ H2),
    (bind_normal _ _ _ _ _ H3), (bind_normal _ _ _ _ _ H4), (bind_normal _ _ _ _ _ H5).
  split; [reflexivity | lia].
Qed.

(** What the callback has done when it returns. *)
Lemma map_claim_returns apiClaim index w claim w' :
  map_claim apiClaim index w = (Normal claim, w') ->
  draws_only w w' /\
  Claim.id claim = "claim-" ++ Str.of_nat index /\
  Claim.reviewStatus claim = Some "pending" /\
  Claim.reviewNotes claim = None /\
  Claim.reviewReason claim = None /\
  (exists first web,
     Claim.evidence claim = first :: web /\ from_summary apiClaim first /\
     Forall2 built_from (firstn 3 (web_items apiClaim)) web) /\
  (exists key,
     to_string (lookup apiClaim "verdict") = Some key /\
     Claim.consistency claim = js_or (lookup consistencyMap key) (JStr "Unverifiable") /\
     if truthy (lookup apiClaim "trustScore") && is_number (lookup apiClaim "trustScore")
     then Claim.trustScore claim = lookup apiClaim "trustScore"
     else exists table,
         fst (trustScoreMap w) = Normal table /\
         Claim.trustScore claim = js_or (lookup table key) (JNum 50)).
Proof.
  unfold map_claim. intros Hrun.
  apply bind_returns in Hrun. destruct Hrun as (score & w1 & Hscore & Hrun).
  apply get_returns in Hscore. destruct Hscore as (Hclaim & -> & ->).
  apply bind_returns in Hrun. destruct Hrun as (trust & w2 & Htrust & Hrun).
  apply bind_returns in Hrun. destruct Hrun as (metadata & w3 & Hmeta & Hrun).
  apply get_returns in Hmeta. destruct Hmeta as (_ & -> & ->).
  apply bind_returns in Hrun. destruct Hrun as (source & w4 & Hsource & Hrun).
  apply get_returns in Hsource. destruct Hsource as (Hmetadata & -> & ->).
  apply bind_returns in Hrun. destruct Hrun as (web & w5 & Hweb & Hrun).
  assert (Hw5 : w5 = w2 /\ Forall2 built_from (firstn 3 (web_items apiClaim)) web).
  { unfold web_items. destruct (lookup apiClaim "web_evidence");
      try (inversion Hweb; subst; split; [reflexivity | constructor]).
    now apply web_evidence_returns in Hweb. }
  destruct Hw5 as [-> Hitems]. clear Hweb.
  apply bind_returns in Hrun. destruct Hrun as (consistency & w6 & Hcons & Hrun).
  apply at_key_returns in Hcons. destruct Hcons as (-> & key & Hkey & ->).
  apply bind_returns in Hrun. destruct Hrun as (page & w7 & Hpage & Hrun).
  apply plus_one_or_zero_returns in Hpage. subst w7.
  assert (Hdraws : draws_only w w2 /\
            if truthy (lookup apiClaim "trustScore") && is_number (lookup apiClaim "trustScore")
            then trust = lookup apiClaim "trustScore"
            else exists table,
                fst (trustScoreMap w) = Normal table /\
                trust = js_or (lookup table key) (JNum 50)).
  { destruct (truthy (lookup apiClaim "trustScore") && is_number (lookup apiClaim "trustScore")).
    - inversion Htrust; subst. split; [apply draws_only_refl | reflexivity].
    - apply bind_returns in Htrust. destruct Htrust as (table & wt & Htable & Htrust).
      apply at_key_returns in Htrust. destruct Htrust as (-> & key' & Hkey' & ->).
      assert (key' = key) by congruence. subst key'.
      pose proof (trustScoreMap_draws w) as [Hd _]. rewrite Htable in Hd.
      split; [exact Hd|]. exists table. rewrite Htable. split; reflexivity. }
  destruct Hdraws as [Hdraws Htrustscore].
  unfold ret in Hrun. inversion Hrun; subst w' claim; clear Hrun.
  cbn [Claim.id Claim.reviewStatus Claim.reviewNotes
    Claim.reviewReason Claim.evidence Claim.consistency Claim.trustScore].
  split; [exact Hdraws|]. do 4 (split; [reflexivity|]).
  split.
  - eexists. exists web. split; [reflexivity|]. split; [|exact Hitems].
    repeat split.
  - exists key. auto.
Qed.

Lemma map_claim_defined apiClaim index w :
  readable_claim apiClaim = true ->
  exists claim w', map_claim apiClaim index w = (Normal claim, w').
Proof.
  unfold readable_claim. intros Hr.
  repeat (apply andb_prop in Hr; destruct Hr as [Hr ?]).
  apply negb_true_iff in Hr.
  match goal with H : negb (nullish (lookup _ "metadata")) = true |- _ =>
    apply negb_true_iff in H; rename H into Hmeta end.
  unfold map_claim.
  rewrite (bind_normal _ _ _ _ _ (get_defined _ _ _ Hr)).
  assert (Htrust : exists trust w1,
             (if truthy (lookup apiClaim "trustScore") && is_number (lookup apiClaim "trustScore")
              then ret (lookup apiClaim "trustScore")
              else bind trustScoreMap
                     (fun table => at_key table (lookup apiClaim "verdict") (JNum 50))) w
             = (Normal trust, w1)).
  { destruct (truthy (lookup apiClaim "trustScore") && is_number (lookup apiClaim "trustScore")).
    - eexists. eexists. reflexivity.
    - destruct (trustScoreMap w) as [table wt] eqn:Htable.
      pose proof (trustScoreMap_draws w) as [_ (t & Ht)]. rewrite Htable in Ht.
      cbn [fst] in Ht. subst table.
      destruct (at_key_defined t (lookup apiClaim "verdict") (JNum 50) wt) as (x & Hx);
        [assumption|].
      exists x, wt. now rewrite (bind_normal _ _ _ _ _ Htable). }
  destruct Htrust as (trust & w1 & Htrust).
  rewrite (bind_normal _ _ _ _ _ Htrust).
  rewrite (bind_normal _ _ _ _ _ (get_defined _ _ _ Hr)).
  rewrite (bind_normal _ _ _ _ _ (get_defined _ _ _ Hmeta)).
  assert (Hweb : exists web,
             match lookup apiClaim "web_evidence" with
             | JArr items => web_evidence index 0 (firstn 3 items)
             | _ => ret []
             end w1 = (Normal web, w1)).
  { unfold web_items in *. destruct (lookup apiClaim "web_evidence");
      try (eexists; reflexivity).
    now apply web_evidence_defined. }
  destruct Hweb as (web & Hweb). rewrite (bind_normal _ _ _ _ _ Hweb).
  destruct (at_key_defined consistencyMap (lookup apiClaim "verdict")
              (JStr "Unverifiable") w1) as (consistency & Hcons); [assumption|].
  rewrite (bind_normal _ _ _ _ _ Hcons).
  destruct (plus_one_or_zero_defined
              (lookup (lookup apiClaim "metadata") "source_chunk_id") w1)
    as (page & Hpage); [assumption|].
  rewrite (bind_normal _ _ _ _ _ Hpage).
  eexists. eexists. reflexivity.
Qed.

(** One claim out for each claim in, each produced by the callback. *)
Lemma map_claims_returns :
  forall apiClaims index w claims w',
    map_claims index apiClaims w = (Normal claims, w') ->
    draws_only w w' /\
    Forall2 (fun apiClaim claim =>
               exists i w1 w2,
                 draws_only w w1 /\ map_claim apiClaim i w1 = (Normal claim, w2))
      apiClaims claims.
Proof.
  induction apiClaims as [|apiClaim rest IH]; intros index w claims w' Hrun.
  - inversion Hrun; subst. split; [apply draws_only_refl | constructor].
  - cbn [map_claims] in Hrun.
    apply bind_returns in Hrun. destruct Hrun as (claim & w1 & Hclaim & Hrun).
    apply bind_returns in Hrun. destruct Hrun as (others & w2 & Hrest & Hrun).
    inversion Hrun; subst; clear Hrun.
    pose proof (map_claim_returns _ _ _ _ _ Hclaim) as (Hd1 & _).
    apply IH in Hrest. destruct Hrest as (Hd2 & Hrest).
    split; [eapply draws_only_trans; eassumption|].
    constructor.
    + exists index, w, w1. split; [apply draws_only_refl | exact Hclaim].
    + eapply Forall2_impl; [|exact Hrest].
      intros c k (i & wa & wb & Hda & Hk). exists i, wa, wb.
      split; [eapply draws_only_trans; eassumption | exact Hk].
Qed.

Lemma map_claims_defined :
  forall apiClaims index w,
    forallb readable_claim apiClaims = true ->
    exists claims w', map_claims index apiClaims w = (Normal claims, w').
Proof.
  induction apiClaims as [|apiClaim rest IH]; intros index w Hall.
  - eexists. eexists. reflexivity.
  - cbn [forallb] in Hall. apply andb_prop in Hall. destruct Hall as [Hc Hrest].
    destruct (map_claim_defined apiClaim index w Hc) as (claim & w1 & Hclaim).
    destruct (IH (S index) w1 Hrest) as (others & w2 & Hothers).
    cbn [map_claims].
    rewrite (bind_normal _ _ _ _ _ Hclaim), (bind_normal _ _ _ _ _ Hothers).
    eexists. eexists. reflexivity.
Qed.

(** A payload that has a sequence of claims is an object. *)
Lemma claims_of_object apiResponse apiClaims :
  lookup apiResponse "claims" = JArr apiClaims ->
  truthy apiResponse = true /\ typeof_object apiResponse = true.
Proof. destruct apiResponse; cbn; intros H; try discriminate H; auto. Qed.

Lemma mapApiResponseToFrontend_returns apiResponse w result w' :
  mapApiResponseToFrontend apiResponse w = (Normal result, w') ->
  truthy (lookup apiResponse "summary") = true /\
  exists apiClaims,
    lookup apiResponse "claims" = JArr apiClaims /\
    map_claims 0 apiClaims w = (Normal (claims result), w').
Proof.
  unfold mapApiResponseToFrontend. intros Hrun.
  destruct (negb (truthy apiResponse) || negb (typeof_object apiResponse));
    [discriminate|].
  destruct (truthy (lookup apiResponse "summary")); [|discriminate].
  split; [reflexivity|].
  destruct (lookup apiResponse "claims") as [| | | | | | |apiClaims| |]; try discriminate.
  exists apiClaims. split; [reflexivity|].
  apply bind_returns in Hrun. destruct Hrun as (ks & w1 & Hks & Hrun).
  inversion Hrun; subst. exact Hks.
Qed.

Lemma mapApiResponseToFrontend_defined apiResponse apiClaims w :
  truthy (lookup apiResponse "summary") = true ->
  lookup apiResponse "claims" = JArr apiClaims ->
  forallb readable_claim apiClaims = true ->
  exists result w', mapApiResponseToFrontend apiResponse w = (Normal result, w').
Proof.
  intros Hsummary Hclaims Hall.
  destruct (claims_of_object _ _ Hclaims) as [Ht Ho].
  destruct (map_claims_defined apiClaims 0 w Hall) as (ks & w1 & Hks).
  unfold mapApiResponseToFrontend. rewrite Ht, Ho, Hsummary, Hclaims. cbn [negb orb].
  rewrite (bind_normal _ _ _ _ _ Hks). eexists. eexists. reflexivity.
Qed.

Example mapApiResponseToFrontend_one_claim :
  fst (mapApiResponseToFrontend one_claim (world_of offline half))
  = Normal
      {| summary :=
           {| totalClaims := JNum 1; processingTime := JNum 2;
              documentName := JStr "report.txt";
              timestamp := JStr "2025-01-01T00:00:00Z";
              analysisMode := JUndefined |};
         claims :=
           [{| Claim.id := "claim-0"; Claim.text := JStr "X";
               Claim.category := JStr "Financial";
               Claim.consistency := JStr "Supported";
               Claim.trustScore := JNum 83;
               Claim.explanation := JStr "R";
               Claim.evidence :=
                 [{| Evidence.id := "evidence-0-1"; Evidence.text := JStr "E";
                     Evidence.source := JStr "doc"; Evidence.url := JStr "#";
                     Evidence.relevanceScore := JNum 85 |}];
               Claim.pageNumber := JNum 1;
               Claim.reviewStatus := Some "pending";
               Claim.reviewNotes := None;
               Claim.reviewReason := None |}] |}.
Proof. reflexivity. Qed.



(** C5 (amended): for a payload with a truthy [summary] and a sequence of
    claims that are all readable (see [readable_claim]),
    [mapApiResponseToFrontend] returns, with one claim for each raw claim;
    the evidence of each starts with the entry built from the raw evidence
    summary (source of the metadata, relevance 85, url "#"), followed by
    one entry for each of the first three web-evidence records, at most 3,
    each with the record's relevance score, or 75 when that is absent or
    falsy. *)
Theorem mapApiResponseToFrontend_claims_and_evidence :
  forall (apiResponse : JsValue) (apiClaims : list JsValue) (w : World),
    truthy (lookup apiResponse "summary") = true ->
    lookup apiResponse "claims" = JArr apiClaims ->
    forallb readable_claim apiClaims = true ->
    exists result w',
      mapApiResponseToFrontend apiResponse w = (Normal result, w') /\
      List.length (claims result) = List.length apiClaims /\
      Forall2 (fun apiClaim claim =>
                 exists first web,
                   Claim.evidence claim = first :: web /\
                   from_summary apiClaim first /\
                   (List.length web <= 3)%nat /\
                   Forall2 built_from (firstn 3 (web_items apiClaim)) web)
        apiClaims (claims result).
Proof.
  intros apiResponse apiClaims w Hsummary Hclaims Hall.
  destruct (mapApiResponseToFrontend_defined _ _ w Hsummary Hclaims Hall)
    as (result & w' & Hrun).
  exists result, w'. split; [exact Hrun|].
  apply mapApiResponseToFrontend_returns in Hrun.
  destruct Hrun as (_ & apiClaims' & Hclaims' & Hmap).
  rewrite Hclaims in Hclaims'. inversion Hclaims'; subst apiClaims'.
  apply map_claims_returns in Hmap. destruct Hmap as (_ & Hmap).
  split; [symmetry; eapply Forall2_length; exact Hmap|].
  eapply Forall2_impl; [|exact Hmap].
  intros c k (i & w1 & w2 & _ & Hk).
  apply map_claim_returns in Hk.
  destruct Hk as (_ & _ & _ & _ & _ & (first & web & Hev & Hfirst & Hweb) & _).
  exists first, web. split; [exact Hev|]. split; [exact Hfirst|].
  split; [|exact Hweb].
  apply Forall2_length in Hweb. rewrite <- Hweb, length_firstn. lia.
Qed.

Lemma mapApiResponseToFrontend_claims_and_evidence_witness :
  exists result w',
    mapApiResponseToFrontend four_sources (world_of offline half) = (Normal result, w') /\
    List.length (claims result) = 1%nat /\
    Forall2 (fun apiClaim claim =>
               exists first web,
                 Claim.evidence claim = first :: web /\
                 from_summary apiClaim first /\
                 (List.length web <= 3)%nat /\
                 Forall2 built_from (firstn 3 (web_items apiClaim)) web)
      (match lookup four_sources "claims" with JArr l => l | _ => [] end)
      (claims result).
Proof.
  exact (mapApiResponseToFrontend_claims_and_evidence four_sources _
           (world_of offline half) eq_refl eq_refl eq_refl).
Defined.

Example mapApiResponseToFrontend_four_sources :
  match fst (mapApiResponseToFrontend four_sources (world_of offline half)) with
  | Normal result =>
      map (fun claim => map Evidence.relevanceScore (Claim.evidence claim)) (claims result)
  | Abrupt _ => []
  end = [[JNum 85; JNum 60; JNum 75; JNum 75]].
Proof. reflexivity. Qed.

(** C5 as stated fails: a payload with a summary and a claims array whose
    only claim has no metadata is not normalised, the callback throws a
    [TypeError]. *)
Lemma mapApiResponseToFrontend_claim_without_metadata :
  truthy (lookup (JObj [("summary", JObj [("total_claims", JNum 1)]);
                        ("claims", JArr [JObj [("claim_text", JStr "X");
                                               ("verdict", JStr "Supported")]])])
            "summary") = true /\
  isArray (lookup (JObj [("summary", JObj [("total_claims", JNum 1)]);
                         ("claims", JArr [JObj [("claim_text", JStr "X");
                                                ("verdict", JStr "Supported")]])])
             "claims") = true /\
  fst (mapApiResponseToFrontend
         (JObj [("summary", JObj [("total_claims", JNum 1)]);
                ("claims", JArr [JObj [("claim_text", JStr "X");
                                       ("verdict", JStr "Supported")]])])
         (world_of offline half))
  = Abrupt (NativeError TypeError "TypeError"
              "Cannot read properties of undefined (reading 'source')").
Proof. repeat split. Qed.

(** ** Verdict, consistency and trust score *)

(** The consistency of a claim by the key its verdict converts to: the
    entry of [consistencyMap] for the five verdicts, "Unverifiable" for
    every other key that names no member of [Object.prototype], and the
    inherited member for one that does. *)
Lemma consistency_of_key apiClaim index w claim w' key :
  map_claim apiClaim index w = (Normal claim, w') ->
  to_string (lookup apiClaim "verdict") = Some key ->
  (key = "Confirmed" \/ key = "Supported" ->
   Claim.consistency claim = JStr "Supported") /\
  (key = "Contradicted" \/ key = "Unverifiable" \/ key = "Unsupported" ->
   Claim.consistency claim = JStr key) /\
  (score_range key = None -> inherited key = false ->
   Claim.consistency claim = JStr "Unverifiable") /\
  (inherited key = true -> Claim.consistency claim = JBuiltin key).
Proof.
  intros Hrun Hverdict. apply map_claim_returns in Hrun.
  destruct Hrun as (_ & _ & _ & _ & _ & _ & key' & Hkey & Hcons & _).
  rewrite Hverdict in Hkey. inversion Hkey; subst key'. rewrite Hcons.
  split; [|split; [|split]].
  - intros [-> | ->]; reflexivity.
  - intros [-> | [-> | ->]]; reflexivity.
  - unfold score_range. intros Hrange Hin. unfold consistencyMap, lookup, own.
    destruct (String.eqb key "Confirmed"); [discriminate|].
    destruct (String.eqb key "Supported"); [discriminate|].
    destruct (String.eqb key "Contradicted"); [discriminate|].
    destruct (String.eqb key "Unverifiable"); [discriminate|].
    destruct (String.eqb key "Unsupported"); [discriminate|].
    now rewrite Hin.
  - intros Hin. unfold consistencyMap, lookup, own.
    destruct (String.eqb key "Confirmed") eqn:E1;
      [apply String.eqb_eq in E1; subst; discriminate|].
    destruct (String.eqb key "Supported") eqn:E2;
      [apply String.eqb_eq in E2; subst; discriminate|].
    destruct (String.eqb key "Contradicted") eqn:E3;
      [apply String.eqb_eq in E3; subst; discriminate|].
    destruct (String.eqb key "Unverifiable") eqn:E4;
      [apply String.eqb_eq in E4; subst; discriminate|].
    destruct (String.eqb key "Unsupported") eqn:E5;
      [apply String.eqb_eq in E5; subst; discriminate|].
    now rewrite Hin.
Qed.

(** C3 as stated fails: for the verdict "constructor", which is none of
    the five, [consistencyMap[verdict]] finds the member every object
    inherits from [Object.prototype]; it is truthy, so the consistency of
    the claim is that built-in function and not "Unverifiable", nor any
    of the four values. *)
Lemma mapApiResponseToFrontend_inherited_verdict :
  consistencies (mapApiResponseToFrontend (claim_with (JStr "constructor") None)
                   (world_of offline half))
  = [JBuiltin "constructor"] /\
  consistencies (mapApiResponseToFrontend (claim_with (JStr "toString") None)
                   (world_of offline half))
  = [JBuiltin "toString"] /\
  consistencies (mapApiResponseToFrontend (claim_with (JStr "Pending") None)
                   (world_of offline half))
  = [JStr "Unverifiable"].
Proof. repeat split. Qed.

Example consistencies_of_the_five :
  map (fun verdict =>
         consistencies (mapApiResponseToFrontend (claim_with (JStr verdict) None)
                          (world_of offline half)))
    ["Confirmed"; "Supported"; "Contradicted"; "Unverifiable"; "Unsupported"]
  = [[JStr "Supported"]; [JStr "Supported"]; [JStr "Contradicted"];
     [JStr "Unverifiable"]; [JStr "Unsupported"]].
Proof. reflexivity. Qed.

(** The trust score of a claim by the key its verdict converts to: a
    number other than 0 supplied by the payload is kept; otherwise the
    score is drawn within the range of the verdict, and is 50 for every
    other key that names no member of [Object.prototype]. *)
Lemma trustScore_of_key apiClaim index w claim w' key :
  fair w ->
  map_claim apiClaim index w = (Normal claim, w') ->
  to_string (lookup apiClaim "verdict") = Some key ->
  (is_number (lookup apiClaim "trustScore") = true ->
   truthy (lookup apiClaim "trustScore") = true ->
   Claim.trustScore claim = lookup apiClaim "trustScore") /\
  (truthy (lookup apiClaim "trustScore") && is_number (lookup apiClaim "trustScore") = false ->
   match score_range key with
   | Some (low, high) => exists n, Claim.trustScore claim = JNum n /\ low <= n <= high
   | None =>
       Claim.trustScore claim = if inherited key then JBuiltin key else JNum 50
   end).
Proof.
  intros Hfair Hrun Hverdict. apply map_claim_returns in Hrun.
  destruct Hrun as (_ & _ & _ & _ & _ & _ & key' & Hkey & _ & Htrust).
  rewrite Hverdict in Hkey. inversion Hkey; subst key'. split.
  - intros Hnumber Htruthy. now rewrite Hnumber, Htruthy in Htrust.
  - intros Hcond. rewrite Hcond in Htrust. destruct Htrust as (table & Htable & ->).
    destruct (trustScoreMap_ranges w Hfair)
      as (n1 & n2 & n3 & n4 & n5 & Ht & R1 & R2 & R3 & R4 & R5).
    rewrite Ht in Htable. inversion Htable; subst table; clear Htable.
    unfold score_range, lookup, own, js_or.
    destruct (String.eqb key "Confirmed").
    { exists n1. cbn. destruct (n1 =? 0) eqn:E; [lia|]. split; [reflexivity | lia]. }
    destruct (String.eqb key "Supported").
    { exists n2. cbn. destruct (n2 =? 0) eqn:E; [lia|]. split; [reflexivity | lia]. }
    destruct (String.eqb key "Contradicted").
    { exists n3. cbn. destruct (n3 =? 0) eqn:E; [lia|]. split; [reflexivity | lia]. }
    destruct (String.eqb key "Unverifiable").
    { exists n4. cbn. destruct (n4 =? 0) eqn:E; [lia|]. split; [reflexivity | lia]. }
    destruct (String.eqb key "Unsupported").
    { exists n5. cbn. destruct (n5 =? 0) eqn:E; [lia|]. split; [reflexivity | lia]. }
    destruct (inherited key); reflexivity.
Qed.

(** C2 as stated fails.  For the verdict "constructor", which is none of
    the five, [trustScoreMap[verdict]] finds the member inherited from
    [Object.prototype], and the score of the claim is that built-in
    function, not 50.  And a raw claim that supplies the numeric trust
    score 0 does not keep it: [0] is falsy, the guard takes the fallback
    branch and the score is drawn in the range of the verdict, 10..30 for
    "Contradicted" (20 with the draws at one half). *)
Lemma trustScore_not_as_claimed :
  trustScores (mapApiResponseToFrontend (claim_with (JStr "constructor") None)
                 (world_of offline half))
  = [JBuiltin "constructor"] /\
  is_number (JNum 0) = true /\
  trustScores (mapApiResponseToFrontend (claim_with (JStr "Contradicted") (Some (JNum 0)))
                 (world_of offline half))
  = [JNum 20].
Proof. repeat split. Qed.

(** A score of 0 is replaced whatever the verdict; another score is kept. *)
Example mapApiResponseToFrontend_zero_trustScore :
  trustScores (mapApiResponseToFrontend (claim_with (JStr "Confirmed") (Some (JNum 0)))
                 (world_of offline (fun _ => 0%Q)))
  = [JNum 80] /\
  trustScores (mapApiResponseToFrontend (claim_with (JStr "Contradicted") (Some (JNum 7)))
                 (world_of offline half))
  = [JNum 7].
Proof. repeat split. Qed.

(** The product is rounded before [Math.floor] sees it: with
    [Math.random()] at [(2^55 - 2) / 7 / 2^53] the product by 21 is
    below 12, and the double nearest to it is 12. *)
Example trustScore_rounded_product :
  trustScores (mapApiResponseToFrontend (claim_with (JStr "Contradicted") None)
                 (world_of offline (fun _ => (5146971002709138 # 9007199254740992)%Q)))
  = [JNum 22] /\
  Qfloor ((5146971002709138 # 9007199254740992) * 21) = 11.
Proof. split; vm_compute; reflexivity. Qed.

(** A score with a fractional part is kept as it is. *)
Example mapApiResponseToFrontend_fractional_trustScore :
  trustScores (mapApiResponseToFrontend
                 (claim_with (JStr "Confirmed") (Some (JFrac (175 # 2))))
                 (world_of offline half))
  = [JFrac (175 # 2)].
Proof. reflexivity. Qed.

(** Inherited and unknown verdicts side by side. *)
Example trustScore_inherited_verdict :
  trustScores (mapApiResponseToFrontend (claim_with (JStr "constructor") None)
                 (world_of offline half))
  = [JBuiltin "constructor"] /\
  trustScores (mapApiResponseToFrontend (claim_with (JStr "Pending") None)
                 (world_of offline half))
  = [JNum 50].
Proof. repeat split. Qed.

Lemma fair_draws_only w w' : fair w -> draws_only w w' -> fair w'.
Proof. intros Hfair (_ & _ & _ & He & _) k. rewrite He. apply Hfair. Qed.

(** C3 (amended): when [mapApiResponseToFrontend] returns, the
    consistency of each claim is "Supported" when its raw verdict (as the
    key it converts to; a string is its own key) is "Confirmed" or
    "Supported", the verdict itself for "Contradicted", "Unverifiable"
    and "Unsupported", and "Unverifiable" for every other verdict that is
    not the name of a member of [Object.prototype]; for all these
    verdicts it is one of the four values. *)
Theorem verdict_to_consistency :
  forall (apiResponse : JsValue) (w w' : World) (result : AnalysisResult),
    mapApiResponseToFrontend apiResponse w = (Normal result, w') ->
    exists apiClaims,
      lookup apiResponse "claims" = JArr apiClaims /\
      Forall2 (fun apiClaim claim =>
                 exists verdict,
                   to_string (lookup apiClaim "verdict") = Some verdict /\
                   (verdict = "Confirmed" \/ verdict = "Supported" ->
                    Claim.consistency claim = JStr "Supported") /\
                   (verdict = "Contradicted" \/ verdict = "Unverifiable" \/
                    verdict = "Unsupported" ->
                    Claim.consistency claim = JStr verdict) /\
                   (score_range verdict = None -> inherited verdict = false ->
                    Claim.consistency claim = JStr "Unverifiable") /\
                   (inherited verdict = false -> is_consistency (Claim.consistency claim)))
        apiClaims (claims result).
Proof.
  intros apiResponse w w' result Hrun.
  apply mapApiResponseToFrontend_returns in Hrun.
  destruct Hrun as (_ & apiClaims & Hclaims & Hmap).
  exists apiClaims. split; [exact Hclaims|].
  apply map_claims_returns in Hmap. destruct Hmap as (_ & Hmap).
  eapply Forall2_impl; [|exact Hmap].
  intros c k (i & w1 & w2 & _ & Hk).
  pose proof (map_claim_returns _ _ _ _ _ Hk)
    as (_ & _ & _ & _ & _ & _ & verdict & Hverdict & _).
  destruct (consistency_of_key _ _ _ _ _ _ Hk Hverdict) as (H1 & H2 & H3 & _).
  exists verdict. split; [exact Hverdict|]. split; [exact H1|].
  split; [exact H2|]. split; [exact H3|].
  intros Hin. unfold is_consistency.
  destruct (score_range verdict) as [range|] eqn:Hrange; [|auto].
  unfold score_range in Hrange.
  destruct (String.eqb verdict "Confirmed") eqn:E1;
    [apply String.eqb_eq in E1; auto|].
  destruct (String.eqb verdict "Supported") eqn:E2;
    [apply String.eqb_eq in E2; auto|].
  destruct (String.eqb verdict "Contradicted") eqn:E3;
    [apply String.eqb_eq in E3; rewrite H2; subst; auto|].
  destruct (String.eqb verdict "Unverifiable") eqn:E4;
    [apply String.eqb_eq in E4; rewrite H2; subst; auto|].
  destruct (String.eqb verdict "Unsupported") eqn:E5;
    [apply String.eqb_eq in E5; rewrite H2; subst; auto 6|].
  discriminate.
Qed.

Lemma verdict_to_consistency_witness :
  exists apiClaims,
    lookup one_claim "claims" = JArr apiClaims /\
    Forall2 (fun apiClaim claim =>
               exists verdict,
                 to_string (lookup apiClaim "verdict") = Some verdict /\
                 (verdict = "Confirmed" \/ verdict = "Supported" ->
                  Claim.consistency claim = JStr "Supported") /\
                 (verdict = "Contradicted" \/ verdict = "Unverifiable" \/
                  verdict = "Unsupported" ->
                  Claim.consistency claim = JStr verdict) /\
                 (score_range verdict = None -> inherited verdict = false ->
                  Claim.consistency claim = JStr "Unverifiable") /\
                 (inherited verdict = false -> is_consistency (Claim.consistency claim)))
      apiClaims
      (match fst (mapApiResponseToFrontend one_claim (world_of offline half)) with
       | Normal result => claims result
       | Abrupt _ => []
       end).
Proof.
  exact (verdict_to_consistency one_claim (world_of offline half) _ _ eq_refl).
Defined.

(** C2 (amended): when [mapApiResponseToFrontend] returns, with
    [Math.random] a double in [0, 1), each claim keeps the trust score
    of the payload when that is a number other than 0, whole or not; a
    claim whose payload supplies no number gets a whole number within
    the inclusive range of its verdict (Confirmed 80-95, Supported 75-90,
    Contradicted 10-30, Unverifiable 40-60, Unsupported 25-45), the
    products of [Math.random] being rounded as the doubles they are, and
    50 for every other verdict that is not the name of a member of
    [Object.prototype]. *)
Theorem synthesised_trustScore :
  forall (apiResponse : JsValue) (w w' : World) (result : AnalysisResult),
    fair w ->
    mapApiResponseToFrontend apiResponse w = (Normal result, w') ->
    exists apiClaims,
      lookup apiResponse "claims" = JArr apiClaims /\
      Forall2 (fun apiClaim claim =>
                 exists verdict,
                   to_string (lookup apiClaim "verdict") = Some verdict /\
                   (is_number (lookup apiClaim "trustScore") = true ->
                    truthy (lookup apiClaim "trustScore") = true ->
                    Claim.trustScore claim = lookup apiClaim "trustScore") /\
                   (forall n, lookup apiClaim "trustScore" = JNum n -> n <> 0 ->
                              Claim.trustScore claim = JNum n) /\
                   (is_number (lookup apiClaim "trustScore") = false ->
                    match score_range verdict with
                    | Some (low, high) =>
                        exists n, Claim.trustScore claim = JNum n /\ low <= n <= high
                    | None =>
                        inherited verdict = false -> Claim.trustScore claim = JNum 50
                    end))
        apiClaims (claims result).
Proof.
  intros apiResponse w w' result Hfair Hrun.
  apply mapApiResponseToFrontend_returns in Hrun.
  destruct Hrun as (_ & apiClaims & Hclaims & Hmap).
  exists apiClaims. split; [exact Hclaims|].
  apply map_claims_returns in Hmap. destruct Hmap as (_ & Hmap).
  eapply Forall2_impl; [|exact Hmap].
  intros c k (i & w1 & w2 & Hd & Hk).
  pose proof (map_claim_returns _ _ _ _ _ Hk)
    as (_ & _ & _ & _ & _ & _ & verdict & Hverdict & _).
  destruct (trustScore_of_key _ _ _ _ _ _
              (fair_draws_only _ _ Hfair Hd) Hk Hverdict) as (Hkept & Hdrawn).
  exists verdict. split; [exact Hverdict|]. split; [exact Hkept|]. split.
  { intros n Hn Hnz. rewrite <- Hn. apply Hkept; rewrite Hn; [reflexivity|].
    cbn. now apply negb_true_iff, Z.eqb_neq. }
  intros Hnumber. rewrite Hnumber, andb_false_r in Hdrawn. specialize (Hdrawn eq_refl).
  destruct (score_range verdict) as [[low high]|]; [exact Hdrawn|].
  intros Hin. now rewrite Hin in Hdrawn.
Qed.

Lemma half_is_fair : fair (world_of offline half).
Proof.
  intros k. split; [|split]; [unfold Qle; cbn; lia | unfold Qlt; cbn; lia |].
  vm_compute. reflexivity.
Qed.

Lemma synthesised_trustScore_witness :
  exists apiClaims,
    lookup one_claim "claims" = JArr apiClaims /\
    Forall2 (fun apiClaim claim =>
               exists verdict,
                 to_string (lookup apiClaim "verdict") = Some verdict /\
                 (is_number (lookup apiClaim "trustScore") = true ->
                  truthy (lookup apiClaim "trustScore") = true ->
                  Claim.trustScore claim = lookup apiClaim "trustScore") /\
                 (forall n, lookup apiClaim "trustScore" = JNum n -> n <> 0 ->
                            Claim.trustScore claim = JNum n) /\
                 (is_number (lookup apiClaim "trustScore") = false ->
                  match score_range verdict with
                  | Some (low, high) =>
                      exists n, Claim.trustScore claim = JNum n /\ low <= n <= high
                  | None =>
                      inherited verdict = false -> Claim.trustScore claim = JNum 50
                  end))
      apiClaims
      (match fst (mapApiResponseToFrontend one_claim (world_of offline half)) with
       | Normal result => claims result
       | Abrupt _ => []
       end).
Proof.
  exact (synthesised_trustScore one_claim (world_of offline half) _ _
           half_is_fair eq_refl).
Defined.

(** ** Document analysis *)

Lemma analyzeDocument_transport file w bytes :
  encoded file w bytes ->
  analyzeDocument file w
  = match fetchWithTimeout (analyze_request (base_url w) file (Base64.btoa bytes))
            FETCH_TIMEOUT MAX_RETRIES w with
    | (Abrupt e, w1) => analysis_failure e w1
    | (Normal response, w1) =>
        if ok response then
          match json response with
          | Abrupt e => analysis_failure e w1
          | Normal responseData =>
              match get responseData "summary" w1 with
              | (Abrupt e, _) => analysis_failure e w1
              | (Normal summary, _) =>
                  if negb (truthy summary) || negb (truthy (lookup responseData "claims"))
                  then (Abrupt (ApiError "Invalid response structure from backend"
                                  500 JUndefined), w1)
                  else (Normal responseData, w1)
              end
          end
        else
          let errorData :=
            match json response with Normal d => d | Abrupt _ => JObj [] end in
          match get errorData "detail" w1 with
          | (Abrupt e, _) => analysis_failure e w1
          | (Normal detail, _) =>
              match to_string (js_or detail
                                 (js_or (lookup errorData "error")
                                    (JStr ("Analysis failed with status "
                                           ++ Str.of_Z (status response))))) with
              | Some message =>
                  (Abrupt (ApiError message (status response) errorData), w1)
              | None =>
                  analysis_failure
                    (NativeError TypeError "TypeError"
                       "Cannot convert object to primitive value") w1
              end
          end
    end.
Proof.
  intros [Hbuffer Hlimit]. unfold analyzeDocument.
  unfold try_catch at 1. unfold bind at 1, settle at 1. rewrite Hbuffer.
  unfold bind at 1, encode at 1. rewrite Hlimit.
  unfold bind at 1. cbn [API_BASE_URL]. unfold bind at 1.
  destruct (fetchWithTimeout (analyze_request (base_url w) file (Base64.btoa bytes))
              FETCH_TIMEOUT MAX_RETRIES w) as [[response|e] w1]; [|reflexivity].
  destruct (ok response); cbn [negb].
  - unfold bind at 1, settle at 1.
    destruct (json response) as [responseData|e]; [|reflexivity].
    unfold bind at 1.
    destruct responseData; cbn [get throw ret]; try reflexivity;
      destruct (negb (truthy _) || negb (truthy _)); reflexivity.
  - unfold bind at 1, try_catch at 1, settle at 1.
    destruct (json response) as [errorData|e]; cbv zeta.
    + unfold bind at 1.
      destruct errorData; cbn [get throw ret]; try reflexivity;
        unfold bind, first_message, ToString;
        match goal with |- context [to_string ?v] => destruct (to_string v) end;
        reflexivity.
    + cbn [ret get]. unfold bind, first_message, ToString; cbn [ret].
      match goal with |- context [to_string ?v] => destruct (to_string v) end;
        reflexivity.
Qed.

(** The failures of the steps before the request. *)
Lemma analyzeDocument_unread file w e :
  arrayBuffer file = Abrupt e -> analyzeDocument file w = analysis_failure e w.
Proof.
  intros Hbuffer. unfold analyzeDocument, try_catch, bind, settle. now rewrite Hbuffer.
Qed.

Lemma analyzeDocument_too_long file w bytes :
  arrayBuffer file = Normal bytes ->
  N.ltb (argument_limit w) (N.of_nat (List.length bytes)) = true ->
  analyzeDocument file w
  = analysis_failure
      (NativeError RangeError "RangeError" "Maximum call stack size exceeded") w.
Proof.
  intros Hbuffer Hlimit. unfold analyzeDocument, try_catch, bind, settle, encode.
  now rewrite Hbuffer, Hlimit.
Qed.

Example analyzeDocument_request :
  sent (snd (analyzeDocument note (world_of (answering 200 one_claim) half)))
  = [POST "https://asv-8ghi.onrender.com/analyze"
       (JObj [("filename", JStr "note.txt"); ("content", JStr "aGk=");
              ("file_type", JStr "txt")])] /\
  fst (analyzeDocument note (world_of (answering 200 one_claim) half)) = Normal one_claim.
Proof. split; reflexivity. Qed.

(** ** Malformed analysis payloads *)






(** ** The failures of the endpoint operations *)

Lemma try_catch_only_ApiError {A} (m : Js A) (h : JsError -> Js A) :
  (forall e, raises_ApiError (h e)) -> only_ApiError (try_catch m h).
Proof.
  intros Hh w e w' Hrun. unfold try_catch in Hrun.
  destruct (m w) as [[a|e0] w1]; [discriminate|].
  destruct (Hh e0 w1) as (message & status & response & Hr).
  rewrite Hr in Hrun. inversion Hrun. reflexivity.
Qed.

Lemma fetchWithTimeout_unanswered request timeout retries w last :
  unanswered w request retries last ->
  exists w1,
    fetchWithTimeout request timeout (Z.of_nat retries) w
    = (Abrupt (exhausted timeout last), w1).
Proof.
  intros [Hrej Hlast].
  destruct (fetchWithTimeout_run request timeout retries w)
    as (tries & Htries & _ & _ & _ & _ & Hend).
  exists (snd (fetchWithTimeout request timeout (Z.of_nat retries) w)).
  assert (Hall : forall j, (j <= retries)%nat ->
             exists e, network w (List.length (sent w) + j)%nat request = Abrupt e).
  { intros j Hj. destruct (Nat.eq_dec j retries) as [-> | Hne]; [eauto|].
    apply Hrej. lia. }
  destruct (Hall (tries - 1)%nat) as (e & He); [lia|].
  rewrite He in Hend. destruct Hend as [Htries' Hend].
  replace (tries - 1)%nat with retries in He by lia.
  rewrite Hlast in He. inversion He; subst e.
  destruct (fetchWithTimeout request timeout (Z.of_nat retries) w) as [r w1].
  cbn [fst snd] in *. now subst r.
Qed.




(** *** Health and status *)

Lemma getHealth_probe :
  getHealth = probe "/" "Failed to connect to API" "Cannot connect to backend server".
Proof. reflexivity. Qed.

Lemma getStatus_probe :
  getStatus = probe "/status" "Failed to get server status" "Cannot get server status".
Proof. reflexivity. Qed.

Lemma probe_transport path refused cannot w :
  probe path refused cannot w
  = match fetchWithTimeout (GET (base_url w ++ path)) 5000 1 w with
    | (Abrupt e, w1) => or_cannot cannot e w1
    | (Normal response, w1) =>
        if ok response then
          match json response with
          | Normal value => (Normal value, w1)
          | Abrupt e => or_cannot cannot e w1
          end
        else (Abrupt (ApiError refused (status response) JUndefined), w1)
    end.
Proof.
  unfold probe, try_catch, bind. cbn [API_BASE_URL].
  destruct (fetchWithTimeout (GET (base_url w ++ path)) 5000 1 w) as [[response|e] w1];
    [|reflexivity].
  destruct (ok response); cbn [negb]; [|reflexivity].
  unfold settle. destruct (json response); reflexivity.
Qed.






(** *** University search *)







(** *** Document analysis *)




(** *** The four operations together *)




Lemma searchUniversityReviews_only_ApiError universityName :
  only_ApiError (searchUniversityReviews universityName).
Proof.
  unfold searchUniversityReviews.
  destruct (Str.is_empty (Str.trim universityName)).
  { intros w e w' H. inversion H. reflexivity. }
  destruct (Str.len universityName <? 3).
  { intros w e w' H. inversion H. reflexivity. }
  apply try_catch_only_ApiError. intros e. apply search_failure_raises.
Qed.





(** Without connection the search fails with status 0, the analysis with
    status 500; stalled, both fail with 408. *)
Example offline_statuses :
  failure_status (searchUniversityReviews "MIT" (world_of offline half)) = Some 0 /\
  failure_status (getHealth (world_of offline half)) = Some 0 /\
  failure_status (getStatus (world_of offline half)) = Some 0 /\
  fst (analyzeDocument note (world_of offline half))
  = Abrupt (ApiError "Analysis failed: Failed to fetch" 500 JUndefined).
Proof. repeat split. Qed.

Example stalled_statuses :
  failure_status (searchUniversityReviews "MIT" (world_of stalled half)) = Some 408 /\
  failure_status (getHealth (world_of stalled half)) = Some 408 /\
  failure_status (getStatus (world_of stalled half)) = Some 408 /\
  failure_status (analyzeDocument note (world_of stalled half)) = Some 408.
Proof. repeat split. Qed.

Example refused_statuses :
  failure_status (searchUniversityReviews "MIT"
                    (world_of (answering 503 (JObj [("detail", JStr "down")])) half))
  = Some 503 /\
  fst (analyzeDocument note
         (world_of (answering 422 (JObj [("detail", JStr "bad file")])) half))
  = Abrupt (ApiError "bad file" 422 (JObj [("detail", JStr "bad file")])) /\
  failure_status (getStatus (world_of (answering 502 JNull) half)) = Some 502.
Proof. repeat split. Qed.


(** ** Exhausted retries *)

(** X1: when every one of the [n + 1] attempts is rejected,
    [fetchWithTimeout] fails after [n + 1] requests and [n] delays: with
    the [ApiError] of status 408 if the last rejection is the AbortError
    of the timer, its message giving [timeout / 1000] as the double that
    quotient is, printed in the fewest digits; and with the last
    rejection itself, unchanged, otherwise. *)
Theorem fetchWithTimeout_exhausted :
  forall (request : Request) (timeout : Q) (n : nat) (w : World) (last : JsError),
    unanswered w request n last ->
    fst (fetchWithTimeout request timeout (Z.of_nat n) w)
    = Abrupt (if aborted last
              then ApiError ("Request timeout after "
                             ++ Double.to_string (Double.div timeout 1000)
                             ++ " seconds") 408 JUndefined
              else last) /\
    sent (snd (fetchWithTimeout request timeout (Z.of_nat n) w))
    = (sent w ++ repeat request (n + 1))%list /\
    slept (snd (fetchWithTimeout request timeout (Z.of_nat n) w))
    = (slept w ++ map backoff (seq 1 n))%list.
Proof.
  intros request timeout n w last Hun.
  destruct (fetchWithTimeout_unanswered _ timeout _ _ _ Hun) as (w1 & Hfetch).
  destruct (fetchWithTimeout_run request timeout n w)
    as (tries & Htries & _ & Hsent & Hslept & _ & Hend).
  assert (Hn : tries = (n + 1)%nat).
  { destruct Hun as [Hrej Hlast].
    destruct (Nat.eq_dec tries (n + 1)) as [|Hne]; [assumption|].
    destruct (Hrej (tries - 1)%nat) as (e & He); [lia|].
    rewrite He in Hend. tauto. }
  subst tries. replace (n + 1 - 1)%nat with n in Hslept by lia.
  rewrite Hsent, Hslept, Hfetch. cbn [fst]. unfold exhausted, aborted. auto.
Qed.

(** A timer of a second and a half, on a backend that never answers. *)
Lemma fetchWithTimeout_exhausted_witness :
  fst (fetchWithTimeout (GET "https://asv-8ghi.onrender.com/status") 1500 1
         (world_of stalled half))
  = Abrupt (ApiError "Request timeout after 1.5 seconds" 408 JUndefined) /\
  sent (snd (fetchWithTimeout (GET "https://asv-8ghi.onrender.com/status") 1500 1
               (world_of stalled half)))
  = repeat (GET "https://asv-8ghi.onrender.com/status") 2 /\
  slept (snd (fetchWithTimeout (GET "https://asv-8ghi.onrender.com/status") 1500 1
                (world_of stalled half)))
  = [1000].
Proof.
  refine (fetchWithTimeout_exhausted (GET "https://asv-8ghi.onrender.com/status") 1500 1
            (world_of stalled half)
            (NativeError DOMException "AbortError" "The user aborted a request.") _).
  split.
  - intros j Hj. eexists. reflexivity.
  - reflexivity.
Defined.

(** The seconds in the message of the 408 failure: those of the three
    timers the client sets, and those of timers that are not a whole
    number of seconds. *)
Example exhausted_messages :
  map (fun timeout =>
         error_message
           (exhausted timeout
              (NativeError DOMException "AbortError" "The user aborted a request.")))
    [5000; 30000; 100000; 1500; 100; 1; 5001 # 2; 2 ^ 80]%Q
  = [ "Request timeout after 5 seconds"; "Request timeout after 30 seconds";
      "Request timeout after 100 seconds"; "Request timeout after 1.5 seconds";
      "Request timeout after 0.1 seconds"; "Request timeout after 0.001 seconds";
      "Request timeout after 2.5005 seconds";
      "Request timeout after 1.2089258196146292e+21 seconds" ].
Proof. vm_compute. reflexivity. Qed.

(** ** Page numbers *)

Lemma map_claim_pageNumber apiClaim index w claim w' :
  map_claim apiClaim index w = (Normal claim, w') ->
  plus_one_or_zero (lookup (lookup apiClaim "metadata") "source_chunk_id") w'
  = (Normal (Claim.pageNumber claim), w').
Proof.
  unfold map_claim. intros Hrun.
  apply bind_returns in Hrun. destruct Hrun as (score & w1 & Hscore & Hrun).
  apply get_returns in Hscore. destruct Hscore as (Hclaim & -> & ->).
  apply bind_returns in Hrun. destruct Hrun as (trust & w2 & Htrust & Hrun).
  apply bind_returns in Hrun. destruct Hrun as (metadata & w3 & Hmeta & Hrun).
  apply get_returns in Hmeta. destruct Hmeta as (_ & -> & ->).
  apply bind_returns in Hrun. destruct Hrun as (source & w4 & Hsource & Hrun).
  apply get_returns in Hsource. destruct Hsource as (_ & -> & ->).
  apply bind_returns in Hrun. destruct Hrun as (web & w5 & Hweb & Hrun).
  apply bind_returns in Hrun. destruct Hrun as (consistency & w6 & Hcons & Hrun).
  apply at_key_returns in Hcons. destruct Hcons as (-> & _).
  apply bind_returns in Hrun. destruct Hrun as (page & w7 & Hpage & Hrun).
  pose proof (plus_one_or_zero_returns _ _ _ _ Hpage) as ->.
  unfold ret in Hrun. inversion Hrun; subst. exact Hpage.
Qed.

(** X2: when [mapApiResponseToFrontend] returns, the page number of each
    claim is the sum, a double, of the chunk index of the raw metadata
    and one when that index is a number: [n + 1] for a whole [n] with
    [n + 1] no larger than [2^53] in magnitude, the double nearest to
    the sum otherwise, and an infinite index itself; it is 1 when the
    index is absent or falsy; and for an index that is a text it is no
    number but that text followed by "1". *)
Theorem pageNumber_is_chunk_plus_one :
  forall (apiResponse : JsValue) (w w' : World) (result : AnalysisResult),
    mapApiResponseToFrontend apiResponse w = (Normal result, w') ->
    exists apiClaims,
      lookup apiResponse "claims" = JArr apiClaims /\
      Forall2 (fun apiClaim claim =>
                 (forall n,
                    lookup (lookup apiClaim "metadata") "source_chunk_id" = JNum n ->
                    Claim.pageNumber claim = JNum (Double.add_Z n 1) /\
                    (Z.abs (n + 1) <= 2 ^ 53 -> Claim.pageNumber claim = JNum (n + 1))) /\
                 (forall q,
                    lookup (lookup apiClaim "metadata") "source_chunk_id" = JFrac q ->
                    ~ (q == 0)%Q ->
                    Claim.pageNumber claim = number (Double.add q 1)) /\
                 (forall negative,
                    lookup (lookup apiClaim "metadata") "source_chunk_id"
                    = JInfinity negative ->
                    Claim.pageNumber claim = JInfinity negative) /\
                 (truthy (lookup (lookup apiClaim "metadata") "source_chunk_id") = false ->
                  Claim.pageNumber claim = JNum 1) /\
                 (forall text,
                    lookup (lookup apiClaim "metadata") "source_chunk_id" = JStr text ->
                    text <> "" ->
                    Claim.pageNumber claim = JStr (text ++ "1")))
        apiClaims (claims result).
Proof.
  intros apiResponse w w' result Hrun.
  apply mapApiResponseToFrontend_returns in Hrun.
  destruct Hrun as (_ & apiClaims & Hclaims & Hmap).
  exists apiClaims. split; [exact Hclaims|].
  apply map_claims_returns in Hmap. destruct Hmap as (_ & Hmap).
  eapply Forall2_impl; [|exact Hmap].
  intros c k (i & w1 & w2 & _ & Hk).
  apply map_claim_pageNumber in Hk. split; [|split; [|split; [|split]]].
  - intros n Hn. rewrite Hn in Hk. unfold plus_one_or_zero, js_or in Hk.
    assert (Hpage : Claim.pageNumber k = JNum (Double.add_Z n 1)).
    { cbn [truthy] in Hk. destruct (n =? 0) eqn:E; cbn [negb] in Hk.
      - apply Z.eqb_eq in E. subst n. unfold ret in Hk. now inversion Hk.
      - unfold ret in Hk. now inversion Hk. }
    split; [exact Hpage|]. intros Hsmall. rewrite Hpage. f_equal.
    now apply add_Z_exact.
  - intros q Hq Hnz. rewrite Hq in Hk. unfold plus_one_or_zero, js_or in Hk.
    cbn [truthy] in Hk.
    destruct (Qeq_bool q 0) eqn:E; [apply Qeq_bool_iff in E; contradiction|].
    cbn [negb] in Hk. unfold ret in Hk. now inversion Hk.
  - intros negative Hinf. rewrite Hinf in Hk. unfold ret in Hk. now inversion Hk.
  - intros Hfalsy. unfold plus_one_or_zero, js_or in Hk. rewrite Hfalsy in Hk.
    unfold ret in Hk. now inversion Hk.
  - intros text Htext Hne. rewrite Htext in Hk. unfold plus_one_or_zero, js_or in Hk.
    destruct text as [|first rest]; [contradiction|]. now inversion Hk.
Qed.

Lemma pageNumber_is_chunk_plus_one_witness :
  exists apiClaims,
    lookup one_claim "claims" = JArr apiClaims /\
    Forall2 (fun apiClaim claim =>
               (forall n,
                  lookup (lookup apiClaim "metadata") "source_chunk_id" = JNum n ->
                  Claim.pageNumber claim = JNum (Double.add_Z n 1) /\
                  (Z.abs (n + 1) <= 2 ^ 53 -> Claim.pageNumber claim = JNum (n + 1))) /\
               (forall q,
                  lookup (lookup apiClaim "metadata") "source_chunk_id" = JFrac q ->
                  ~ (q == 0)%Q ->
                  Claim.pageNumber claim = number (Double.add q 1)) /\
               (forall negative,
                  lookup (lookup apiClaim "metadata") "source_chunk_id"
                  = JInfinity negative ->
                  Claim.pageNumber claim = JInfinity negative) /\
               (truthy (lookup (lookup apiClaim "metadata") "source_chunk_id") = false ->
                Claim.pageNumber claim = JNum 1) /\
               (forall text,
                  lookup (lookup apiClaim "metadata") "source_chunk_id" = JStr text ->
                  text <> "" ->
                  Claim.pageNumber claim = JStr (text ++ "1")))
      apiClaims
      (match fst (mapApiResponseToFrontend one_claim (world_of offline half)) with
       | Normal result => claims result
       | Abrupt _ => []
       end).
Proof.
  exact (pageNumber_is_chunk_plus_one one_claim (world_of offline half) _ _ eq_refl).
Defined.

(** The sum is a double: one added to [2^53] is lost, a fractional index
    keeps its fraction, and a string is concatenated. *)
Example plus_one_or_zero_on_examples :
  fst (plus_one_or_zero (JNum (2 ^ 53)) (world_of offline half)) = Normal (JNum (2 ^ 53)) /\
  fst (plus_one_or_zero (JNum 41) (world_of offline half)) = Normal (JNum 42) /\
  fst (plus_one_or_zero (JFrac (5 # 2)) (world_of offline half)) = Normal (JFrac (7 # 2)) /\
  fst (plus_one_or_zero (JFrac (1 # 2)) (world_of offline half)) = Normal (JFrac (3 # 2)) /\
  fst (plus_one_or_zero (JFrac (1 # 2 ^ 60)) (world_of offline half)) = Normal (JNum 1) /\
  fst (plus_one_or_zero (JInfinity false) (world_of offline half))
  = Normal (JInfinity false) /\
  fst (plus_one_or_zero (JStr "7") (world_of offline half)) = Normal (JStr "71") /\
  fst (plus_one_or_zero JNull (world_of offline half)) = Normal (JNum 1).
Proof. repeat split; vm_compute; reflexivity. Qed.

(** * Validation, health check and pages *)

(** ** Trimming *)

Lemma trim_start_length s :
  (String.length (Str.trim_start s) <= String.length s)%nat.
Proof.
  induction s as [|c t IH]; cbn [Str.trim_start]; [lia|].
  destruct (Str.is_space c); cbn [String.length] in *; lia.
Qed.

Lemma trim_end_length s :
  (String.length (Str.trim_end s) <= String.length s)%nat.
Proof.
  induction s as [|c t IH]; cbn [Str.trim_end]; [cbn; lia|].
  destruct (Str.trim_end t); [destruct (Str.is_space c)|];
    cbn [String.length] in *; lia.
Qed.

Lemma trim_length s : Str.len (Str.trim s) <= Str.len s.
Proof.
  unfold Str.len, Str.trim.
  pose proof (trim_start_length s). pose proof (trim_end_length (Str.trim_start s)).
  lia.
Qed.

Lemma trim_start_clean s : clean_start (Str.trim_start s) = true.
Proof.
  induction s as [|c t IH]; [reflexivity|]. cbn [Str.trim_start].
  destruct (Str.is_space c) eqn:Hc; [exact IH|]. cbn. now rewrite Hc.
Qed.

Lemma trim_start_fixed s : clean_start s = true -> Str.trim_start s = s.
Proof.
  destruct s as [|c t]; [reflexivity|]. cbn. intros H.
  apply negb_true_iff in H. now rewrite H.
Qed.

Lemma trim_end_clean_start s : clean_start s = true -> clean_start (Str.trim_end s) = true.
Proof.
  destruct s as [|c t]; [reflexivity|]. cbn [clean_start Str.trim_end]. intros H.
  apply negb_true_iff in H.
  destruct (Str.trim_end t); [rewrite H|]; cbn; now rewrite H.
Qed.

Lemma trim_end_idempotent s : Str.trim_end (Str.trim_end s) = Str.trim_end s.
Proof.
  induction s as [|c t IH]; [reflexivity|]. cbn [Str.trim_end].
  destruct (Str.trim_end t) as [|c' t'] eqn:Ht.
  - destruct (Str.is_space c) eqn:Hc; [reflexivity|]. cbn. now rewrite Hc.
  - cbn [Str.trim_end]. cbn [Str.trim_end] in IH.
    destruct (Str.trim_end t') as [|c'' t''] eqn:Ht'.
    + destruct (Str.is_space c'); [discriminate|]. now inversion IH.
    + now inversion IH.
Qed.

Lemma trim_idempotent s : Str.trim (Str.trim s) = Str.trim s.
Proof.
  unfold Str.trim.
  rewrite (trim_start_fixed (Str.trim_end (Str.trim_start s))).
  - apply trim_end_idempotent.
  - apply trim_end_clean_start, trim_start_clean.
Qed.

Lemma trim_empty s : Str.is_empty s = true -> Str.trim s = "".
Proof. destruct s; [reflexivity | discriminate]. Qed.

(** ** University names *)

Lemma validateUniversityName_accepts s :
  validateUniversityName (JStr s) = None <->
  3 <= Str.len (Str.trim s) <= 200 /\ every name_character (Str.trim s) = true.
Proof.
  unfold validateUniversityName, name_pattern.
  destruct (Str.is_empty s) eqn:He.
  - rewrite (trim_empty _ He). cbn. split; [discriminate | lia].
  - destruct (Str.len (Str.trim s) <? 3) eqn:H3.
    { apply Z.ltb_lt in H3. split; [discriminate | lia]. }
    apply Z.ltb_ge in H3.
    destruct (200 <? Str.len (Str.trim s)) eqn:H200.
    { apply Z.ltb_lt in H200. split; [discriminate | lia]. }
    apply Z.ltb_ge in H200.
    assert (Hne : Str.is_empty (Str.trim s) = false).
    { destruct (Str.trim s); [cbn in H3; lia | reflexivity]. }
    rewrite Hne. cbn [negb andb].
    destruct (every name_character (Str.trim s)); cbn [negb].
    + split; [intros _; split; [lia | reflexivity] | reflexivity].
    + split; [discriminate | intros [_ H]; discriminate].
Qed.

(** X14: [validateUniversityName] accepts a name exactly when it accepts
    the trimmed name: white space around a name never changes the
    verdict of acceptance. *)
Theorem validateUniversityName_trimmed :
  forall s : string,
    validateUniversityName (JStr (Str.trim s)) = None <->
    validateUniversityName (JStr s) = None.
Proof.
  intros s. rewrite !validateUniversityName_accepts, trim_idempotent. reflexivity.
Qed.

(** ** The validators on examples *)

Example validateUniversityName_examples :
  validateUniversityName (JStr "IIT Delhi") = None /\
  validateUniversityName (JStr "  IT  ")
  = Some "University name must be at least 3 characters long" /\
  validateUniversityName (JStr "M_I_T")
  = Some "University name contains invalid characters" /\
  validateUniversityName JUndefined = Some "University name is required".
Proof. repeat split. Qed.

Example validateFile_examples :
  validateFile note = None /\
  validateFile scan = None /\
  validateFile {| name := "a.docx"; size := 5; type := "application/msword";
                  arrayBuffer := Normal [] |}
  = Some "Invalid file type. Please upload PDF or TXT files only." /\
  validateFile {| name := "a.txt"; size := 0; type := "text/plain";
                  arrayBuffer := Normal [] |}
  = Some "File is empty. Please upload a file with content.".
Proof. repeat split. Qed.

(** ** Formatting *)

Lemma trim_end_tail c t :
  Str.trim_end (String c t) = String c t ->
  Str.trim_end t = t /\ (Str.is_space c = true -> t <> "").
Proof.
  cbn [Str.trim_end]. destruct (Str.trim_end t) as [|c' t'] eqn:Ht.
  - destruct (Str.is_space c); [discriminate|]. intros H. inversion H.
    split; [reflexivity | discriminate].
  - intros H. inversion H. subst t. split; [reflexivity|]. intros _. discriminate.
Qed.

Lemma collapse_tidy_from :
  forall t b,
    Str.trim_end t = t -> (t <> "" \/ b = false) ->
    tidy_from b (collapse b t) = true.
Proof.
  induction t as [|c t IH]; intros b Hend Hne.
  - destruct Hne as [Hne | ->]; [congruence | reflexivity].
  - apply trim_end_tail in Hend. destruct Hend as [Hend Hspace].
    cbn [collapse]. destruct (Str.is_space c) eqn:Hc.
    + specialize (Hspace eq_refl). destruct b.
      * apply IH; auto.
      * cbn [tidy_from]. change (Str.is_space " ") with true. cbn.
        apply IH; auto.
    + cbn [tidy_from]. rewrite Hc. apply IH; auto.
Qed.

Lemma collapse_trim_tidy s : tidy (collapse false (Str.trim s)) = true.
Proof.
  pose proof (trim_idempotent s) as Hfix. unfold Str.trim at 1 in Hfix.
  assert (Hstart : clean_start (Str.trim s) = true)
    by (apply trim_end_clean_start, trim_start_clean).
  rewrite (trim_start_fixed _ Hstart) in Hfix.
  unfold tidy. destruct (Str.trim s) as [|c t]; [reflexivity|].
  cbn in Hstart. apply negb_true_iff in Hstart.
  cbn [collapse]. rewrite Hstart. cbn [Str.is_empty orb tidy_from]. rewrite Hstart.
  apply trim_end_tail in Hfix. destruct Hfix as [Hfix _].
  apply collapse_tidy_from; auto.
Qed.

Lemma word_no_space c : is_word c = true -> Str.is_space c = false.
Proof. destruct c as [[] [] [] [] [] [] [] []]; vm_compute; intros H; congruence. Qed.

Lemma upper_no_space c : is_word c = true -> Str.is_space (upper c) = false.
Proof. destruct c as [[] [] [] [] [] [] [] []]; vm_compute; intros H; congruence. Qed.

Lemma upper_word c : is_word c = true -> is_word (upper c) = true.
Proof. destruct c as [[] [] [] [] [] [] [] []]; vm_compute; intros H; congruence. Qed.

Lemma upper_upper c : upper (upper c) = upper c.
Proof. destruct c as [[] [] [] [] [] [] [] []]; reflexivity. Qed.

Lemma upper_name_character c :
  name_character c = true -> name_character (upper c) = true.
Proof. destruct c as [[] [] [] [] [] [] [] []]; vm_compute; intros H; congruence. Qed.

Lemma capitalise_tidy_from :
  forall s a b, tidy_from b (capitalise a s) = tidy_from b s.
Proof.
  induction s as [|c t IH]; intros a b; [reflexivity|].
  cbn [capitalise]. destruct (is_word c) eqn:Hw.
  - cbn [tidy_from]. rewrite (word_no_space _ Hw).
    destruct a; [rewrite (word_no_space _ Hw) | rewrite (upper_no_space _ Hw)];
      apply IH.
  - cbn [tidy_from]. now rewrite !IH.
Qed.

Lemma capitalise_empty s a : Str.is_empty (capitalise a s) = Str.is_empty s.
Proof. destruct s as [|c t]; [reflexivity|]. cbn. now destruct (is_word c). Qed.

Lemma capitalise_idempotent :
  forall s a, capitalise a (capitalise a s) = capitalise a s.
Proof.
  induction s as [|c t IH]; intros a; [reflexivity|].
  cbn [capitalise]. destruct (is_word c) eqn:Hw.
  - destruct a; cbn [capitalise].
    + now rewrite Hw, IH.
    + now rewrite (upper_word _ Hw), upper_upper, IH.
  - cbn [capitalise]. now rewrite Hw, IH.
Qed.

Lemma capitalise_length s : forall a, String.length (capitalise a s) = String.length s.
Proof.
  induction s as [|c t IH]; intros a; [reflexivity|].
  cbn [capitalise]. destruct (is_word c); cbn [String.length]; now rewrite IH.
Qed.

Lemma collapse_length s :
  forall b, (String.length (collapse b s) <= String.length s)%nat.
Proof.
  induction s as [|c t IH]; intros b; [cbn; lia|].
  cbn [collapse]. destruct (Str.is_space c); [destruct b|];
    cbn [String.length];
    try (specialize (IH true); lia); specialize (IH false); lia.
Qed.

Lemma formatUniversityName_tidy s : tidy (formatUniversityName s) = true.
Proof.
  unfold formatUniversityName. pose proof (collapse_trim_tidy s) as H.
  unfold tidy in *. now rewrite capitalise_empty, capitalise_tidy_from.
Qed.

Lemma tidy_from_trim_end :
  forall s b, tidy_from b s = true -> Str.trim_end s = s.
Proof.
  induction s as [|c t IH]; intros b H; [reflexivity|].
  cbn [tidy_from] in H. cbn [Str.trim_end].
  destruct (Str.is_space c) eqn:Hc.
  - apply andb_prop in H. destruct H as [_ H].
    rewrite (IH _ H). destruct t; [discriminate | reflexivity].
  - rewrite (IH _ H). now destruct t.
Qed.

Lemma tidy_from_collapse :
  forall s b, tidy_from b s = true -> collapse b s = s.
Proof.
  induction s as [|c t IH]; intros b H; [reflexivity|].
  cbn [tidy_from] in H. cbn [collapse].
  destruct (Str.is_space c) eqn:Hc.
  - apply andb_prop in H. destruct H as [H Ht].
    apply andb_prop in H. destruct H as [Hb Hsp].
    apply negb_true_iff in Hb. subst b.
    apply Ascii.eqb_eq in Hsp. subst c. now rewrite (IH _ Ht).
  - now rewrite (IH _ H).
Qed.

Lemma tidy_clean_start s : tidy s = true -> clean_start s = true.
Proof.
  unfold tidy. destruct s as [|c t]; [reflexivity|]. cbn.
  destruct (Str.is_space c); [discriminate | reflexivity].
Qed.

Lemma tidy_trim s : tidy s = true -> Str.trim s = s.
Proof.
  intros H. unfold Str.trim. rewrite (trim_start_fixed _ (tidy_clean_start _ H)).
  unfold tidy in H. destruct s as [|c t]; [reflexivity|].
  eapply tidy_from_trim_end. exact H.
Qed.

Lemma tidy_collapse s : tidy s = true -> collapse false s = s.
Proof.
  intros H. pose proof (tidy_clean_start _ H) as Hs.
  unfold tidy in H. destruct s as [|c t]; [reflexivity|].
  cbn [Str.is_empty orb] in H. cbn in Hs. apply negb_true_iff in Hs.
  pose proof (tidy_from_collapse _ _ H) as Hc.
  cbn [collapse] in *. now rewrite Hs in *.
Qed.

Lemma formatUniversityName_again s :
  formatUniversityName (formatUniversityName s) = formatUniversityName s.
Proof.
  pose proof (formatUniversityName_tidy s) as Ht.
  unfold formatUniversityName at 1.
  rewrite (tidy_trim _ Ht), (tidy_collapse _ Ht).
  unfold formatUniversityName. apply capitalise_idempotent.
Qed.

Lemma formatUniversityName_length s :
  Str.len (formatUniversityName s) <= Str.len (Str.trim s).
Proof.
  unfold formatUniversityName, Str.len. rewrite capitalise_length.
  pose proof (collapse_length (Str.trim s) false). lia.
Qed.

Lemma collapse_nonempty :
  forall t b, Str.trim_end t = t -> t <> "" -> collapse b t <> "".
Proof.
  induction t as [|c t IH]; intros b Hend Hne; [congruence|].
  apply trim_end_tail in Hend. destruct Hend as [Hend Hspace].
  cbn [collapse]. destruct (Str.is_space c); [|discriminate].
  destruct b; [|discriminate]. apply IH; auto.
Qed.

Lemma collapse_trimmed_long x :
  clean_start x = true -> Str.trim_end x = x -> 3 <= Str.len x ->
  3 <= Str.len (collapse false x).
Proof.
  unfold Str.len. intros Hstart Hend Hlen.
  destruct x as [|a [|b t2]]; cbn [String.length] in *; try lia.
  cbn in Hstart. apply negb_true_iff in Hstart.
  apply trim_end_tail in Hend. destruct Hend as [Hend _].
  apply trim_end_tail in Hend. destruct Hend as [Hend _].
  assert (Hne : t2 <> "") by (destruct t2; [cbn in Hlen; lia | discriminate]).
  cbn [collapse]. rewrite Hstart.
  destruct (Str.is_space b); cbn [String.length].
  - pose proof (collapse_nonempty t2 true Hend Hne).
    destruct (collapse true t2); [congruence | cbn [String.length]; lia].
  - pose proof (collapse_nonempty t2 false Hend Hne).
    destruct (collapse false t2); [congruence | cbn [String.length]; lia].
Qed.

Lemma collapse_every :
  forall t b, every name_character t = true -> every name_character (collapse b t) = true.
Proof.
  induction t as [|c t IH]; intros b H; [reflexivity|].
  cbn [every] in H. apply andb_prop in H. destruct H as [Hc Ht].
  cbn [collapse]. destruct (Str.is_space c); [destruct b|]; cbn [every].
  - now apply IH.
  - rewrite (IH _ Ht). reflexivity.
  - now rewrite Hc, IH.
Qed.

Lemma capitalise_every :
  forall t a, every name_character t = true -> every name_character (capitalise a t) = true.
Proof.
  induction t as [|c t IH]; intros a H; [reflexivity|].
  cbn [every] in H. apply andb_prop in H. destruct H as [Hc Ht].
  cbn [capitalise]. destruct (is_word c); cbn [every].
  - destruct a; [rewrite Hc | rewrite (upper_name_character _ Hc)]; now rewrite IH.
  - now rewrite Hc, IH.
Qed.

Lemma formatUniversityName_valid s :
  validateUniversityName (JStr s) = None ->
  validateUniversityName (JStr (formatUniversityName s)) = None.
Proof.
  rewrite !validateUniversityName_accepts.
  rewrite (tidy_trim _ (formatUniversityName_tidy s)).
  intros [[Hmin Hmax] Hchars].
  pose proof (formatUniversityName_length s) as Hlen.
  split; [split; [|lia]|].
  - unfold formatUniversityName, Str.len. rewrite capitalise_length.
    apply collapse_trimmed_long; [| |exact Hmin].
    + apply trim_end_clean_start, trim_start_clean.
    + pose proof (trim_idempotent s) as Hfix. unfold Str.trim at 1 in Hfix.
      rewrite trim_start_fixed in Hfix; [exact Hfix|].
      apply trim_end_clean_start, trim_start_clean.
  - unfold formatUniversityName. now apply capitalise_every, collapse_every.
Qed.

Lemma lower_upper c : lower (upper c) = lower c.
Proof. destruct c as [[] [] [] [] [] [] [] []]; reflexivity. Qed.

Lemma capitalise_lower : forall s a, toLowerCase (capitalise a s) = toLowerCase s.
Proof.
  induction s as [|c t IH]; intros a; [reflexivity|].
  cbn [capitalise]. destruct (is_word c); cbn [toLowerCase]; rewrite IH; [|reflexivity].
  destruct a; [reflexivity | now rewrite lower_upper].
Qed.

Lemma capitalise_capitalised :
  forall s a, capitalised_from a (capitalise a s) = true.
Proof.
  induction s as [|c t IH]; intros a; [reflexivity|].
  cbn [capitalise]. destruct (is_word c) eqn:Hw; cbn [capitalised_from].
  - destruct a.
    + now rewrite Hw, IH.
    + rewrite (upper_word _ Hw), upper_upper, Ascii.eqb_refl, IH. reflexivity.
  - now rewrite Hw, IH.
Qed.

(** X16: [formatUniversityName] yields a normal form: no white space at
    either end and none but single spaces inside, no small letter at the
    start of a word, and formatting the result again changes nothing.  It
    never lengthens the name, and but for the case of letters the result
    is the trimmed name with each run of white space replaced by one
    space. *)
Theorem formatUniversityName_normal_form :
  forall name : string,
    tidy (formatUniversityName name) = true /\
    capitalised_from false (formatUniversityName name) = true /\
    formatUniversityName (formatUniversityName name) = formatUniversityName name /\
    Str.len (formatUniversityName name) <= Str.len name /\
    toLowerCase (formatUniversityName name)
    = toLowerCase (collapse false (Str.trim name)).
Proof.
  intros name. split; [apply formatUniversityName_tidy|].
  split; [apply capitalise_capitalised|].
  split; [apply formatUniversityName_again|]. split.
  - pose proof (formatUniversityName_length name). pose proof (trim_length name). lia.
  - apply capitalise_lower.
Qed.

(** X17: formatting keeps a valid name valid: if
    [validateUniversityName] accepts a name, it accepts the formatted
    name. *)
Theorem formatUniversityName_keeps_valid :
  forall name : string,
    validateUniversityName (JStr name) = None ->
    validateUniversityName (JStr (formatUniversityName name)) = None.
Proof. exact formatUniversityName_valid. Qed.

Lemma formatUniversityName_keeps_valid_witness :
  validateUniversityName (JStr (formatUniversityName "  st. xavier's   college ")) = None.
Proof. apply formatUniversityName_keeps_valid. reflexivity. Defined.

Example formatUniversityName_example :
  formatUniversityName "  st. xavier's   college " = "St. Xavier'S College".
Proof. reflexivity. Qed.

(** ** Validated names and the search *)

Lemma validated_acceptable s :
  validateUniversityName (JStr s) = None -> acceptable s = true.
Proof.
  intros H. apply validateUniversityName_accepts in H. destruct H as [[Hmin _] _].
  pose proof (trim_length s) as Hlen. unfold acceptable.
  destruct (Str.trim s) eqn:Ht; [cbn in Hmin; lia|]. cbn [Str.is_empty negb andb].
  apply negb_true_iff, Z.ltb_ge. lia.
Qed.

Lemma searchUniversityReviews_requests universityName w :
  acceptable universityName = true ->
  exists tries,
    (1 <= tries <= 3)%nat /\
    sent (snd (searchUniversityReviews universityName w))
    = (sent w ++ repeat (search_request (base_url w) universityName) tries)%list.
Proof.
  intros Hname. rewrite (searchUniversityReviews_world _ _ Hname).
  destruct (fetchWithTimeout_run (search_request (base_url w) universityName)
              UNIVERSITY_TIMEOUT 2 w) as (tries & Htries & _ & Hsent & _).
  exists tries. split; [lia | exact Hsent].
Qed.

(** X15: a name that [validateUniversityName] accepts passes the checks
    [searchUniversityReviews] makes before any request: the search issues
    between one and three requests, each carrying the trimmed name. *)
Theorem validated_name_is_searched :
  forall (name : string) (w : World),
    validateUniversityName (JStr name) = None ->
    exists tries,
      (1 <= tries <= 3)%nat /\
      sent (snd (searchUniversityReviews name w))
      = (sent w ++ repeat (search_request (base_url w) name) tries)%list /\
      body (search_request (base_url w) name)
      = Some (JObj [("university_name", JStr (Str.trim name));
                    ("include_debug", JBool false)]).
Proof.
  intros name w Hvalid.
  destruct (searchUniversityReviews_requests name w (validated_acceptable _ Hvalid))
    as (tries & Htries & Hsent).
  exists tries. repeat split; try lia. exact Hsent.
Qed.

Lemma validated_name_is_searched_witness :
  exists tries,
    (1 <= tries <= 3)%nat /\
    sent (snd (searchUniversityReviews " MIT " (world_of offline half)))
    = repeat (search_request "https://asv-8ghi.onrender.com" " MIT ") tries /\
    body (search_request "https://asv-8ghi.onrender.com" " MIT ")
    = Some (JObj [("university_name", JStr "MIT"); ("include_debug", JBool false)]).
Proof.
  exact (validated_name_is_searched " MIT " (world_of offline half) eq_refl).
Defined.

(** ** University search: when it returns *)

(** X23: [searchUniversityReviews] returns exactly when the name passes
    the two checks, the transport got a response whose body parsed to a
    value that is neither [null] nor [undefined], and the response is 2xx
    or its body has a truthy [search_status]; what it returns is the
    normalised body. *)
Theorem searchUniversityReviews_returns_iff :
  forall (universityName : string) (w w' : World) (result : UniversityReviewsResponse.t),
    searchUniversityReviews universityName w = (Normal result, w') <->
    exists response responseData,
      acceptable universityName = true /\
      fetchWithTimeout (search_request (base_url w) universityName)
        UNIVERSITY_TIMEOUT MAX_RETRIES w = (Normal response, w') /\
      json response = Normal responseData /\
      nullish responseData = false /\
      (ok response = true \/ truthy (lookup responseData "search_status") = true) /\
      result = normalizedResponse responseData universityName (clock w).
Proof.
  intros universityName w w' result. split.
  - apply searchUniversityReviews_returns.
  - intros (response & responseData & Hname & Hfetch & Hjson & Hnn & Hsoft & ->).
    rewrite (searchUniversityReviews_reply _ _ _ _ Hname Hfetch), Hjson.
    rewrite (get_defined _ _ _ Hnn).
    destruct Hsoft as [-> | ->]; cbn [negb andb]; [reflexivity|].
    now rewrite andb_false_r.
Qed.

(** ** The transport and the number of retries *)











Example fetchWithTimeout_negative_retries :
  fetchWithTimeout (GET "https://asv-8ghi.onrender.com/") 5000 (-1) (world_of offline half)
  = (Abrupt (NativeError PlainError "Error" "Maximum retries exceeded"),
     world_of offline half).
Proof. reflexivity. Qed.

(** Half a retry: the one attempt is not the last, its rejection is
    followed by the delay, and the fallback is thrown. *)
Example fetchWithTimeout_half_a_retry :
  let run := fetchWithTimeout (GET "https://asv-8ghi.onrender.com/") 5000 (1 # 2)
               (world_of offline half) in
  fst run = Abrupt (NativeError PlainError "Error" "Maximum retries exceeded") /\
  sent (snd run) = [GET "https://asv-8ghi.onrender.com/"] /\
  slept (snd run) = [1000].
Proof. repeat split. Qed.

(** ** Document analysis: the requests and the result *)

Lemma analyzeDocument_world file w bytes :
  encoded file w bytes ->
  snd (analyzeDocument file w)
  = snd (fetchWithTimeout (analyze_request (base_url w) file (Base64.btoa bytes))
           FETCH_TIMEOUT MAX_RETRIES w).
Proof.
  intros Hfile. rewrite (analyzeDocument_transport _ _ _ Hfile).
  destruct (fetchWithTimeout _ _ _ w) as [[response|e] w1]; cbn [snd];
    [|apply stateless_analysis_failure].
  destruct (ok response).
  - destruct (json response) as [responseData|e]; [|apply stateless_analysis_failure].
    destruct responseData; cbn [get throw ret]; try apply stateless_analysis_failure;
      destruct (negb (truthy _) || negb (truthy _)); reflexivity.
  - cbv zeta.
    destruct (match json response with Normal d => d | Abrupt _ => JObj [] end);
      cbn [get throw ret]; try apply stateless_analysis_failure;
      match goal with |- context [to_string ?v] => destruct (to_string v) end;
      try reflexivity; apply stateless_analysis_failure.
Qed.

Lemma analyzeDocument_requests file w bytes :
  encoded file w bytes ->
  exists tries,
    (1 <= tries <= 3)%nat /\
    sent (snd (analyzeDocument file w))
    = (sent w ++ repeat (analyze_request (base_url w) file (Base64.btoa bytes)) tries)%list /\
    slept (snd (analyzeDocument file w))
    = (slept w ++ map backoff (seq 1 (tries - 1)))%list.
Proof.
  intros Hfile. rewrite (analyzeDocument_world _ _ _ Hfile).
  destruct (fetchWithTimeout_run
              (analyze_request (base_url w) file (Base64.btoa bytes)) FETCH_TIMEOUT 2 w)
    as (tries & Htries & _ & Hsent & Hslept & _).
  exists tries. repeat split; try lia; assumption.
Qed.

Lemma analysis_failure_never_returns e w payload w' :
  analysis_failure e w <> (Normal payload, w').
Proof.
  destruct (analysis_failure_raises e w) as (m & s & r & H). rewrite H. discriminate.
Qed.

Lemma analyzeDocument_returns_iff file w bytes payload w' :
  encoded file w bytes ->
  analyzeDocument file w = (Normal payload, w') <->
  exists response,
    fetchWithTimeout (analyze_request (base_url w) file (Base64.btoa bytes))
      FETCH_TIMEOUT MAX_RETRIES w = (Normal response, w') /\
    ok response = true /\
    json response = Normal payload /\
    truthy (optional payload "summary") = true /\
    truthy (optional payload "claims") = true.
Proof.
  intros Hfile. rewrite (analyzeDocument_transport _ _ _ Hfile).
  destruct (fetchWithTimeout _ _ _ w) as [[response|e] w1].
  - destruct (ok response) eqn:Hok.
    + destruct (json response) as [responseData|e] eqn:Hjson.
      * destruct (nullish responseData) eqn:Hnn.
        { split.
          - destruct responseData; try discriminate; cbn [get throw];
              intros H; now apply analysis_failure_never_returns in H.
          - intros (r & Hr & _ & Hj & Hs & _). inversion Hr; subst r w1.
            rewrite Hjson in Hj. inversion Hj; subst payload.
            unfold optional in Hs. rewrite Hnn in Hs. discriminate. }
        rewrite (get_defined _ _ _ Hnn).
        destruct (truthy (lookup responseData "summary")) eqn:Hs;
          destruct (truthy (lookup responseData "claims")) eqn:Hc; cbn [negb orb];
          (split;
           [ intros H; inversion H; subst; try discriminate;
             exists response; unfold optional; rewrite Hnn; auto
           | intros (r & Hr & _ & Hj & Hs' & Hc'); inversion Hr; subst r w1;
             rewrite Hjson in Hj; inversion Hj; subst payload;
             unfold optional in Hs', Hc'; rewrite Hnn in Hs', Hc';
             try congruence ]).
      * split.
        -- intros H. now apply analysis_failure_never_returns in H.
        -- intros (r & Hr & _ & Hj & _). inversion Hr; subst r. congruence.
    + cbv zeta. split.
      * destruct (match json response with Normal d => d | Abrupt _ => JObj [] end);
          cbn [get throw ret];
          try (intros H; now apply analysis_failure_never_returns in H);
          match goal with |- context [to_string ?v] => destruct (to_string v) end;
          intros H; try discriminate H; now apply analysis_failure_never_returns in H.
      * intros (r & Hr & Hok' & _). inversion Hr; subst r. congruence.
  - split.
    + intros H. now apply analysis_failure_never_returns in H.
    + intros (r & Hr & _). discriminate.
Qed.

Lemma analyzeDocument_not_encoded file w :
  (forall bytes, ~ encoded file w bytes) ->
  exists e, analyzeDocument file w = analysis_failure e w.
Proof.
  intros Hnot. destruct (arrayBuffer file) as [bytes|e] eqn:Hbuffer.
  - destruct (N.ltb (argument_limit w) (N.of_nat (List.length bytes))) eqn:Hlimit.
    + eexists. now apply (analyzeDocument_too_long _ _ bytes).
    + exfalso. apply (Hnot bytes). split; assumption.
  - exists e. now apply analyzeDocument_unread.
Qed.

(** X4: the requests of [analyzeDocument].  For a file that was read and
    encoded: between one and three identical POSTs to [/analyze], whose
    body holds the file name, the base64 content and the file type, "pdf"
    exactly when the MIME type is [application/pdf], with the delays of
    the retry schedule between them.  For a file that cannot be read or
    encoded: no request, and an [ApiError]; when the file has more bytes
    than a call takes arguments, the one of status 500 that carries the
    message of the engine. *)
Theorem analyzeDocument_requests_sent :
  forall (file : File) (w : World),
    (forall bytes,
       encoded file w bytes ->
       exists tries,
         (1 <= tries <= 3)%nat /\
         sent (snd (analyzeDocument file w))
         = (sent w ++
            repeat
              (POST (base_url w ++ "/analyze")
                 (JObj [("filename", JStr (name file));
                        ("content", JStr (Base64.btoa bytes));
                        ("file_type",
                         JStr (if String.eqb (type file) "application/pdf"
                               then "pdf" else "txt"))])) tries)%list /\
         slept (snd (analyzeDocument file w))
         = (slept w ++ map backoff (seq 1 (tries - 1)))%list) /\
    ((forall bytes, ~ encoded file w bytes) ->
     snd (analyzeDocument file w) = w /\
     exists message status response,
       fst (analyzeDocument file w) = Abrupt (ApiError message status response)) /\
    (forall bytes,
       arrayBuffer file = Normal bytes ->
       N.ltb (argument_limit w) (N.of_nat (List.length bytes)) = true ->
       fst (analyzeDocument file w)
       = Abrupt (ApiError "Analysis failed: Maximum call stack size exceeded"
                   500 JUndefined)).
Proof.
  intros file w. split; [|split].
  - intros bytes Hfile.
    destruct (analyzeDocument_requests _ _ _ Hfile) as (tries & H1 & H2 & H3).
    exists tries. split; [exact H1|]. split; [exact H2 | exact H3].
  - intros Hnot. destruct (analyzeDocument_not_encoded _ _ Hnot) as (e & ->).
    split; [apply stateless_analysis_failure|].
    destruct (analysis_failure_raises e w) as (m & s & r & ->).
    exists m, s, r. reflexivity.
  - intros bytes Hbuffer Hlimit.
    rewrite (analyzeDocument_too_long _ _ _ Hbuffer Hlimit). reflexivity.
Qed.

(** X5: [analyzeDocument] returns exactly when the file was read and
    encoded, the transport got a 2xx response, and its body parsed to a
    value with a truthy [summary] and a truthy [claims]; what it returns
    is that body, unchanged. *)
Theorem analyzeDocument_returns_payload :
  forall (file : File) (w w' : World) (payload : JsValue),
    analyzeDocument file w = (Normal payload, w') <->
    exists bytes response,
      encoded file w bytes /\
      fetchWithTimeout (analyze_request (base_url w) file (Base64.btoa bytes))
        FETCH_TIMEOUT MAX_RETRIES w = (Normal response, w') /\
      ok response = true /\
      json response = Normal payload /\
      truthy (optional payload "summary") = true /\
      truthy (optional payload "claims") = true.
Proof.
  intros file w w' payload. split.
  - intros Hrun.
    destruct (arrayBuffer file) as [bytes|e] eqn:Hbuffer.
    + destruct (N.ltb (argument_limit w) (N.of_nat (List.length bytes))) eqn:Hlimit.
      * rewrite (analyzeDocument_too_long _ _ _ Hbuffer Hlimit) in Hrun.
        now apply analysis_failure_never_returns in Hrun.
      * assert (Hfile : encoded file w bytes) by (split; assumption).
        apply (analyzeDocument_returns_iff _ _ _ _ _ Hfile) in Hrun.
        destruct Hrun as (response & H). exists bytes, response. auto.
    + rewrite (analyzeDocument_unread _ _ _ Hbuffer) in Hrun.
      now apply analysis_failure_never_returns in Hrun.
  - intros (bytes & response & Hfile & H).
    apply (analyzeDocument_returns_iff _ _ _ _ _ Hfile). exists response. exact H.
Qed.

(** ** Files accepted by their extension *)

(** X18: [validateFile] accepts a non-empty file of at most 100 MB whose
    name ends in [.pdf], in any case of letters, whatever its MIME type,
    but [analyzeDocument] derives the file type from the MIME type alone:
    such a file whose MIME type is not [application/pdf] is accepted and
    sent with file type "txt". *)
Theorem pdf_by_extension_is_sent_as_text :
  forall (file : File) (base content : string),
    endsWith (toLowerCase (name file)) ".pdf" = true ->
    type file <> "application/pdf" ->
    0 < size file <= 100 * 1024 * 1024 ->
    validateFile file = None /\
    body (analyze_request base file content)
    = Some (JObj [("filename", JStr (name file)); ("content", JStr content);
                  ("file_type", JStr "txt")]).
Proof.
  intros file base content Hext Htype Hsize. split.
  - unfold validateFile. cbn [existsb allowedExtensions]. rewrite Hext.
    rewrite orb_true_l, andb_false_r.
    destruct (100 * 1024 * 1024 <? size file) eqn:Hbig; [apply Z.ltb_lt in Hbig; lia|].
    destruct (size file =? 0) eqn:Hzero; [apply Z.eqb_eq in Hzero; lia | reflexivity].
  - unfold analyze_request. apply String.eqb_neq in Htype. now rewrite Htype.
Qed.

Lemma pdf_by_extension_is_sent_as_text_witness :
  validateFile scan = None /\
  body (analyze_request "https://asv-8ghi.onrender.com" scan "JVBE")
  = Some (JObj [("filename", JStr "Scan.PDF"); ("content", JStr "JVBE");
                ("file_type", JStr "txt")]).
Proof.
  apply pdf_by_extension_is_sent_as_text.
  - reflexivity.
  - discriminate.
  - cbn. lia.
Defined.

Example analyzeDocument_scan :
  sent (snd (analyzeDocument scan (world_of (answering 200 one_claim) half)))
  = [POST "https://asv-8ghi.onrender.com/analyze"
       (JObj [("filename", JStr "Scan.PDF"); ("content", JStr "JVBE");
              ("file_type", JStr "txt")])].
Proof. reflexivity. Qed.

(** ** Health and status: the requests and the value returned *)

Lemma or_cannot_never_returns what e w value w' :
  or_cannot what e w <> (Normal value, w').
Proof.
  destruct (or_cannot_raises what e w) as (m & s & r & H). rewrite H. discriminate.
Qed.

Lemma probe_returns_iff path refused cannot w value w' :
  probe path refused cannot w = (Normal value, w') <->
  exists response,
    fetchWithTimeout (GET (base_url w ++ path)) 5000 1 w = (Normal response, w') /\
    ok response = true /\ json response = Normal value.
Proof.
  rewrite probe_transport.
  destruct (fetchWithTimeout _ _ _ w) as [[response|e] w1].
  - destruct (ok response) eqn:Hok.
    + destruct (json response) as [v|e] eqn:Hjson.
      * split.
        -- intros H. inversion H; subst. exists response. auto.
        -- intros (r & Hr & _ & Hj). inversion Hr; subst r w1. congruence.
      * split.
        -- intros H. now apply or_cannot_never_returns in H.
        -- intros (r & Hr & _ & Hj). inversion Hr; subst r. congruence.
    + split; [discriminate|].
      intros (r & Hr & Hok' & _). inversion Hr; subst r. congruence.
  - split.
    + intros H. now apply or_cannot_never_returns in H.
    + intros (r & Hr & _). discriminate.
Qed.

Lemma probe_world path refused cannot w :
  snd (probe path refused cannot w)
  = snd (fetchWithTimeout (GET (base_url w ++ path)) 5000 1 w).
Proof.
  rewrite probe_transport.
  destruct (fetchWithTimeout _ _ _ w) as [[response|e] w1]; cbn [snd];
    [|apply stateless_or_cannot].
  destruct (ok response); [|reflexivity].
  destruct (json response); [reflexivity | apply stateless_or_cannot].
Qed.

Lemma probe_requests path refused cannot w :
  exists tries,
    (1 <= tries <= 2)%nat /\
    same_platform w (snd (probe path refused cannot w)) /\
    sent (snd (probe path refused cannot w))
    = (sent w ++ repeat (GET (base_url w ++ path)) tries)%list /\
    slept (snd (probe path refused cannot w))
    = (slept w ++ map backoff (seq 1 (tries - 1)))%list.
Proof.
  rewrite probe_world.
  destruct (fetchWithTimeout_run (GET (base_url w ++ path)) 5000 1 w)
    as (tries & Htries & Hsame & Hsent & Hslept & _).
  exists tries. repeat split; try lia; try assumption; apply Hsame.
Qed.

(** X6: [getHealth] and [getStatus] return exactly when the transport got
    a 2xx response whose body parsed, and what they return is that body;
    each issues one or two GET requests, to the base URL followed by [/]
    and by [/status], with a delay of 1 s between the two. *)
Theorem probes_return_the_body :
  forall w : World,
    (forall value w',
       getHealth w = (Normal value, w') <->
       exists response,
         fetchWithTimeout (health_request w) 5000 1 w = (Normal response, w') /\
         ok response = true /\ json response = Normal value) /\
    (forall value w',
       getStatus w = (Normal value, w') <->
       exists response,
         fetchWithTimeout (status_request w) 5000 1 w = (Normal response, w') /\
         ok response = true /\ json response = Normal value) /\
    (exists tries,
       (1 <= tries <= 2)%nat /\
       sent (snd (getHealth w)) = (sent w ++ repeat (health_request w) tries)%list /\
       slept (snd (getHealth w)) = (slept w ++ map backoff (seq 1 (tries - 1)))%list) /\
    (exists tries,
       (1 <= tries <= 2)%nat /\
       sent (snd (getStatus w)) = (sent w ++ repeat (status_request w) tries)%list /\
       slept (snd (getStatus w)) = (slept w ++ map backoff (seq 1 (tries - 1)))%list).
Proof.
  intros w. rewrite getHealth_probe, getStatus_probe.
  split; [intros value w'; apply probe_returns_iff|].
  split; [intros value w'; apply probe_returns_iff|]. split.
  - destruct (probe_requests "/" "Failed to connect to API"
                "Cannot connect to backend server" w) as (tries & H1 & _ & H2 & H3).
    exists tries. auto.
  - destruct (probe_requests "/status" "Failed to get server status"
                "Cannot get server status" w) as (tries & H1 & _ & H2 & H3).
    exists tries. auto.
Qed.

(** ** A response ends the loop of the transport *)

Lemma fetchWithTimeout_answered request timeout retries w response :
  0 <= retries ->
  network w (List.length (sent w)) request = Normal response ->
  fetchWithTimeout request timeout retries w = (Normal response, snd (fetch request w)).
Proof.
  intros Hretries Hanswer. unfold fetchWithTimeout. rewrite Qfloor_Z.
  destruct (Z.to_nat (retries + 1)) as [|fuel] eqn:Hfuel; [lia|].
  cbn [attempts]. unfold try_catch, fetch. now rewrite Hanswer.
Qed.

(** X22: a response ends the loop, whatever its status: when the first
    attempt is answered, [fetchWithTimeout] returns that response after
    one request and no delay.  So none of the four operations retries a
    request that the backend answered with an HTTP error status. *)
Theorem answered_attempt_is_final :
  forall (request : Request) (timeout retries : Z) (w : World) (response : Response),
    0 <= retries ->
    network w (List.length (sent w)) request = Normal response ->
    fetchWithTimeout request timeout retries w = (Normal response, snd (fetch request w)) /\
    sent (snd (fetchWithTimeout request timeout retries w)) = (sent w ++ [request])%list /\
    slept (snd (fetchWithTimeout request timeout retries w)) = slept w /\
    (forall file bytes,
       request = analyze_request (base_url w) file (Base64.btoa bytes) ->
       encoded file w bytes ->
       sent (snd (analyzeDocument file w)) = (sent w ++ [request])%list) /\
    (forall universityName,
       request = search_request (base_url w) universityName ->
       acceptable universityName = true ->
       sent (snd (searchUniversityReviews universityName w)) = (sent w ++ [request])%list) /\
    (request = health_request w ->
     sent (snd (getHealth w)) = (sent w ++ [request])%list) /\
    (request = status_request w ->
     sent (snd (getStatus w)) = (sent w ++ [request])%list).
Proof.
  intros request timeout retries w response Hretries Hanswer.
  assert (Hany : forall t r, 0 <= r ->
             sent (snd (fetchWithTimeout request t r w)) = (sent w ++ [request])%list).
  { intros t r Hr. now rewrite (fetchWithTimeout_answered _ t _ _ _ Hr Hanswer). }
  rewrite (fetchWithTimeout_answered _ _ _ _ _ Hretries Hanswer).
  split; [reflexivity|]. split; [reflexivity|]. split; [reflexivity|].
  split; [|split; [|split]].
  - intros file bytes -> Hfile. rewrite (analyzeDocument_world _ _ _ Hfile).
    apply Hany. unfold MAX_RETRIES. lia.
  - intros name -> Hname. rewrite (searchUniversityReviews_world _ _ Hname).
    apply Hany. unfold MAX_RETRIES. lia.
  - intros ->. rewrite getHealth_probe, probe_world. apply Hany. lia.
  - intros ->. rewrite getStatus_probe, probe_world. apply Hany. lia.
Qed.

Lemma answered_attempt_is_final_witness :
  fetchWithTimeout (GET "https://asv-8ghi.onrender.com/") 5000 MAX_RETRIES
    (world_of (answering 503 JNull) half)
  = (Normal {| status := 503; json := Normal JNull |},
     snd (fetch (GET "https://asv-8ghi.onrender.com/") (world_of (answering 503 JNull) half))).
Proof.
  refine (proj1 (answered_attempt_is_final (GET "https://asv-8ghi.onrender.com/") 5000
                   MAX_RETRIES (world_of (answering 503 JNull) half)
                   {| status := 503; json := Normal JNull |} _ _)).
  - unfold MAX_RETRIES. lia.
  - reflexivity.
Defined.

(** ** The health check *)

Lemma probe_failure path refused cannot w e w1 :
  probe path refused cannot w = (Abrupt e, w1) -> instanceof_ApiError e = true.
Proof.
  intros H. eapply (try_catch_only_ApiError _ (or_cannot cannot)); [|exact H].
  intros e0. apply or_cannot_raises.
Qed.

Lemma checkBackendHealth_run w :
  checkBackendHealth w
  = match getHealth w with
    | (Abrupt e, w1) =>
        (Normal {| HealthStatus.isHealthy := false;
                   HealthStatus.message := "Backend error: " ++ error_message e;
                   HealthStatus.version := JUndefined;
                   HealthStatus.error := Some (error_message e) |}, w1)
    | (Normal healthResponse, w1) =>
        match getStatus w1 with
        | (Abrupt e, w2) =>
            (Normal {| HealthStatus.isHealthy := false;
                       HealthStatus.message := "Backend error: " ++ error_message e;
                       HealthStatus.version := JUndefined;
                       HealthStatus.error := Some (error_message e) |}, w2)
        | (Normal statusResponse, w2) =>
            match (statusMessage <- get statusResponse "message" ;;
                   text <- ToString statusMessage ;;
                   version <- get healthResponse "version" ;;
                   ret (text, version)) w2 with
            | (Normal (text, version), _) =>
                (Normal {| HealthStatus.isHealthy := true;
                           HealthStatus.message := "Backend is healthy - " ++ text;
                           HealthStatus.version := version;
                           HealthStatus.error := None |}, w2)
            | (Abrupt e, _) =>
                (Normal {| HealthStatus.isHealthy := false;
                           HealthStatus.message := "Cannot connect to backend server";
                           HealthStatus.version := JUndefined;
                           HealthStatus.error := Some (error_message e) |}, w2)
            end
        end
    end.
Proof.
  unfold checkBackendHealth. unfold try_catch at 1. unfold bind at 1.
  destruct (getHealth w) as [[h|e] w1] eqn:Hh.
  - unfold bind at 1. destruct (getStatus w1) as [[s|e] w2] eqn:Hs.
    + destruct s; cbn [get throw ret bind]; try reflexivity;
        unfold bind, ToString;
        match goal with |- context [to_string ?v] => destruct (to_string v) end;
        cbn [throw ret]; try reflexivity;
        destruct h; reflexivity.
    + rewrite getStatus_probe in Hs. apply probe_failure in Hs.
      now rewrite Hs.
  - rewrite getHealth_probe in Hh. apply probe_failure in Hh. now rewrite Hh.
Qed.

Ltac same_run :=
  repeat match goal with
         | H : (_, _) = (_, _) |- _ => inversion H; subst; clear H
         | H1 : ?run = _, H2 : ?run = _ |- _ => rewrite H1 in H2
         end.

(** X7: [checkBackendHealth] never throws.  When a probe fails the report
    is unhealthy, its message is "Backend error: " followed by the message
    of the [ApiError], and after a failed health probe the status probe is
    not run.  When both probes return, the report is healthy, with the
    [version] of the health body and the printed [message] of the status
    body, unless a body is [null] (or [undefined]) or the message cannot
    be printed: then the report is unhealthy and says "Cannot connect to
    backend server". *)
Theorem checkBackendHealth_report :
  forall w : World,
    exists report w',
      checkBackendHealth w = (Normal report, w') /\
      (forall e w1,
         getHealth w = (Abrupt e, w1) ->
         w' = w1 /\
         report = {| HealthStatus.isHealthy := false;
                     HealthStatus.message := "Backend error: " ++ error_message e;
                     HealthStatus.version := JUndefined;
                     HealthStatus.error := Some (error_message e) |}) /\
      (forall healthResponse w1 e w2,
         getHealth w = (Normal healthResponse, w1) ->
         getStatus w1 = (Abrupt e, w2) ->
         w' = w2 /\
         report = {| HealthStatus.isHealthy := false;
                     HealthStatus.message := "Backend error: " ++ error_message e;
                     HealthStatus.version := JUndefined;
                     HealthStatus.error := Some (error_message e) |}) /\
      (forall healthResponse w1 statusResponse w2,
         getHealth w = (Normal healthResponse, w1) ->
         getStatus w1 = (Normal statusResponse, w2) ->
         w' = w2 /\
         if negb (nullish statusResponse) && convertible (lookup statusResponse "message")
            && negb (nullish healthResponse)
         then
           exists text,
             to_string (lookup statusResponse "message") = Some text /\
             report = {| HealthStatus.isHealthy := true;
                         HealthStatus.message := "Backend is healthy - " ++ text;
                         HealthStatus.version := lookup healthResponse "version";
                         HealthStatus.error := None |}
         else
           HealthStatus.isHealthy report = false /\
           HealthStatus.message report = "Cannot connect to backend server").
Proof.
  intros w. rewrite checkBackendHealth_run.
  destruct (getHealth w) as [[h|e] w1] eqn:Hh.
  - destruct (getStatus w1) as [[s|e] w2] eqn:Hs.
    + destruct (nullish s) eqn:Hns.
      { destruct s; try discriminate; cbn [get throw bind];
          eexists; eexists; (split; [reflexivity|]);
          (split; [|split]); intros; same_run; cbn; repeat split. }
      unfold bind at 1. rewrite (get_defined _ _ _ Hns).
      unfold bind at 1, ToString, convertible.
      destruct (to_string (lookup s "message")) as [text|] eqn:Htext.
      * cbn [ret]. unfold bind at 1.
        destruct (nullish h) eqn:Hnh.
        { destruct h; try discriminate; cbn [get throw];
            eexists; eexists; (split; [reflexivity|]);
            (split; [|split]); intros; same_run;
            rewrite ?Hns, ?Htext; cbn; repeat split. }
        rewrite (get_defined _ _ _ Hnh). cbn [ret].
        eexists; eexists; (split; [reflexivity|]).
        (split; [|split]); intros; same_run.
        rewrite Hns, Htext, Hnh. cbn. split; [reflexivity|].
        exists text. split; reflexivity.
      * cbn [throw].
        eexists; eexists; (split; [reflexivity|]).
        (split; [|split]); intros; same_run.
        rewrite Hns, Htext. cbn. repeat split.
    + eexists; eexists; (split; [reflexivity|]).
      (split; [|split]); intros; same_run. split; reflexivity.
  - eexists; eexists; (split; [reflexivity|]).
    (split; [|split]); intros; same_run. split; reflexivity.
Qed.

Lemma checkBackendHealth_world w :
  snd (checkBackendHealth w)
  = match getHealth w with
    | (Abrupt _, w1) => w1
    | (Normal _, w1) => snd (getStatus w1)
    end.
Proof.
  rewrite checkBackendHealth_run.
  destruct (getHealth w) as [[h|e] w1]; [|reflexivity].
  destruct (getStatus w1) as [[s|e] w2]; [|reflexivity].
  match goal with
  | |- context [match ?m w2 with _ => _ end] =>
      destruct (m w2) as [[[text version]|e] w3]
  end; reflexivity.
Qed.

(** A status body whose message is a number: it is printed as ToString
    prints a double. *)
Example checkBackendHealth_numeric_message :
  match fst (checkBackendHealth
               (world_of (answering 200 (JObj [("message", JNum (10 ^ 21))])) half)) with
  | Normal report => HealthStatus.message report
  | Abrupt _ => ""
  end = "Backend is healthy - 1e+21" /\
  match fst (checkBackendHealth
               (world_of (answering 200 (JObj [("message", JFrac (3 # 2))])) half)) with
  | Normal report => HealthStatus.message report
  | Abrupt _ => ""
  end = "Backend is healthy - 1.5".
Proof. split; vm_compute; reflexivity. Qed.

(** X8: the requests of [checkBackendHealth]: one or two to [/], followed
    by at most two to [/status], and by none exactly when the health probe
    failed. *)
Theorem checkBackendHealth_requests :
  forall w : World,
    exists k j : nat,
      (1 <= k <= 2)%nat /\ (j <= 2)%nat /\
      sent (snd (checkBackendHealth w))
      = (sent w ++ repeat (health_request w) k ++ repeat (status_request w) j)%list /\
      (j = 0%nat <-> returned (getHealth w) = false).
Proof.
  intros w. rewrite checkBackendHealth_world.
  destruct (probe_requests "/" "Failed to connect to API"
              "Cannot connect to backend server" w)
    as (k & Hk & Hsame & Hsent & _).
  rewrite <- getHealth_probe in *. unfold returned.
  destruct (getHealth w) as [[h|e] w1]; cbn [fst snd] in *.
  - destruct (probe_requests "/status" "Failed to get server status"
                "Cannot get server status" w1)
      as (j & Hj & _ & Hsent' & _).
    rewrite <- getStatus_probe in *.
    exists k, j. split; [lia|]. split; [lia|]. split.
    + rewrite Hsent', Hsent, (base_url_same _ _ Hsame), <- app_assoc. reflexivity.
    + split; [lia | discriminate].
  - exists k, 0%nat. split; [lia|]. split; [lia|]. split.
    + rewrite Hsent. cbn [repeat]. now rewrite app_nil_r.
    + split; reflexivity.
Qed.

(** ** The connection test *)

Lemma tested_run operation key fallback w :
  tested operation key fallback w
  = match operation w with
    | (Normal value, w1) => (Normal (true, [(key, value)]), w1)
    | (Abrupt e, w1) =>
        (Normal (false, [(key ++ "Error", JStr (message_or fallback e))]), w1)
    end.
Proof.
  unfold tested, try_catch, bind. now destruct (operation w) as [[value|e] w1].
Qed.

Lemma ApiError_message_or fallback e :
  instanceof_ApiError e = true -> message_or fallback e = error_message e.
Proof. now destruct e. Qed.

(** X9: [testBackendConnection] never throws and runs both probes, the
    status probe whatever the health probe gave.  The flags [health] and
    [status] tell which probe returned, the message is the one of the two
    flags, and [details] holds, for each probe, its body or the message of
    its [ApiError]; there is never a [testError]. *)
Theorem testBackendConnection_result :
  forall w : World,
    let first := getHealth w in
    let second := getStatus (snd first) in
    exists result,
      testBackendConnection w = (Normal result, snd second) /\
      ConnectionTest.health result = returned first /\
      ConnectionTest.status result = returned second /\
      ConnectionTest.message result
      = (if returned first && returned second then "Backend connection successful"
         else if returned first then "Partial connection - health OK, status failed"
         else if returned second then "Partial connection - status OK, health failed"
         else "Complete connection failure") /\
      ConnectionTest.details result
      = [match fst first with
         | Normal value => ("health", value)
         | Abrupt e => ("healthError", JStr (error_message e))
         end;
         match fst second with
         | Normal value => ("status", value)
         | Abrupt e => ("statusError", JStr (error_message e))
         end].
Proof.
  intros w first second. subst first second.
  unfold testBackendConnection, try_catch. unfold bind at 1. rewrite tested_run.
  destruct (getHealth w) as [[h|e1] w1] eqn:Hh; unfold bind at 1; rewrite tested_run;
    cbn [snd]; destruct (getStatus w1) as [[s|e2] w2] eqn:Hs; cbn [ret fst snd];
    unfold returned; cbn [fst snd andb app];
    try (rewrite getHealth_probe in Hh; apply probe_failure in Hh;
         rewrite (ApiError_message_or _ _ Hh));
    try (rewrite getStatus_probe in Hs; apply probe_failure in Hs;
         rewrite (ApiError_message_or _ _ Hs));
    eexists; repeat split.
Qed.

Lemma checkBackendHealth_healthy w report w' :
  checkBackendHealth w = (Normal report, w') ->
  HealthStatus.isHealthy report = true ->
  exists healthResponse w1 statusResponse,
    getHealth w = (Normal healthResponse, w1) /\
    getStatus w1 = (Normal statusResponse, w').
Proof.
  rewrite checkBackendHealth_run. intros Hrun Hhealthy.
  destruct (getHealth w) as [[h|e] w1] eqn:Hh.
  - destruct (getStatus w1) as [[s|e] w2] eqn:Hs.
    + exists h, w1, s. split; [reflexivity|].
      match type of Hrun with
      | context [match ?m w2 with _ => _ end] =>
          destruct (m w2) as [[[text version]|e] w3]
      end; inversion Hrun; subst; exact Hs.
    + inversion Hrun; subst. discriminate.
  - inversion Hrun; subst. discriminate.
Qed.

(** X10: a backend that [checkBackendHealth] reports healthy passes
    [testBackendConnection] run in the same world: both flags are set, the
    message is "Backend connection successful", and the requests issued
    are the same. *)
Theorem healthy_backend_passes_connection_test :
  forall (w w' : World) (report : HealthStatus.t),
    checkBackendHealth w = (Normal report, w') ->
    HealthStatus.isHealthy report = true ->
    exists result,
      testBackendConnection w = (Normal result, w') /\
      ConnectionTest.health result = true /\
      ConnectionTest.status result = true /\
      ConnectionTest.message result = "Backend connection successful".
Proof.
  intros w w' report Hrun Hhealthy.
  destruct (checkBackendHealth_healthy _ _ _ Hrun Hhealthy)
    as (h & w1 & s & Hh & Hs).
  unfold testBackendConnection, try_catch. unfold bind at 1. rewrite tested_run, Hh.
  unfold bind at 1. rewrite tested_run, Hs. cbn [ret fst snd andb].
  eexists. repeat split.
Qed.

Lemma healthy_backend_passes_connection_test_witness :
  exists result,
    fst (testBackendConnection (world_of (answering 200 greeting) half)) = Normal result /\
    ConnectionTest.health result = true /\
    ConnectionTest.status result = true /\
    ConnectionTest.message result = "Backend connection successful".
Proof.
  destruct (healthy_backend_passes_connection_test
              (world_of (answering 200 greeting) half)
              (snd (checkBackendHealth (world_of (answering 200 greeting) half)))
              {| HealthStatus.isHealthy := true;
                 HealthStatus.message := "Backend is healthy - ok";
                 HealthStatus.version := JStr "1.0";
                 HealthStatus.error := None |} eq_refl eq_refl)
    as (result & Hrun & H).
  exists result. rewrite Hrun. split; [reflexivity | exact H].
Defined.

Example checkBackendHealth_offline :
  fst (checkBackendHealth (world_of offline half))
  = Normal {| HealthStatus.isHealthy := false;
              HealthStatus.message := "Backend error: Cannot connect to backend server";
              HealthStatus.version := JUndefined;
              HealthStatus.error := Some "Cannot connect to backend server" |} /\
  List.length (sent (snd (checkBackendHealth (world_of offline half)))) = 2%nat.
Proof. split; reflexivity. Qed.

Example checkBackendHealth_null_status :
  fst (checkBackendHealth (world_of (answering 200 JNull) half))
  = Normal {| HealthStatus.isHealthy := false;
              HealthStatus.message := "Cannot connect to backend server";
              HealthStatus.version := JUndefined;
              HealthStatus.error :=
                Some "Cannot read properties of null (reading 'message')" |}.
Proof. reflexivity. Qed.

Example testBackendConnection_offline :
  fst (testBackendConnection (world_of offline half))
  = Normal {| ConnectionTest.health := false;
              ConnectionTest.status := false;
              ConnectionTest.message := "Complete connection failure";
              ConnectionTest.details :=
                [("healthError", JStr "Cannot connect to backend server");
                 ("statusError", JStr "Cannot get server status")] |} /\
  List.length (sent (snd (testBackendConnection (world_of offline half)))) = 4%nat.
Proof. split; reflexivity. Qed.

(** ** The normaliser and the world *)

Lemma map_claim_split apiClaim index :
  map_claim apiClaim index
  = (score <- get apiClaim "trustScore" ;;
     trustScore <-
       (if truthy score && is_number score then ret score
        else
          table <- trustScoreMap ;;
          at_key table (lookup apiClaim "verdict") (JNum 50)) ;;
     after_score apiClaim index trustScore).
Proof. reflexivity. Qed.

Lemma constant_ret {A} (a : A) : constant (ret a).
Proof. now exists (Normal a). Qed.

Lemma constant_get v key : constant (get v key).
Proof. destruct v; eexists; intros w; reflexivity. Qed.

Lemma constant_at_key map key fallback : constant (at_key map key fallback).
Proof.
  unfold at_key, bind, ToString. destruct (to_string key); eexists; intros w; reflexivity.
Qed.

Lemma constant_plus_one_or_zero chunk : constant (plus_one_or_zero chunk).
Proof.
  unfold plus_one_or_zero.
  destruct (js_or chunk (JNum 0)) eqn:H; try (eexists; intros w; reflexivity);
    unfold bind, ToString;
    match goal with |- context [to_string ?v] => destruct (to_string v) end;
    eexists; intros w; reflexivity.
Qed.

Lemma bind_constant {A B} (m : Js A) (k : A -> Js B) c :
  (forall w, m w = (c, w)) ->
  forall w, bind m k w = match c with
                         | Normal a => k a w
                         | Abrupt e => (Abrupt e, w)
                         end.
Proof. intros H w. unfold bind. rewrite H. now destruct c. Qed.

Lemma constant_web_evidence index :
  forall items webIndex, constant (web_evidence index webIndex items).
Proof.
  induction items as [|webEv rest IH]; intros webIndex; [apply constant_ret|].
  cbn [web_evidence].
  destruct (constant_get webEv "snippet") as ([snippet|e] & Hs).
  - destruct (IH (S webIndex)) as ([more|e] & Hm).
    + eexists. intros w. rewrite (bind_constant _ _ _ Hs), (bind_constant _ _ _ Hm).
      reflexivity.
    + exists (Abrupt e). intros w.
      now rewrite (bind_constant _ _ _ Hs), (bind_constant _ _ _ Hm).
  - exists (Abrupt e). intros w. now rewrite (bind_constant _ _ _ Hs).
Qed.

Lemma constant_web apiClaim index :
  constant (match lookup apiClaim "web_evidence" with
            | JArr items => web_evidence index 0 (firstn 3 items)
            | _ => ret []
            end).
Proof.
  destruct (lookup apiClaim "web_evidence"); try apply constant_ret.
  apply constant_web_evidence.
Qed.

(** After the trust score the callback is a function of the raw claim. *)
Lemma after_score_shape apiClaim index :
  exists build : Completion (JsValue -> Claim.t),
    (forall trustScore w,
       after_score apiClaim index trustScore w
       = (match build with
          | Normal claim => Normal (claim trustScore)
          | Abrupt e => Abrupt e
          end, w)) /\
    (forall claim trustScore,
       build = Normal claim ->
       Claim.trustScore (claim trustScore) = trustScore /\
       without_score (claim trustScore) = without_score (claim JUndefined)).
Proof.
  unfold after_score.
  destruct (constant_get apiClaim "metadata") as ([metadata|e] & H1);
    [|exists (Abrupt e); split;
      [intros t w; now rewrite (bind_constant _ _ _ H1) | discriminate]].
  destruct (constant_get metadata "source") as ([source|e] & H2);
    [|exists (Abrupt e); split;
      [intros t w; now rewrite (bind_constant _ _ _ H1), (bind_constant _ _ _ H2)
      | discriminate]].
  destruct (constant_web apiClaim index) as ([web|e] & H3);
    [|exists (Abrupt e); split;
      [intros t w; now rewrite (bind_constant _ _ _ H1), (bind_constant _ _ _ H2),
         (bind_constant _ _ _ H3)
      | discriminate]].
  destruct (constant_at_key consistencyMap (lookup apiClaim "verdict")
              (JStr "Unverifiable")) as ([consistency|e] & H4);
    [|exists (Abrupt e); split;
      [intros t w; now rewrite (bind_constant _ _ _ H1), (bind_constant _ _ _ H2),
         (bind_constant _ _ _ H3), (bind_constant _ _ _ H4)
      | discriminate]].
  destruct (constant_plus_one_or_zero (lookup metadata "source_chunk_id"))
    as ([pageNumber|e] & H5);
    [|exists (Abrupt e); split;
      [intros t w; now rewrite (bind_constant _ _ _ H1), (bind_constant _ _ _ H2),
         (bind_constant _ _ _ H3), (bind_constant _ _ _ H4), (bind_constant _ _ _ H5)
      | discriminate]].
  eexists (Normal (fun t => _)). split.
  - intros t w.
    rewrite (bind_constant _ _ _ H1), (bind_constant _ _ _ H2),
      (bind_constant _ _ _ H3), (bind_constant _ _ _ H4), (bind_constant _ _ _ H5).
    reflexivity.
  - intros claim t H. inversion H; subst claim. split; reflexivity.
Qed.

Lemma trustScoreMap_run w :
  exists table w',
    trustScoreMap w = (Normal table, w') /\ draws_only w w' /\
    drawn w' = (drawn w + 5)%nat.
Proof.
  unfold trustScoreMap, bind, random_int, ret. cbn.
  eexists. eexists. split; [reflexivity|]. cbn.
  split; [|lia]. unfold draws_only; cbn. repeat split; auto; lia.
Qed.

(** The callback, run: the trust score, then the claim around it. *)
Lemma map_claim_run apiClaim index :
  nullish apiClaim = false ->
  exists build : Completion (JsValue -> Claim.t),
    (forall claim trustScore,
       build = Normal claim ->
       without_score (claim trustScore) = without_score (claim JUndefined)) /\
    forall w,
      exists score w',
        map_claim apiClaim index w = (completed score build, w') /\
        draws_only w w' /\
        drawn w' = (drawn w + if keeps_score apiClaim then 0 else 5)%nat /\
        if keeps_score apiClaim then
          w' = w /\ score = Normal (lookup apiClaim "trustScore")
        else
          match to_string (lookup apiClaim "verdict") with
          | Some _ => exists t, score = Normal t
          | None => score = Abrupt (NativeError TypeError "TypeError"
                                      "Cannot convert object to primitive value")
          end.
Proof.
  intros Hnn.
  destruct (after_score_shape apiClaim index) as (build & Hbuild & Hshape).
  exists build. split; [intros claim t H; now apply Hshape|].
  intros w. rewrite map_claim_split. unfold bind at 1.
  rewrite (get_defined _ _ _ Hnn). fold (keeps_score apiClaim).
  destruct (keeps_score apiClaim) eqn:Hkeep.
  - exists (Normal (lookup apiClaim "trustScore")), w.
    unfold bind, ret. rewrite Hbuild.
    split; [now destruct build|]. split; [apply draws_only_refl|].
    split; [lia | auto].
  - destruct (trustScoreMap_run w) as (table & w' & Htable & Hdraws & Hdrawn).
    unfold bind at 1. unfold bind at 1. rewrite Htable.
    unfold at_key, bind, ToString.
    destruct (to_string (lookup apiClaim "verdict")) as [k|]; cbn [ret throw].
    + exists (Normal (js_or (lookup table k) (JNum 50))), w'.
      rewrite Hbuild. split; [now destruct build|].
      split; [exact Hdraws|]. split; [exact Hdrawn|]. eexists; reflexivity.
    + eexists (Abrupt _), w'. split; [reflexivity|].
      split; [exact Hdraws|]. split; [exact Hdrawn | reflexivity].
Qed.

Lemma map_claim_nullish apiClaim index w :
  nullish apiClaim = true ->
  exists e, map_claim apiClaim index w = (Abrupt e, w) /\
            forall w0, map_claim apiClaim index w0 = (Abrupt e, w0).
Proof. destruct apiClaim; try discriminate; intros _; eexists; split; reflexivity. Qed.

Lemma keeps_score_defined apiClaim : keeps_score apiClaim = true -> nullish apiClaim = false.
Proof. now destruct apiClaim. Qed.

Lemma map_claim_agree apiClaim index w1 w2 :
  agree alike (fst (map_claim apiClaim index w1)) (fst (map_claim apiClaim index w2)).
Proof.
  destruct (nullish apiClaim) eqn:Hnn.
  - destruct (map_claim_nullish apiClaim index w1 Hnn) as (e & _ & He).
    rewrite (He w1), (He w2). reflexivity.
  - destruct (map_claim_run apiClaim index Hnn) as (build & Hshape & Hrun).
    destruct (Hrun w1) as (s1 & w1' & -> & _ & _ & H1).
    destruct (Hrun w2) as (s2 & w2' & -> & _ & _ & H2).
    cbn [fst].
    assert (Hs : match s1, s2 with
                 | Normal _, Normal _ => True
                 | Abrupt e1, Abrupt e2 => e1 = e2
                 | _, _ => False
                 end).
    { destruct (keeps_score apiClaim).
      - destruct H1 as [_ ->]. destruct H2 as [_ ->]. exact I.
      - destruct (to_string (lookup apiClaim "verdict")).
        + destruct H1 as (t1 & ->). destruct H2 as (t2 & ->). exact I.
        + now subst. }
    destruct s1 as [t1|e1], s2 as [t2|e2]; try contradiction; cbn.
    + destruct build as [claim|e]; cbn; [|reflexivity].
      unfold alike. now rewrite (Hshape claim t1), (Hshape claim t2).
    + exact Hs.
Qed.

Lemma map_claim_effect apiClaim index w :
  draws_only w (snd (map_claim apiClaim index w)) /\
  drawn (snd (map_claim apiClaim index w))
  = (drawn w + if nullish apiClaim || keeps_score apiClaim then 0 else 5)%nat.
Proof.
  destruct (nullish apiClaim) eqn:Hnn.
  - destruct (map_claim_nullish apiClaim index w Hnn) as (e & -> & _). cbn.
    split; [apply draws_only_refl | lia].
  - destruct (map_claim_run apiClaim index Hnn) as (build & _ & Hrun).
    destruct (Hrun w) as (s & w' & -> & Hdraws & Hdrawn & _). cbn. auto.
Qed.

Lemma map_claim_kept apiClaim index :
  keeps_score apiClaim = true -> constant (map_claim apiClaim index).
Proof.
  intros Hkeep.
  destruct (map_claim_run apiClaim index (keeps_score_defined _ Hkeep))
    as (build & _ & Hrun).
  exists (completed (Normal (lookup apiClaim "trustScore")) build). intros w.
  destruct (Hrun w) as (s & w' & -> & _ & _ & H). rewrite Hkeep in H.
  now destruct H as [-> ->].
Qed.

(** The same for the whole sequence. *)
Lemma map_claims_agree :
  forall apiClaims index w1 w2,
    agree (Forall2 alike) (fst (map_claims index apiClaims w1))
      (fst (map_claims index apiClaims w2)).
Proof.
  induction apiClaims as [|apiClaim rest IH]; intros index w1 w2.
  - cbn. constructor.
  - cbn [map_claims]. unfold bind at 1 3.
    pose proof (map_claim_agree apiClaim index w1 w2) as Hc.
    destruct (map_claim apiClaim index w1) as [[k1|e1] wa],
             (map_claim apiClaim index w2) as [[k2|e2] wb]; cbn [fst] in Hc;
      try contradiction; [|exact Hc].
    unfold bind. specialize (IH (S index) wa wb).
    destruct (map_claims (S index) rest wa) as [[o1|e1] wa'],
             (map_claims (S index) rest wb) as [[o2|e2] wb']; cbn [fst] in IH |- *;
      try contradiction; [|exact IH].
    cbn. now constructor.
Qed.

Lemma map_claims_cons apiClaim rest index w :
  map_claims index (apiClaim :: rest) w
  = match map_claim apiClaim index w with
    | (Normal claim, w1) =>
        match map_claims (S index) rest w1 with
        | (Normal others, w2) => (Normal (claim :: others), w2)
        | (Abrupt e, w2) => (Abrupt e, w2)
        end
    | (Abrupt e, w1) => (Abrupt e, w1)
    end.
Proof.
  cbn [map_claims]. unfold bind.
  destruct (map_claim apiClaim index w) as [[claim|e] w1]; [|reflexivity].
  now destruct (map_claims (S index) rest w1) as [[others|e] w2].
Qed.

Lemma map_claims_effect :
  forall apiClaims index w,
    draws_only w (snd (map_claims index apiClaims w)) /\
    (returned (map_claims index apiClaims w) = true ->
     drawn (snd (map_claims index apiClaims w))
     = (drawn w + 5 * List.length (scored_at_random apiClaims))%nat).
Proof.
  induction apiClaims as [|apiClaim rest IH]; intros index w.
  - cbn. split; [apply draws_only_refl | intros _; lia].
  - rewrite map_claims_cons.
    destruct (map_claim_effect apiClaim index w) as [Hd Hn].
    destruct (map_claim apiClaim index w) as [[k|e] w1] eqn:Hk; cbn [snd] in *.
    + destruct (IH (S index) w1) as [Hd' Hn'].
      destruct (map_claims (S index) rest w1) as [[o|e] w2];
        unfold returned in *; cbn [fst snd] in *.
      * split; [eapply draws_only_trans; eassumption|]. intros _.
        rewrite (Hn' eq_refl), Hn. unfold scored_at_random. cbn [filter].
        assert (Hnn : nullish apiClaim = false).
        { destruct apiClaim; try reflexivity; discriminate. }
        rewrite Hnn. cbn [orb].
        destruct (keeps_score apiClaim); cbn [negb List.length]; lia.
      * split; [eapply draws_only_trans; eassumption | discriminate].
    + split; [exact Hd | discriminate].
Qed.

Lemma map_claims_kept :
  forall apiClaims index,
    forallb keeps_score apiClaims = true -> constant (map_claims index apiClaims).
Proof.
  induction apiClaims as [|apiClaim rest IH]; intros index Hall; [apply constant_ret|].
  cbn [forallb] in Hall. apply andb_prop in Hall. destruct Hall as [Hc Hrest].
  destruct (map_claim_kept apiClaim index Hc) as ([k|e] & Hk).
  - destruct (IH (S index) Hrest) as ([o|e] & Ho).
    + eexists. intros w. cbn [map_claims].
      rewrite (bind_constant _ _ _ Hk), (bind_constant _ _ _ Ho). reflexivity.
    + exists (Abrupt e). intros w. cbn [map_claims].
      now rewrite (bind_constant _ _ _ Hk), (bind_constant _ _ _ Ho).
  - exists (Abrupt e). intros w. cbn [map_claims]. now rewrite (bind_constant _ _ _ Hk).
Qed.

Lemma mapApiResponseToFrontend_run apiResponse w :
  mapApiResponseToFrontend apiResponse w
  = if negb (truthy apiResponse) || negb (typeof_object apiResponse) then
      (Abrupt (invalid "Response is not an object"), w)
    else if negb (truthy (lookup apiResponse "summary")) then
      (Abrupt (invalid "Missing summary field"), w)
    else
      match lookup apiResponse "claims" with
      | JArr apiClaims =>
          match map_claims 0 apiClaims w with
          | (Normal claims, w') =>
              (Normal
                 {| summary :=
                      {| totalClaims := lookup (lookup apiResponse "summary") "total_claims";
                         processingTime :=
                           lookup (lookup apiResponse "summary") "processing_time_seconds";
                         documentName := lookup (lookup apiResponse "summary") "document_name";
                         timestamp := lookup (lookup apiResponse "summary") "timestamp";
                         analysisMode := lookup (lookup apiResponse "summary") "analysis_mode" |};
                    claims := claims |}, w')
          | (Abrupt e, w') => (Abrupt e, w')
          end
      | _ => (Abrupt (invalid "Missing or invalid claims array"), w)
      end.
Proof.
  unfold mapApiResponseToFrontend.
  destruct (negb (truthy apiResponse) || negb (typeof_object apiResponse)); [reflexivity|].
  destruct (negb (truthy (lookup apiResponse "summary"))); [reflexivity|].
  destruct (lookup apiResponse "claims") as [| | | | | | |apiClaims| |]; try reflexivity.
Qed.

(** X11: [mapApiResponseToFrontend] issues no request and waits for no
    delay, whether it returns or throws; when it returns it has consumed
    five values of [Math.random] for each raw claim whose trust score it
    does not keep (one that is no number, or 0), and none for the
    others. *)
Theorem mapApiResponseToFrontend_effects :
  forall (apiResponse : JsValue) (w : World),
    let w' := snd (mapApiResponseToFrontend apiResponse w) in
    network w' = network w /\ sent w' = sent w /\ slept w' = slept w /\
    entropy w' = entropy w /\ clock w' = clock w /\
    (forall apiClaims,
       lookup apiResponse "claims" = JArr apiClaims ->
       returned (mapApiResponseToFrontend apiResponse w) = true ->
       drawn w' = (drawn w + 5 * List.length (scored_at_random apiClaims))%nat).
Proof.
  intros apiResponse w. cbv zeta. rewrite mapApiResponseToFrontend_run.
  destruct (negb (truthy apiResponse) || negb (typeof_object apiResponse)).
  { cbn. repeat split; auto. discriminate. }
  destruct (negb (truthy (lookup apiResponse "summary"))).
  { cbn. repeat split; auto. discriminate. }
  destruct (lookup apiResponse "claims") as [| | | | | | |cs| |];
    try (cbn; repeat split; auto; discriminate).
  destruct (map_claims_effect cs 0 w) as [Hd Hn]. unfold returned in *.
  destruct (map_claims 0 cs w) as [[ks|e] w1]; cbn [fst snd] in *;
    destruct Hd as (H1 & H2 & H3 & H4 & H5 & _);
    repeat (split; [assumption|]).
  - intros cs' Hcs _. inversion Hcs; subst. now apply Hn.
  - discriminate.
Qed.

(** X12: the random source decides nothing but trust scores.  Run in two
    worlds on the same payload, [mapApiResponseToFrontend] throws the same
    error in both or returns in both, with the same summary and with
    claims that differ in their trust scores at most.  If every raw claim
    has a trust score that is kept, the two results are equal and the
    world is left as it was. *)
Theorem mapApiResponseToFrontend_random_source :
  forall (apiResponse : JsValue) (w1 w2 : World),
    agree alike_results (fst (mapApiResponseToFrontend apiResponse w1))
      (fst (mapApiResponseToFrontend apiResponse w2)) /\
    (forall apiClaims,
       lookup apiResponse "claims" = JArr apiClaims ->
       forallb keeps_score apiClaims = true ->
       fst (mapApiResponseToFrontend apiResponse w1)
       = fst (mapApiResponseToFrontend apiResponse w2) /\
       snd (mapApiResponseToFrontend apiResponse w1) = w1).
Proof.
  intros apiResponse w1 w2. rewrite !mapApiResponseToFrontend_run.
  destruct (negb (truthy apiResponse) || negb (typeof_object apiResponse)).
  { split; [reflexivity | intros; split; reflexivity]. }
  destruct (negb (truthy (lookup apiResponse "summary"))).
  { split; [reflexivity | intros; split; reflexivity]. }
  destruct (lookup apiResponse "claims") as [| | | | | | |cs| |];
    try (split; [reflexivity | intros; split; reflexivity]).
  split.
  - pose proof (map_claims_agree cs 0 w1 w2) as H.
    destruct (map_claims 0 cs w1) as [[k1|e1] wa], (map_claims 0 cs w2) as [[k2|e2] wb];
      cbn [fst] in *; try contradiction; [|exact H].
    split; [reflexivity | exact H].
  - intros cs' Hcs Hall. inversion Hcs; subst cs'.
    destruct (map_claims_kept cs 0 Hall) as (c & Hc).
    rewrite (Hc w1), (Hc w2). destruct c; split; reflexivity.
Qed.

(** ** Identifiers *)

Lemma to_int_proper z :
  Z.to_int z <> Decimal.Pos Decimal.Nil /\ Z.to_int z <> Decimal.Neg Decimal.Nil.
Proof.
  destruct z; cbn; split; try discriminate;
    intros H; inversion H as [H']; now apply DecimalPos.Unsigned.to_uint_nonnil in H'.
Qed.

Lemma of_Z_inj a b : Str.of_Z a = Str.of_Z b -> a = b.
Proof.
  unfold Str.of_Z. intros H. apply DecimalZ.to_int_inj.
  destruct (to_int_proper a) as [Ha1 Ha2]. destruct (to_int_proper b) as [Hb1 Hb2].
  pose proof (NilZero.isi _ Ha1 Ha2) as Ia. pose proof (NilZero.isi _ Hb1 Hb2) as Ib.
  rewrite H in Ia. congruence.
Qed.

Lemma of_nat_inj a b : Str.of_nat a = Str.of_nat b -> a = b.
Proof. unfold Str.of_nat. intros H. apply of_Z_inj in H. lia. Qed.

Lemma digits_of_uint d : every is_digit (NilEmpty.string_of_uint d) = true.
Proof. induction d; cbn [NilEmpty.string_of_uint every]; try rewrite IHd; reflexivity. Qed.

Lemma of_nat_digits n : every is_digit (Str.of_nat n) = true.
Proof.
  unfold Str.of_nat, Str.of_Z. destruct (Z.of_nat n) eqn:Hn; [reflexivity| |lia].
  cbn [Z.to_int NilZero.string_of_int]. unfold NilZero.string_of_uint.
  destruct (Pos.to_uint p) eqn:Hp; try (rewrite <- Hp; apply digits_of_uint).
  now apply DecimalPos.Unsigned.to_uint_nonnil in Hp.
Qed.

Lemma append_inv_head a x y : a ++ x = a ++ y -> x = y.
Proof. induction a as [|c a IH]; cbn; [auto | intros H; inversion H; auto]. Qed.

(** Two texts that start with digits up to a dash. *)
Lemma dash_split :
  forall a b x y,
    every is_digit a = true -> every is_digit b = true ->
    a ++ String "-" x = b ++ String "-" y -> a = b /\ x = y.
Proof.
  induction a as [|c a IH]; intros [|d b] x y Ha Hb H; cbn in H.
  - inversion H. auto.
  - inversion H; subst d. cbn in Hb. discriminate.
  - inversion H; subst c. cbn in Ha. discriminate.
  - inversion H; subst d. cbn [every] in Ha, Hb.
    apply andb_prop in Ha. apply andb_prop in Hb.
    destruct (IH b x y) as [-> ->]; intuition.
Qed.

Lemma NoDup_map_injective {A B} (f : A -> B) (l : list A) :
  (forall x y, f x = f y -> x = y) -> NoDup l -> NoDup (map f l).
Proof.
  intros Hf Hl. induction Hl as [|x l Hx Hl IH]; cbn; constructor; [|exact IH].
  intros Hin. apply in_map_iff in Hin. destruct Hin as (y & Hy & Hin).
  apply Hf in Hy. now subst y.
Qed.

Lemma web_evidence_ids index :
  forall items webIndex w es w',
    web_evidence index webIndex items w = (Normal es, w') ->
    map Evidence.id es = map (web_id index) (seq webIndex (List.length items)).
Proof.
  induction items as [|webEv rest IH]; intros webIndex w es w' Hrun.
  - inversion Hrun. reflexivity.
  - cbn [web_evidence] in Hrun.
    apply bind_returns in Hrun. destruct Hrun as (snippet & w1 & _ & Hrun).
    apply bind_returns in Hrun. destruct Hrun as (more & w2 & Hmore & Hrun).
    inversion Hrun; subst. cbn [map List.length seq Evidence.id].
    f_equal. eapply IH. exact Hmore.
Qed.

Lemma after_score_returns apiClaim index trustScore w claim w' :
  after_score apiClaim index trustScore w = (Normal claim, w') ->
  Claim.id claim = "claim-" ++ Str.of_nat index /\
  exists count,
    (count <= 3)%nat /\
    map Evidence.id (Claim.evidence claim)
    = ("evidence-" ++ Str.of_nat index ++ "-1") :: map (web_id index) (seq 0 count).
Proof.
  unfold after_score. intros Hrun.
  apply bind_returns in Hrun. destruct Hrun as (metadata & w1 & _ & Hrun).
  apply bind_returns in Hrun. destruct Hrun as (source & w2 & _ & Hrun).
  apply bind_returns in Hrun. destruct Hrun as (web & w3 & Hweb & Hrun).
  apply bind_returns in Hrun. destruct Hrun as (consistency & w4 & _ & Hrun).
  apply bind_returns in Hrun. destruct Hrun as (pageNumber & w5 & _ & Hrun).
  inversion Hrun; subst claim. cbn [Claim.id Claim.evidence map Evidence.id].
  split; [reflexivity|].
  destruct (lookup apiClaim "web_evidence") as [| | | | | | |items| |];
    try (inversion Hweb; subst web; exists 0%nat; split; [lia | reflexivity]).
  exists (List.length (firstn 3 items)). split.
  - rewrite length_firstn. lia.
  - f_equal. eapply web_evidence_ids. exact Hweb.
Qed.

Lemma map_claim_after apiClaim index w claim w' :
  map_claim apiClaim index w = (Normal claim, w') ->
  exists trustScore w1, after_score apiClaim index trustScore w1 = (Normal claim, w').
Proof.
  rewrite map_claim_split. intros Hrun.
  apply bind_returns in Hrun. destruct Hrun as (score & w1 & _ & Hrun).
  apply bind_returns in Hrun. destruct Hrun as (t & w2 & _ & Hrun).
  eauto.
Qed.

Lemma web_id_inj index a b : web_id index a = web_id index b -> a = b.
Proof.
  unfold web_id. intros H. apply append_inv_head in H. apply append_inv_head in H.
  apply (append_inv_head "-web-") in H. now apply of_nat_inj.
Qed.

Lemma of_claim_inj i j id : of_claim i id -> of_claim j id -> i = j.
Proof.
  intros (r1 & ->) (r2 & H). apply append_inv_head in H.
  apply dash_split in H; try apply of_nat_digits.
  destruct H as [H _]. now apply of_nat_inj.
Qed.

Lemma claim_evidence_ids index count :
  let ids := ("evidence-" ++ Str.of_nat index ++ "-1") :: map (web_id index) (seq 0 count) in
  NoDup ids /\ Forall (of_claim index) ids.
Proof.
  cbv zeta. split.
  - constructor.
    + intros Hin. apply in_map_iff in Hin. destruct Hin as (k & Hk & _).
      unfold web_id in Hk. apply append_inv_head in Hk. apply append_inv_head in Hk.
      discriminate Hk.
    + apply NoDup_map_injective; [apply web_id_inj | apply seq_NoDup].
  - constructor.
    + exists "1". reflexivity.
    + apply Forall_forall. intros id Hin. apply in_map_iff in Hin.
      destruct Hin as (k & <- & _). exists ("web-" ++ Str.of_nat k). reflexivity.
Qed.

Lemma map_claims_ids :
  forall apiClaims index w claims w',
    map_claims index apiClaims w = (Normal claims, w') ->
    map Claim.id claims
    = map (fun i => "claim-" ++ Str.of_nat i) (seq index (List.length apiClaims)) /\
    NoDup (evidence_ids claims) /\
    Forall (fun id => exists i, (index <= i)%nat /\ of_claim i id) (evidence_ids claims).
Proof.
  induction apiClaims as [|apiClaim rest IH]; intros index w claims w' Hrun.
  - inversion Hrun. cbn. repeat split; constructor.
  - rewrite map_claims_cons in Hrun.
    destruct (map_claim apiClaim index w) as [[claim|e] w1] eqn:Hclaim; [|discriminate].
    destruct (map_claims (S index) rest w1) as [[others|e] w2] eqn:Hothers;
      [|discriminate].
    inversion Hrun; subst claims w2; clear Hrun.
    apply map_claim_after in Hclaim. destruct Hclaim as (t & w0 & Hclaim).
    apply after_score_returns in Hclaim. destruct Hclaim as (Hid & count & _ & Hids).
    destruct (claim_evidence_ids index count) as [Hnd Hof]. rewrite <- Hids in Hnd, Hof.
    destruct (IH _ _ _ _ Hothers) as (Hrest & Hnd' & Hof').
    cbn [map List.length seq evidence_ids flat_map]. fold (evidence_ids others).
    split; [now rewrite Hid, Hrest|]. split.
    + apply NoDup_app; [exact Hnd | exact Hnd' |].
      intros id Hin Hin'.
      rewrite Forall_forall in Hof, Hof'.
      destruct (Hof' _ Hin') as (i & Hi & Hofi).
      pose proof (of_claim_inj _ _ _ (Hof _ Hin) Hofi). lia.
    + apply Forall_app. split.
      * eapply Forall_impl; [|exact Hof]. intros id H. exists index. split; [lia | exact H].
      * eapply Forall_impl; [|exact Hof']. intros id (i & Hi & H).
        exists i. split; [lia | exact H].
Qed.

(** X13: the ids of a normalised result.  The claims are numbered in
    order, "claim-0", "claim-1", ...; no two claims have the same id, and
    no two evidence entries of the whole result have the same id. *)
Theorem mapApiResponseToFrontend_ids :
  forall (apiResponse : JsValue) (w w' : World) (result : AnalysisResult),
    mapApiResponseToFrontend apiResponse w = (Normal result, w') ->
    map Claim.id (claims result)
    = map (fun i => "claim-" ++ Str.of_nat i) (seq 0 (List.length (claims result))) /\
    NoDup (map Claim.id (claims result)) /\
    NoDup (evidence_ids (claims result)).
Proof.
  intros apiResponse w w' result Hrun.
  apply mapApiResponseToFrontend_returns in Hrun.
  destruct Hrun as (_ & apiClaims & _ & Hrun).
  destruct (map_claims_ids _ _ _ _ _ Hrun) as (Hids & Hnd & _).
  assert (Hlen : List.length (claims result) = List.length apiClaims).
  { rewrite <- (length_map Claim.id), Hids, length_map, length_seq. reflexivity. }
  rewrite Hlen. split; [exact Hids|]. split; [|exact Hnd].
  rewrite Hids. apply NoDup_map_injective; [|apply seq_NoDup].
  intros x y H. apply (append_inv_head "claim-") in H. now apply of_nat_inj.
Qed.

Lemma mapApiResponseToFrontend_ids_witness :
  NoDup ["claim-0"] /\
  NoDup ["evidence-0-1"; "evidence-0-web-0"; "evidence-0-web-1"; "evidence-0-web-2"].
Proof.
  pose proof (mapApiResponseToFrontend_ids four_sources (world_of offline half) _ _ eq_refl)
    as (_ & Hclaims & Hevidence).
  split; [exact Hclaims | exact Hevidence].
Defined.

Example mapApiResponseToFrontend_ids_four_sources :
  match fst (mapApiResponseToFrontend four_sources (world_of offline half)) with
  | Normal result =>
      evidence_ids (claims result)
      = ["evidence-0-1"; "evidence-0-web-0"; "evidence-0-web-1"; "evidence-0-web-2"]
  | Abrupt _ => False
  end.
Proof. reflexivity. Qed.

(** ** The university page *)

(** X19: the search form.  A name that is blank after trimming gives the
    message "Please enter a university name" and nothing else.  The page
    passes the trimmed name to the client, so that the length the client
    checks is the one of the trimmed name: with fewer than three
    characters left no request is issued and the message of the client is
    shown; with three or more, between one and three requests carry the
    trimmed name, [results] is the response when the search returns, and
    [error] is the message of the [ApiError] when it fails.  In both cases
    [isLoading] ends false. *)
Theorem handleSubmit_outcome :
  forall (meanwhile : SearchPage.t -> SearchPage.t) (page : SearchPage.t) (w : World),
    let name := Str.trim (SearchPage.universityName page) in
    let run := handleSubmit meanwhile page w in
    (name = "" ->
     run = (setError (Some "Please enter a university name") page, w)) /\
    (name <> "" -> Str.len name < 3 ->
     snd run = w /\
     SearchPage.isLoading (fst run) = false /\
     SearchPage.error (fst run)
     = Some "University name must be at least 3 characters long") /\
    (3 <= Str.len name ->
     exists tries,
       (1 <= tries <= 3)%nat /\
       sent (snd run)
       = (sent w ++ repeat
                      (POST (base_url w ++ "/api/university-reviews")
                         (JObj [("university_name", JStr name);
                                ("include_debug", JBool false)])) tries)%list /\
       SearchPage.isLoading (fst run) = false /\
       match fst (searchUniversityReviews name w) with
       | Normal response => SearchPage.results (fst run) = Some response
       | Abrupt e => SearchPage.error (fst run) = Some (error_message e)
       end).
Proof.
  intros meanwhile page w name run. subst run. unfold handleSubmit.
  cbv zeta. fold name. assert (Hfix : Str.trim name = name) by apply trim_idempotent.
  clearbody name.
  destruct (Str.is_empty name) eqn:Hempty.
  - destruct name; [|discriminate]. split; [reflexivity|].
    split; [congruence | cbn; lia].
  - assert (Hne : name <> "") by (intros ->; discriminate).
    split; [congruence|]. split.
    + intros _ Hshort. unfold searchUniversityReviews. rewrite Hfix, Hempty.
      apply Z.ltb_lt in Hshort. rewrite Hshort. repeat split.
    + intros Hlong.
      assert (Hok : acceptable name = true).
      { unfold acceptable. rewrite Hfix, Hempty. cbn [negb andb].
        apply negb_true_iff, Z.ltb_ge. exact Hlong. }
      destruct (searchUniversityReviews_requests _ w Hok) as (tries & Htries & Hsent).
      unfold search_request in Hsent. rewrite Hfix in Hsent.
      exists tries. split; [exact Htries|].
      pose proof (searchUniversityReviews_only_ApiError name w) as Honly.
      destruct (searchUniversityReviews name w) as [[response|e] w1]; cbn [fst snd] in *.
      * repeat split; auto.
      * specialize (Honly e w1 eq_refl).
        rewrite (ApiError_message_or _ _ Honly). repeat split; auto.
Qed.

Example handleSubmit_padded_short :
  handleSubmit (fun page => page)
    {| SearchPage.universityName := "  IT  "; SearchPage.results := None;
       SearchPage.isLoading := false; SearchPage.error := None |}
    (world_of offline half)
  = ({| SearchPage.universityName := "  IT  "; SearchPage.results := None;
        SearchPage.isLoading := false;
        SearchPage.error := Some "University name must be at least 3 characters long" |},
     world_of offline half).
Proof. reflexivity. Qed.

(** ** The upload page *)

Lemma setUploadedFiles_twice fileId g h page :
  (forall f, UploadedFile.id (g f) = UploadedFile.id f) ->
  setUploadedFiles fileId h (setUploadedFiles fileId g page)
  = setUploadedFiles fileId (fun f => h (g f)) page.
Proof.
  intros Hid. unfold setUploadedFiles. cbn [UploadPage.uploadedFiles UploadPage.stored
    UploadPage.refused]. f_equal. rewrite map_map. apply map_ext. intros f.
  destruct (String.eqb (UploadedFile.id f) fileId) eqn:Hf.
  - now rewrite Hid, Hf.
  - now rewrite Hf.
Qed.

(** The update to progress 80 leaves no trace in the final entry. *)
Lemma uploadAndAnalyzeFile_run fileId file meanwhile page w :
  let started := meanwhile (setUploadedFiles fileId (with_progress 10) page) in
  uploadAndAnalyzeFile fileId file meanwhile page w
  = match analyzeDocument file w with
    | (Abrupt e, w1) => (setUploadedFiles fileId (failed (errorMessage e)) started, w1)
    | (Normal apiResponse, w1) =>
        match mapApiResponseToFrontend apiResponse w1 with
        | (Abrupt e, w2) => (setUploadedFiles fileId (failed (errorMessage e)) started, w2)
        | (Normal analysisResult, w2) =>
            match UploadPage.refused started analysisResult with
            | Some e => (setUploadedFiles fileId (failed (errorMessage e)) started, w2)
            | None =>
                (storing analysisResult
                   (setUploadedFiles fileId (succeeded analysisResult) started), w2)
            end
        end
    end.
Proof.
  intros started. unfold uploadAndAnalyzeFile, upload_failure. fold started.
  destruct (analyzeDocument file w) as [[apiResponse|e] w1]; [|reflexivity].
  destruct (mapApiResponseToFrontend apiResponse w1) as [[analysisResult|e] w2].
  - unfold setItem. cbn [setUploadedFiles UploadPage.refused].
    destruct (UploadPage.refused started analysisResult) as [e|].
    + change ({| UploadPage.uploadedFiles := _; UploadPage.stored := _;
                 UploadPage.refused := _ |})
        with (setUploadedFiles fileId (with_progress 80) started).
      now rewrite setUploadedFiles_twice.
    + unfold storing, setUploadedFiles.
      cbn [UploadPage.uploadedFiles UploadPage.stored UploadPage.refused].
      f_equal. f_equal. rewrite !map_map. apply map_ext. intros f.
      destruct (String.eqb (UploadedFile.id f) fileId) eqn:Hf;
        cbn [with_progress UploadedFile.id]; rewrite ?Hf; reflexivity.
  - now rewrite setUploadedFiles_twice.
Qed.

Lemma setUploadedFiles_entries fileId change page :
  Forall2 (fun before after =>
             after = if String.eqb (UploadedFile.id before) fileId then change before
                     else before)
    (UploadPage.uploadedFiles page)
    (UploadPage.uploadedFiles (setUploadedFiles fileId change page)).
Proof.
  unfold setUploadedFiles. cbn [UploadPage.uploadedFiles].
  induction (UploadPage.uploadedFiles page) as [|f l IH]; cbn [map]; constructor; auto.
Qed.

(** X20: [uploadAndAnalyzeFile] never throws and always settles the
    entries of its file: they end with status "success" and progress 100,
    holding the normalised result, which is then the one stored, exactly
    when the analysis returned, its payload was normalised and the storage
    took the result; otherwise they end with status "error", progress 0
    and a message, and nothing is stored.  Entries of other files, and the
    ids and files of all entries, are left as they are. *)
Theorem uploadAndAnalyzeFile_settles :
  forall (fileId : string) (file : File) (meanwhile : UploadPage.t -> UploadPage.t)
         (page : UploadPage.t) (w : World),
    let started := meanwhile (setUploadedFiles fileId (with_progress 10) page) in
    let page' := fst (uploadAndAnalyzeFile fileId file meanwhile page w) in
    exists outcome : AnalysisResult + string,
      page' = match outcome with
              | inl result =>
                  storing result (setUploadedFiles fileId (succeeded result) started)
              | inr message => setUploadedFiles fileId (failed message) started
              end /\
      (forall result,
         outcome = inl result <->
         exists apiResponse w1,
           analyzeDocument file w = (Normal apiResponse, w1) /\
           fst (mapApiResponseToFrontend apiResponse w1) = Normal result /\
           UploadPage.refused started result = None) /\
      Forall2 (fun before after =>
                 UploadedFile.id after = UploadedFile.id before /\
                 UploadedFile.file after = UploadedFile.file before /\
                 if String.eqb (UploadedFile.id before) fileId then settled before after
                 else after = before)
        (UploadPage.uploadedFiles started) (UploadPage.uploadedFiles page').
Proof.
  intros fileId file meanwhile page w started page'. subst page'.
  rewrite uploadAndAnalyzeFile_run. fold started. clearbody started.
  assert (Hfailed : forall m,
             Forall2 (fun before after =>
                        UploadedFile.id after = UploadedFile.id before /\
                        UploadedFile.file after = UploadedFile.file before /\
                        if String.eqb (UploadedFile.id before) fileId
                        then settled before after else after = before)
               (UploadPage.uploadedFiles started)
               (UploadPage.uploadedFiles (setUploadedFiles fileId (failed m) started))).
  { intros m. eapply Forall2_impl; [|apply setUploadedFiles_entries].
    intros before after ->.
    destruct (String.eqb (UploadedFile.id before) fileId); [|auto].
    split; [reflexivity|]. split; [reflexivity|]. right. cbn. repeat split. discriminate. }
  destruct (analyzeDocument file w) as [[apiResponse|e] w1] eqn:Hdoc.
  - destruct (mapApiResponseToFrontend apiResponse w1) as [[result|e] w2] eqn:Hmap.
    + destruct (UploadPage.refused started result) as [e|] eqn:Hstore.
      * exists (inr (errorMessage e)). split; [reflexivity|]. split; [|apply Hfailed].
        intros r. split; [discriminate|].
        intros (a & wa & Ha & Hr & Hs). inversion Ha; subst a wa.
        rewrite Hmap in Hr. cbn in Hr. inversion Hr; subst r. congruence.
      * exists (inl result). split; [reflexivity|]. split.
        -- intros r. split.
           ++ intros H. inversion H; subst r. exists apiResponse, w1.
              rewrite Hmap. auto.
           ++ intros (a & wa & Ha & Hr & Hs). inversion Ha; subst a wa.
              rewrite Hmap in Hr. cbn in Hr. now inversion Hr.
        -- cbn [fst storing UploadPage.uploadedFiles].
           eapply Forall2_impl; [|apply setUploadedFiles_entries].
           intros before after ->.
           destruct (String.eqb (UploadedFile.id before) fileId); [|auto].
           split; [reflexivity|]. split; [reflexivity|]. left. cbn.
           repeat split. discriminate.
    + exists (inr (errorMessage e)). split; [reflexivity|]. split; [|apply Hfailed].
      intros r. split; [discriminate|].
      intros (a & wa & Ha & Hr & Hs). inversion Ha; subst a wa.
      rewrite Hmap in Hr. discriminate.
  - exists (inr (errorMessage e)). split; [reflexivity|]. split; [|apply Hfailed].
    intros r. split; [discriminate|]. intros (a & wa & Ha & _). discriminate.
Qed.





Example uploadAndAnalyzeFile_one_claim :
  let page := fst (uploadAndAnalyzeFile "f1" note (adding "f1" note) empty_page
                     (world_of (answering 200 one_claim) half)) in
  map UploadedFile.status (UploadPage.uploadedFiles page) = ["success"] /\
  map UploadedFile.progress (UploadPage.uploadedFiles page) = [100] /\
  option_map (fun result => List.length (claims result)) (UploadPage.stored page)
  = Some 1%nat.
Proof. cbv zeta. repeat split. Qed.

Example uploadAndAnalyzeFile_offline :
  map UploadedFile.error
    (UploadPage.uploadedFiles
       (fst (uploadAndAnalyzeFile "f1" note (adding "f1" note) empty_page
               (world_of offline half))))
  = [Some "Server error during processing. Please try again later."].
Proof. reflexivity. Qed.

Example uploadAndAnalyzeFile_unprocessable :
  map UploadedFile.error
    (UploadPage.uploadedFiles
       (fst (uploadAndAnalyzeFile "f1" note (adding "f1" note) empty_page
               (world_of (answering 422 (JObj [("detail", JStr "No text found")])) half))))
  = [Some "No text found"].
Proof. reflexivity. Qed.
